(** * za-blog-ai: the authentication and blog-ownership policy of [server.ts]

    A shallow embedding of the Express handlers of [server.ts] over a model
    of the three collaborators they call (the Firestore collections, the
    [jsonwebtoken] package and [bcryptjs]), and the properties of the
    handlers stated in the design notes.

    Conventions of the embedding:
    - a JavaScript string is a [string]; a value that may be [undefined] or
      [null] is an [option] ([None] for both); the fields of a request body
      are strings or missing;
    - a Firestore collection is a finite map from document ids to typed
      documents, the ids being well-formed document ids; the order in which
      a query returns its documents is the enumeration order of the map, and
      a new document gets an id the collection does not use; the id of a
      request is any string, and [doc] turns it into a reference or throws
      as the client library does;
    - an instant is an integer number of milliseconds since the epoch, which
      is what [Date.now()] and [Timestamp.toDate()] hand to the code;
    - an [async] handler is a function from the database to a response and
      the new database; [throw] is an explicit result, and the handlers'
      [try]/[catch] turns it into the 500 reply. *)

From Stdlib Require Import ZArith String Ascii List Lia.
From stdpp Require Import base decidable option list sorting strings pretty infinite gmap fin_maps.

Local Open Scope Z_scope.
Local Open Scope string_scope.

(** ** JavaScript values *)

Module Js.

(** Truthiness of a string that may be missing: [undefined], [null] and the
    empty string are falsy. *)
Definition truthy (v : option string) : bool :=
  match v with
  | Some s => negb (String.eqb s "")
  | None => false
  end.

(** [String.prototype.split] with a one-character separator: the pieces
    between the separators, empty pieces included. *)
Fixpoint split (sep : ascii) (s : string) : list string :=
  match s with
  | EmptyString => [EmptyString]
  | String c rest =>
      if Ascii.eqb c sep then EmptyString :: split sep rest
      else match split sep rest with
           | w :: ws => String c w :: ws
           | [] => [String c EmptyString]
           end
  end.

(** The code unit of a character. *)
Definition charCode (c : ascii) : Z := Z.of_nat (nat_of_ascii c).

Definition fromCharCode (n : Z) : ascii := ascii_of_nat (Z.to_nat n).

Definition is_upper (c : ascii) : bool :=
  ((65 <=? charCode c) && (charCode c <=? 90))%Z.

Definition lower_char (c : ascii) : ascii :=
  if is_upper c then fromCharCode (charCode c + 32) else c.

(** [String.prototype.toLowerCase]: the letters A to Z are mapped to a to z
    and every other character of the model's alphabet is kept. *)
Fixpoint toLowerCase (s : string) : string :=
  match s with
  | EmptyString => EmptyString
  | String c rest => String (lower_char c) (toLowerCase rest)
  end.

(** [Array.prototype.sort] with a comparator: a stable sort, an element
    [a] staying before [b] when [cmp a b <= 0]. *)
Section sort.
Context {A : Type} (cmp : A → A → Z).

Fixpoint sort_insert (x : A) (l : list A) : list A :=
  match l with
  | [] => [x]
  | y :: l' => if (cmp x y <=? 0)%Z then x :: y :: l' else y :: sort_insert x l'
  end.

Definition sort (l : list A) : list A := foldr sort_insert [] l.
End sort.

(** Equality of two strings up to the case of their letters, letter by
    letter: two characters agree when they are equal or when one is a
    capital A to Z and the other its small letter. *)
Definition same_letter (c d : ascii) : bool :=
  Ascii.eqb c d
  || (is_upper c && (charCode c + 32 =? charCode d)%Z)
  || (is_upper d && (charCode d + 32 =? charCode c)%Z).

Fixpoint eq_ignore_case (a b : string) : bool :=
  match a, b with
  | EmptyString, EmptyString => true
  | String c a', String d b' => same_letter c d && eq_ignore_case a' b'
  | _, _ => false
  end.

End Js.

(** The string methods the configuration and the document paths use. *)
Module JsString.

(** [s.startsWith(p)]. *)
Fixpoint startsWith (p s : string) : bool :=
  match p with
  | EmptyString => true
  | String a p' =>
      match s with
      | String b s' => Ascii.eqb a b && startsWith p' s'
      | EmptyString => false
      end
  end.

(** [s.includes(p)]. *)
Fixpoint includes (p s : string) : bool :=
  startsWith p s
  || match s with
     | EmptyString => false
     | String _ s' => includes p s'
     end.

(** [s.endsWith(p)]. *)
Fixpoint endsWith (p s : string) : bool :=
  String.eqb p s
  || match s with
     | EmptyString => false
     | String _ s' => endsWith p s'
     end.

(** [s.slice(n)]. *)
Fixpoint slice (n : nat) (s : string) : string :=
  match n, s with
  | S n', String _ s' => slice n' s'
  | _, _ => s
  end.

(** [s.slice(0, -1)]. *)
Fixpoint slice_0_m1 (s : string) : string :=
  match s with
  | EmptyString => EmptyString
  | String c s' =>
      match s' with
      | EmptyString => EmptyString
      | String _ _ => String c (slice_0_m1 s')
      end
  end.

(** [s.replace(p, r)] with a string pattern: the first occurrence only. *)
Fixpoint replace (p r s : string) : string :=
  if startsWith p s then r +:+ slice (String.length p) s
  else match s with
       | EmptyString => EmptyString
       | String c s' => String c (replace p r s')
       end.

(** The line feed, and [s.replace(/\\n/g, '\n')]: every backslash followed
    by [n] becomes a line feed. *)
Definition LF : ascii := ascii_of_nat 10.

Fixpoint unescape_newlines (s : string) : string :=
  match s with
  | EmptyString => EmptyString
  | String c s' =>
      match s' with
      | String d s'' =>
          if Ascii.eqb c "\" && Ascii.eqb d "n" then String LF (unescape_newlines s'')
          else String c (unescape_newlines s')
      | EmptyString => String c EmptyString
      end
  end.

End JsString.

(** ** Documents *)

(** A document of the [users] collection. *)
Module User.
Record t := mk {
  username : string;
  password : option string;
  role : option string;
  email : option string;
  google_id : option string;
  avatar : option string;
  created_at : Z
}.

(** The field written by [userDoc.ref.update({ google_id: googleId })]. *)
Definition set_google_id (g : string) (u : t) : t :=
  mk (username u) (password u) (role u) (email u) (Some g) (avatar u) (created_at u).
End User.

(** A document of the [blogs] collection. [user_id] is [None] for the
    [null] owner of an anonymous post. *)
Module Blog.
Record t := mk {
  user_id : option string;
  title : string;
  content : string;
  excerpt : string;
  tone : string;
  language : string;
  created_at : option Z;
  updated_at : option Z
}.

(** The fields written by
    [update({ title, content, excerpt, updated_at: serverTimestamp() })]. *)
Definition set_contents (title' content' excerpt' : string) (now : Z) (b : t) : t :=
  mk (user_id b) title' content' excerpt' (tone b) (language b) (created_at b) (Some now).
End Blog.

(** ** The Firestore collections *)

Module Firestore.

(** A document reference made from a path: the segments of the path below
    the collection. One segment names a document of the collection; more
    name a document of a collection nested in one of its documents, and the
    server stores nothing there. *)
Definition Ref : Type := list string.

(** [ResourcePath.split]: the pieces between the slashes, the empty ones
    dropped, so that a leading or a trailing slash is allowed. *)
Definition segments (path : string) : list string :=
  filter (λ piece, piece ≠ "") (Js.split "/" path).

(** [.doc(path)]: the reference, or [None] when the call throws. The path
    has to be a non-empty string without [//], and, appended to the
    collection's path, has to point to a document: below a collection that
    is an odd number of segments. *)
Definition doc (path : string) : option Ref :=
  if String.eqb path "" || JsString.includes "//" path then None
  else if Nat.odd (length (segments path)) then Some (segments path)
  else None.

(** [ref.id]: the last segment. *)
Definition id (ref : Ref) : string := List.last ref "".

(** A plain id, as the store generates them: not empty and without a
    slash. *)
Fixpoint no_slash (s : string) : bool :=
  match s with
  | EmptyString => true
  | String c s' => negb (Ascii.eqb c "/") && no_slash s'
  end.

Definition plain (s : string) : bool := negb (String.eqb s "") && no_slash s.

Section collection.
Context {D : Type}.

(** The documents a query ranges over, each with its id. *)
Definition docs (col : gmap string D) : list (string * D) := map_to_list col.

(** [.where(field, '==', value)], the field comparison given as a test on
    the document. *)
Definition where_ (test : D → bool) (q : list (string * D)) : list (string * D) :=
  filter (λ d, test d.2 = true) q.

Definition key_ge (key : D → option Z) (a b : string * D) : Prop :=
  (default 0 (key b.2) ≤ default 0 (key a.2))%Z.

#[global] Instance key_ge_dec key a b : Decision (key_ge key a b).
Proof. unfold key_ge. apply _. Defined.

(** [.orderBy(field, 'desc')]: only the documents that have the field,
    largest value first. *)
Definition orderBy_desc (key : D → option Z) (q : list (string * D)) : list (string * D) :=
  merge_sort (key_ge key) (filter (λ d, is_Some (key d.2)) q).

(** [.limit(n)]. *)
Definition limit (n : nat) (q : list (string * D)) : list (string * D) := take n q.

(** [ref.get()]: the snapshot's data, [None] when [!doc.exists]. *)
Definition get (col : gmap string D) (ref : Ref) : option D :=
  match ref with
  | [id] => col !! id
  | _ => None
  end.

(** [.add(data)]: the document is stored under an id the collection does
    not use yet; the reference (its id) is returned. *)
Definition add (data : D) (col : gmap string D) : string * gmap string D :=
  let id := fresh (dom col) in (id, <[id := data]> col).

(** [.update(fields)] on the document of the collection with this id:
    fails when the document does not exist. *)
Definition update (id : string) (fields : D → D) (col : gmap string D) : option (gmap string D) :=
  match col !! id with
  | Some d => Some (<[id := fields d]> col)
  | None => None
  end.

(** [.delete()] on the document of the collection with this id. *)
Definition delete (id : string) (col : gmap string D) : gmap string D :=
  base.delete id col.

(** [ref.update(fields)] and [ref.delete()] on a reference made from a
    path. *)
Definition ref_update (ref : Ref) (fields : D → D) (col : gmap string D)
    : option (gmap string D) :=
  match ref with
  | [id] => update id fields col
  | _ => None
  end.

Definition ref_delete (ref : Ref) (col : gmap string D) : gmap string D :=
  match ref with
  | [id] => delete id col
  | _ => col
  end.
End collection.
End Firestore.

Arguments Firestore.docs : simpl never.
Arguments Firestore.where_ : simpl never.
Arguments Firestore.orderBy_desc : simpl never.
Arguments Firestore.limit : simpl never.
Arguments Firestore.add : simpl never.
Arguments Firestore.doc : simpl never.
Arguments Js.truthy : simpl never.
Arguments Js.sort : simpl never.

(** The database handle of [getDb()]: the two collections. *)
Record Db := mkDb {
  usersCol : gmap string User.t;
  blogsCol : gmap string Blog.t
}.

(** ** Requests and responses *)

(** The claims of a session token, with the [iat] and [exp] that
    [jsonwebtoken] adds (in seconds). *)
Module Claims.
Record t := mk {
  id : string;
  username : string;
  role : string;
  iat : Z;
  exp : option Z
}.
End Claims.

(** [req.body]: every field is a string or missing. *)
Record Body := mkBody {
  b_username : option string;
  b_password : option string;
  b_title : option string;
  b_content : option string;
  b_excerpt : option string;
  b_tone : option string;
  b_language : option string
}.

(** The parts of an Express request the handlers read. [user] is the field
    the authentication middleware sets. *)
Record Request := mkRequest {
  authorization : option string;
  params_id : string;
  query_code : option string;
  body : Body;
  user : option Claims.t
}.

Definition set_user (u : option Claims.t) (req : Request) : Request :=
  mkRequest (authorization req) (params_id req) (query_code req) (body req) u.

(** What a handler sends. *)
Inductive Sent :=
| JsonError (error : string)
| JsonUser (id username role : string)
| JsonLogin (token : string) (id username role : string)
| JsonBlogs (blogs : list (string * Blog.t))
| JsonBlog (id : string) (blog : Blog.t)
| JsonMessage (message : string)
| JsonStats (userCount : nat)
| OAuthSuccessPage (token : string) (id username role : string)
| Text (text : string).

Record Response := mkResponse { status : Z; sent : Sent }.

(** The profile attributes of Google's userinfo endpoint. *)
Record Profile := mkProfile {
  sub : string;
  name : option string;
  email : option string;
  picture : option string
}.

(** What a request takes from outside the process: the clock (also the
    server timestamp of the store), the salt [bcrypt] draws, and the
    identity provider's answer to an authorization code ([None] when one of
    the two calls to it fails). *)
Record World := mkWorld {
  now : Z;
  salt : string;
  google : string → option Profile
}.

(** ** Asynchronous code over the database *)

Inductive Outcome (A : Type) :=
| Returned (a : A)
| Thrown (e : string).
Arguments Returned {A} a.
Arguments Thrown {A} e.

Definition Async (A : Type) : Type := Db → Outcome A * Db.

#[global] Instance Async_ret : MRet Async := λ A a db, (Returned a, db).
#[global] Instance Async_bind : MBind Async := λ A B f m db,
  match m db with
  | (Returned a, db') => f a db'
  | (Thrown e, db') => (Thrown e, db')
  end.

Definition throw {A} (e : string) : Async A := λ db, (Thrown e, db).

(** A handler as Express sees it. *)
Definition Handler : Type := Db → Response * Db.

(** [try { ... } catch (error) { ... }] around a handler's body. *)
Definition try_catch (body : Async Response) (handle : string → Response) : Handler :=
  λ db, match body db with
        | (Returned r, db') => (r, db')
        | (Thrown e, db') => (handle e, db')
        end.

Definition res (code : Z) (s : Sent) : Response := mkResponse code s.

(** Reading and replacing the collections. *)
Definition users : Async (gmap string User.t) := λ db, (Returned (usersCol db), db).
Definition blogs : Async (gmap string Blog.t) := λ db, (Returned (blogsCol db), db).
Definition put_users (col : gmap string User.t) : Async unit :=
  λ db, (Returned (), mkDb col (blogsCol db)).
Definition put_blogs (col : gmap string Blog.t) : Async unit :=
  λ db, (Returned (), mkDb (usersCol db) col).

(** A value handed to Firestore, which refuses [undefined]. *)
Definition defined (v : option string) : Async string :=
  match v with
  | Some s => mret s
  | None => throw "Cannot use undefined as a Firestore value"
  end.

Definition send (r : Response) : Handler := λ db, (r, db).

(** [a || d] with a string default. *)
Definition or_default (a : option string) (d : string) : string :=
  match a with
  | Some s => if Js.truthy a then s else d
  | None => d
  end.

(** [a || null]. *)
Definition or_null (a : option string) : option string :=
  if Js.truthy a then a else None.

(** The date a listed blog is sorted by:
    [a.created_at?.toDate?.() || new Date(0)]. *)
Definition dateOf (a : string * Blog.t) : Z := default 0 (Blog.created_at a.2).

(** [{ expiresIn: '24h' }], in seconds. *)
Definition expiresIn_24h : Z := 24 * 60 * 60.

(** The errors [jwt.verify] reports. *)
Inductive VerifyError := JsonWebTokenError | TokenExpiredError.

(** ** Configuration *)

(** [getBaseUrl] and [REDIRECT_URI], as functions of [process.env.APP_URL]. *)
Module Oauth.

Definition default_url : string :=
  "https://ais-dev-gml4s4622pxoq3pv3dii2h-41700831825.asia-southeast1.run.app".

Definition getBaseUrl (APP_URL : option string) : string :=
  let url :=
    match APP_URL with
    | Some u =>
        if negb (Js.truthy APP_URL) || String.eqb u "MY_APP_URL" || String.eqb u "YOUR_APP_URL"
        then default_url else u
    | None => default_url
    end in
  let url :=
    if JsString.includes ".run.app" url then JsString.replace "http://" "https://" url
    else url in
  if JsString.endsWith "/" url then JsString.slice_0_m1 url else url.

Definition REDIRECT_URI (APP_URL : option string) : string :=
  getBaseUrl APP_URL +:+ "/auth/google/callback".

End Oauth.

(** [getDb]: the Firebase app and the database handle, created on first
    use from the three environment variables. *)
Module Firebase.

Record Env := mkEnv {
  FIREBASE_PROJECT_ID : option string;
  FIREBASE_CLIENT_EMAIL : option string;
  FIREBASE_PRIVATE_KEY : option string
}.

(** The argument of [admin.credential.cert]. *)
Record Cert := mkCert {
  projectId : option string;
  clientEmail : option string;
  privateKey : option string
}.

(** The module's state: [admin.apps], each app standing for the credential
    it was initialised with, and the variable [db], holding the app its
    handle was taken from once it is set. The server initialises no app
    elsewhere, so the app [admin.firestore()] answers for is the first one. *)
Record State := mkState {
  apps : list Cert;
  db : option Cert
}.

Definition missing : string :=
  "Firebase environment variables are missing. Please check your .env file.".

(** [getDb()]: the handle, or the error thrown. [initializeApp] is the
    library's answer to a credential: the error it throws, if any. The
    [catch] logs the error and throws it again. *)
Definition getDb (initializeApp : Cert → option string) (env : Env) (st : State)
    : (string + Cert) * State :=
  match db st with
  | Some handle => (inr handle, st)
  | None =>
      let privateKey := JsString.unescape_newlines <$> FIREBASE_PRIVATE_KEY env in
      match apps st with
      | [] =>
          if negb (Js.truthy (FIREBASE_PROJECT_ID env))
             || negb (Js.truthy (FIREBASE_CLIENT_EMAIL env))
             || negb (Js.truthy (FIREBASE_PRIVATE_KEY env))
          then (inl missing, st)
          else
            let cert := mkCert (FIREBASE_PROJECT_ID env) (FIREBASE_CLIENT_EMAIL env)
                          privateKey in
            match initializeApp cert with
            | Some error => (inl error, st)
            | None => (inr cert, mkState [cert] (Some cert))
            end
      | app :: _ => (inr app, mkState (apps st) (Some app))
      end
  end.

End Firebase.

(** ** The client's requests *)

Module Client.

(** The headers the pages of [App.tsx] send with a list or create request:
    [token ? { Authorization: `Bearer ${token}` } : {}]. *)
Definition headers (token : option string) : option string :=
  match token with
  | Some t => if Js.truthy (Some t) then Some ("Bearer " +:+ t) else None
  | None => None
  end.

End Client.

(** ** A plain instance of the two packages

    The server below is stated over any token serialisation and any password
    hash. To run it on examples, here is the plainest instance: a token is
    the text of its payload, field by field, followed by the secret, and a
    hash is the password behind a marker. *)

Module Plain.

(** A field is written character by character, each behind a [c], and
    closed by a dot. *)
Fixpoint frame (field rest : string) : string :=
  match field with
  | EmptyString => String "." rest
  | String c field' => String "c" (String c (frame field' rest))
  end.

Fixpoint unframe (text : string) : option (string * string) :=
  match text with
  | String tag text' =>
      if Ascii.eqb tag "." then Some (EmptyString, text')
      else if Ascii.eqb tag "c" then
        match text' with
        | String c text'' =>
            match unframe text'' with
            | Some (field, rest) => Some (String c field, rest)
            | None => None
            end
        | EmptyString => None
        end
      else None
  | EmptyString => None
  end.

(** Numbers are written in binary, lowest bit first, behind their sign. *)
Fixpoint bits (p : positive) : string :=
  match p with
  | xH => EmptyString
  | xO p' => String "0" (bits p')
  | xI p' => String "1" (bits p')
  end.

Fixpoint of_bits (text : string) : positive :=
  match text with
  | String b text' =>
      if Ascii.eqb b "0" then xO (of_bits text') else xI (of_bits text')
  | EmptyString => xH
  end.

Definition number (z : Z) : string :=
  match z with
  | Z0 => "z"
  | Zpos p => String "p" (bits p)
  | Zneg p => String "n" (bits p)
  end.

Definition of_number (text : string) : Z :=
  match text with
  | String sign text' =>
      if Ascii.eqb sign "p" then Zpos (of_bits text')
      else if Ascii.eqb sign "n" then Zneg (of_bits text')
      else Z0
  | EmptyString => Z0
  end.

Definition optional (z : option Z) : string :=
  match z with
  | Some z' => number z'
  | None => EmptyString
  end.

Definition of_optional (text : string) : option Z :=
  match text with
  | EmptyString => None
  | _ => Some (of_number text)
  end.

Definition hs256_encode (payload : Claims.t) (secret : string) : string :=
  frame (Claims.id payload)
    (frame (Claims.username payload)
       (frame (Claims.role payload)
          (frame (number (Claims.iat payload))
             (frame (optional (Claims.exp payload)) secret)))).

Definition hs256_decode (token secret : string) : option Claims.t :=
  '(id, t1) ← unframe token;
  '(username, t2) ← unframe t1;
  '(role, t3) ← unframe t2;
  '(iat, t4) ← unframe t3;
  '(exp, signature) ← unframe t4;
  if String.eqb signature secret
  then Some (Claims.mk id username role (of_number iat) (of_optional exp))
  else None.

Definition bcrypt_hash (pw : string) (cost : Z) (salt : string) : string :=
  String "$" pw.

Definition bcrypt_compare (pw hash : string) : bool :=
  String.eqb hash (String "$" pw).

End Plain.

(** ** Sample data

    A small database, a clock and a few requests, with tokens of the plain
    instance signed under the default secret. *)

Module Sample.

Definition alice : Claims.t := Claims.mk "u-alice" "alice" "user" 1 (Some 86401).
Definition stale : Claims.t := Claims.mk "u-alice" "alice" "user" 1 (Some 3).

Definition bearer_of (claims : Claims.t) : option string :=
  Some ("Bearer " +:+ Plain.hs256_encode claims "super-secret-key").

Definition carol : Profile :=
  mkProfile "g-carol" (Some "Carol") (Some "carol@example.com") None.
Definition bare : Profile := mkProfile "g-bare" None None None.

(** Five seconds after the epoch; the provider knows two codes. *)
Definition world : World :=
  mkWorld 5000 "salt"
    (λ code, if String.eqb code "code-carol" then Some carol
             else if String.eqb code "code-bare" then Some bare
             else None).

Definition post (owner : option string) (title : string) (created : Z) : Blog.t :=
  Blog.mk owner title "text" "summary" "formal" "en" (Some created) None.

Definition db : Db :=
  mkDb
    {[ "u-alice" := User.mk "alice" (Some "$pw1") (Some "user") None None None 10 ]}
    {[ "b1" := post (Some "u-alice") "first" 1000;
       "b2" := post None "public" 2000;
       "b3" := post (Some "u-alice") "second" 3000 ]}.

Definition no_body : Body := mkBody None None None None None None None.
Definition credentials (username password : string) : Body :=
  mkBody (Some username) (Some password) None None None None None.
Definition contents : Body :=
  mkBody None None (Some "title") (Some "content") (Some "excerpt") (Some "tone") (Some "vi").

Definition request (auth : option string) (id : string) (body : Body) : Request :=
  mkRequest auth id None body None.

Definition callback (code : string) : Request :=
  mkRequest None "" (Some code) no_body None.

(** An administrator's claims, and a Firebase environment whose private
    key is written on one line, its two line breaks escaped. *)
Definition root : Claims.t := Claims.mk "u-root" "root" "admin" 1 (Some 86401).

Definition env : Firebase.Env :=
  Firebase.mkEnv (Some "za-blog") (Some "admin@za-blog.example")
    (Some "BEGIN\nkey\nEND").

End Sample.

(** ** The server *)

Section Server.

(** The compact serialisation of [jsonwebtoken]: a payload signed under a
    secret, and its inverse, which yields the payload of a well-formed token
    whose signature matches the secret. *)
Variable hs256_encode : Claims.t → string → string.
Variable hs256_decode : string → string → option Claims.t.

(** [bcryptjs]: the hash of a password for a cost and a salt, and the
    comparison of a password with a hash. *)
Variable bcrypt_hash : string → Z → string → string.
Variable bcrypt_compare : string → string → bool.

(** [process.env.JWT_SECRET]. *)
Variable env_JWT_SECRET : option string.

Definition JWT_SECRET : string := or_default env_JWT_SECRET "super-secret-key".

(** [jwt.sign({ id, username, role }, secret, { expiresIn })] at the instant
    [clock]: [iat] is the clock in whole seconds and [exp] lies [expiresIn]
    seconds after it. *)
Definition jwt_sign (id username role : string) (secret : string) (expiresIn : Z) (clock : Z) : string :=
  let iat := (clock / 1000)%Z in
  hs256_encode (Claims.mk id username role iat (Some (iat + expiresIn)%Z)) secret.

(** [jwt.verify(token, secret, callback)] at the instant [clock]: the
    callback's [err] or its decoded payload. *)
Definition jwt_verify (token secret : string) (clock : Z) : VerifyError + Claims.t :=
  match hs256_decode token secret with
  | None => inl JsonWebTokenError
  | Some payload =>
      match Claims.exp payload with
      | Some e => if (e <=? clock / 1000)%Z then inl TokenExpiredError else inr payload
      | None => inr payload
      end
  end.

(** [authHeader && authHeader.split(' ')[1]]. *)
Definition bearer (req : Request) : option string :=
  match authorization req with
  | Some authHeader =>
      if Js.truthy (Some authHeader) then Js.split " " authHeader !! 1%nat
      else Some authHeader
  | None => None
  end.

(** *** Auth middleware *)

Definition authenticateToken (w : World) (req : Request) (next : Request → Handler) : Handler :=
  match bearer req with
  | Some token =>
      if negb (Js.truthy (Some token)) then send (res 401 (JsonError "Unauthorized"))
      else match jwt_verify token JWT_SECRET (now w) with
           | inl err => send (res 403 (JsonError "Forbidden"))
           | inr payload => next (set_user (Some payload) req)
           end
  | None => send (res 401 (JsonError "Unauthorized"))
  end.

Definition tryAuthenticate (w : World) (req : Request) (next : Request → Handler) : Handler :=
  match bearer req with
  | Some token =>
      if negb (Js.truthy (Some token)) then next (set_user None req)
      else match jwt_verify token JWT_SECRET (now w) with
           | inl err => next (set_user None req)
           | inr payload => next (set_user (Some payload) req)
           end
  | None => next (set_user None req)
  end.

(** How a request stands with respect to the middleware. *)

(** The request carries no bearer token: [!token] holds. *)
Definition no_token (req : Request) : Prop :=
  bearer req = None ∨ bearer req = Some "".

(** The request carries the bearer token [token]. *)
Definition has_token (req : Request) (token : string) : Prop :=
  bearer req = Some token ∧ token ≠ "".

(** The request is anonymous for best-effort mode: it has no bearer token,
    or one that [jwt.verify] refuses. *)
Definition anonymous (w : World) (req : Request) : Prop :=
  no_token req
  ∨ (∃ token err, has_token req token ∧ jwt_verify token JWT_SECRET (now w) = inl err).

(** The request carries a bearer token that verifies to [caller]. *)
Definition authenticated (w : World) (req : Request) (caller : Claims.t) : Prop :=
  ∃ token, has_token req token ∧ jwt_verify token JWT_SECRET (now w) = inr caller.

(** [usersCol.where(field, '==', value).limit(1).get()]. *)
Definition users_where (test : User.t → bool) : Async (list (string * User.t)) :=
  col ← users;
  mret (Firestore.limit 1 (Firestore.where_ test (Firestore.docs col))).

(** [seedAdmin]: the bootstrap account, created at start when no user is
    named [admin]; an error is logged and swallowed. *)
Definition seedAdmin (w : World) (db : Db) : Db :=
  let seeding : Async unit :=
    adminSnapshot ← users_where (λ u, String.eqb (User.username u) "admin");
    match adminSnapshot with
    | [] =>
        let hashedPassword := bcrypt_hash "1900" 10 (salt w) in
        col ← users;
        put_users (Firestore.add (User.mk "admin" (Some hashedPassword) (Some "admin")
                                    None None None (now w)) col).2
    | _ :: _ => mret ()
    end in
  (seeding db).2.

(** *** Auth routes *)

(** [POST /api/auth/register]. *)
Definition post_api_auth_register (w : World) (req : Request) : Handler :=
  let username := b_username (body req) in
  let password := b_password (body req) in
  if Js.truthy username && bool_decide (Js.toLowerCase <$> username = Some "admin") then
    send (res 400 (JsonError "Cannot register with this username"))
  else
    try_catch
      (uname ← defined username;
       userSnapshot ← users_where (λ u, String.eqb (User.username u) uname);
       match userSnapshot with
       | _ :: _ => mret (res 400 (JsonError "Username already exists"))
       | [] =>
           match password with
           | None => throw "Illegal arguments: undefined, number"
           | Some pw =>
               let hashedPassword := bcrypt_hash pw 10 (salt w) in
               col ← users;
               let userRef := Firestore.add (User.mk uname (Some hashedPassword) (Some "user")
                                               None None None (now w)) col in
               put_users userRef.2;;
               mret (res 201 (JsonUser userRef.1 uname "user"))
           end
       end)
      (λ _, res 500 (JsonError "Internal server error")).

(** [POST /api/auth/login]. *)
Definition post_api_auth_login (w : World) (req : Request) : Handler :=
  let username := b_username (body req) in
  let password := b_password (body req) in
  try_catch
    (uname ← defined username;
     userSnapshot ← users_where (λ u, String.eqb (User.username u) uname);
     match userSnapshot with
     | [] => mret (res 401 (JsonError "Invalid credentials"))
     | userDoc :: _ =>
         let userData := userDoc.2 in
         if negb (Js.truthy (User.password userData)) then
           mret (res 401 (JsonError
             "This account uses social login. Please sign in with Google."))
         else
           match password with
           | None => throw "Illegal arguments: undefined, string"
           | Some pw =>
               if negb (bcrypt_compare pw (default "" (User.password userData))) then
                 mret (res 401 (JsonError "Invalid credentials"))
               else
                 let role := or_default (User.role userData) "user" in
                 let token := jwt_sign userDoc.1 (User.username userData) role
                                JWT_SECRET expiresIn_24h (now w) in
                 mret (res 200 (JsonLogin token userDoc.1 (User.username userData) role))
           end
     end)
    (λ _, res 500 (JsonError "Internal server error")).

(** *** Google OAuth *)

(** [name || email.split('@')[0]]: reading [split] off a missing email is
    a [TypeError]. *)
Definition default_username (name email : option string) : Async string :=
  if Js.truthy name then mret (default "" name)
  else match email with
       | Some e => mret (default "" (head (Js.split "@" e)))
       | None => throw "TypeError: Cannot read properties of undefined (reading 'split')"
       end.

(** [GET /auth/google/callback], from the profile on: find or create the
    user, then issue the session token. *)
Definition get_auth_google_callback (w : World) (req : Request) : Handler :=
  match query_code req with
  | Some code =>
      if negb (Js.truthy (Some code)) then send (res 400 (Text "No code provided"))
      else
        try_catch
          (profile ← match google w code with
                     | Some p => mret p
                     | None => throw "AxiosError"
                     end;
           let googleId := sub profile in
           userSnapshot ← users_where (λ u, bool_decide (User.google_id u = Some googleId));
           userDoc ←
             match userSnapshot with
             | [] =>
                 linked ←
                   (if Js.truthy (email profile) then
                      emailSnapshot ← users_where (λ u, bool_decide (User.email u = email profile));
                      match emailSnapshot with
                      | found :: _ =>
                          col ← users;
                          match Firestore.update found.1 (User.set_google_id googleId) col with
                          | Some col' => put_users col';; mret (Some found)
                          | None => throw "NOT_FOUND"
                          end
                      | [] => mret None
                      end
                    else mret None);
                 match linked with
                 | Some found => mret found
                 | None =>
                     uname ← default_username (name profile) (email profile);
                     col ← users;
                     let data := User.mk uname None (Some "user") (or_null (email profile))
                                   (Some googleId) (or_null (picture profile)) (now w) in
                     let newUser := Firestore.add data col in
                     put_users newUser.2;;
                     mret (newUser.1, data)
                 end
             | found :: _ => mret found
             end;
           let userData := userDoc.2 in
           let role := or_default (User.role userData) "user" in
           let token := jwt_sign userDoc.1 (User.username userData) role
                          JWT_SECRET expiresIn_24h (now w) in
           mret (res 200 (OAuthSuccessPage token userDoc.1 (User.username userData) role)))
          (λ _, res 500 (Text "Authentication failed"))
  | None => send (res 400 (Text "No code provided"))
  end.

(** The two lookups of the account resolution. *)
Definition byGoogleId (profile : Profile) (db : Db) : list (string * User.t) :=
  Firestore.limit 1
    (Firestore.where_ (λ u, bool_decide (User.google_id u = Some (sub profile)))
       (Firestore.docs (usersCol db))).

Definition byEmail (profile : Profile) (db : Db) : list (string * User.t) :=
  if Js.truthy (email profile) then
    Firestore.limit 1
      (Firestore.where_ (λ u, bool_decide (User.email u = email profile))
         (Firestore.docs (usersCol db)))
  else [].

(** The page sent for the resolved user. *)
Definition success_page (w : World) (userDoc : string * User.t) : Response :=
  let role := or_default (User.role userDoc.2) "user" in
  res 200 (OAuthSuccessPage
             (jwt_sign userDoc.1 (User.username userDoc.2) role JWT_SECRET
                expiresIn_24h (now w))
             userDoc.1 (User.username userDoc.2) role).

(** *** Blog routes *)

(** The handler of [GET /api/blogs]. *)
Definition get_api_blogs (w : World) (req : Request) : Handler :=
  try_catch
    (col ← blogs;
     match user req with
     | Some caller =>
         let userBlogsSnapshot :=
           Firestore.where_ (λ b, bool_decide (Blog.user_id b = Some (Claims.id caller)))
             (Firestore.docs col) in
         let blogs := Js.sort (λ a b, dateOf b - dateOf a)%Z userBlogsSnapshot in
         mret (res 200 (JsonBlogs blogs))
     | None =>
         let snapshot :=
           Firestore.limit 20
             (Firestore.orderBy_desc Blog.created_at
                (Firestore.where_ (λ b, bool_decide (Blog.user_id b = None))
                   (Firestore.docs col))) in
         mret (res 200 (JsonBlogs snapshot))
     end)
    (λ _, res 500 (JsonError "Internal server error")).

(** [blogsCol.doc(path)] in a handler: the reference, or the error the
    library throws. *)
Definition blogs_doc (path : string) : Async Firestore.Ref :=
  match Firestore.doc path with
  | Some ref => mret ref
  | None => throw "Error: Value for argument documentPath"
  end.

(** [GET /api/blogs/:id]. *)
Definition get_api_blogs_id (w : World) (req : Request) : Handler :=
  try_catch
    (col ← blogs;
     ref ← blogs_doc (params_id req);
     match Firestore.get col ref with
     | None => mret (res 404 (JsonError "Blog not found"))
     | Some data => mret (res 200 (JsonBlog (Firestore.id ref) data))
     end)
    (λ _, res 400 (JsonError "Invalid blog ID")).

(** The handler of [POST /api/blogs]. *)
Definition post_api_blogs (w : World) (req : Request) : Handler :=
  try_catch
    (let userId := Claims.id <$> user req in
     title ← defined (b_title (body req));
     content ← defined (b_content (body req));
     excerpt ← defined (b_excerpt (body req));
     tone ← defined (b_tone (body req));
     language ← defined (b_language (body req));
     let blogData := Blog.mk userId title content excerpt tone language (Some (now w)) None in
     col ← blogs;
     let blogRef := Firestore.add blogData col in
     put_blogs blogRef.2;;
     mret (res 201 (JsonBlog blogRef.1 blogData)))
    (λ _, res 500 (JsonError "Internal server error")).

(** [req.user] where the handler reads a property of it. *)
Definition req_user (req : Request) : Async Claims.t :=
  match user req with
  | Some caller => mret caller
  | None => throw "TypeError: Cannot read properties of undefined"
  end.

(** [req.user.role !== 'admin' && blogDoc.data()?.user_id !== req.user.id]. *)
Definition not_admin_nor_owner (caller : Claims.t) (data : Blog.t) : bool :=
  negb (String.eqb (Claims.role caller) "admin")
  && negb (bool_decide (Blog.user_id data = Some (Claims.id caller))).

(** The handler of [PUT /api/blogs/:id]. *)
Definition put_api_blogs_id (w : World) (req : Request) : Handler :=
  try_catch
    (let blogId := params_id req in
     col ← blogs;
     ref ← blogs_doc blogId;
     match Firestore.get col ref with
     | None => mret (res 404 (JsonError "Blog not found"))
     | Some data =>
         caller ← req_user req;
         if not_admin_nor_owner caller data then
           mret (res 403 (JsonError "Unauthorized to edit this blog"))
         else
           title ← defined (b_title (body req));
           content ← defined (b_content (body req));
           excerpt ← defined (b_excerpt (body req));
           ref' ← blogs_doc blogId;
           match Firestore.ref_update ref' (Blog.set_contents title content excerpt (now w))
                   col with
           | Some col' =>
               put_blogs col';;
               mret (res 200 (JsonMessage "Blog updated successfully"))
           | None => throw "NOT_FOUND"
           end
     end)
    (λ _, res 500 (JsonError "Internal server error")).

(** The handler of [DELETE /api/blogs/:id]. *)
Definition delete_api_blogs_id (w : World) (req : Request) : Handler :=
  try_catch
    (let blogId := params_id req in
     col ← blogs;
     ref ← blogs_doc blogId;
     match Firestore.get col ref with
     | None => mret (res 404 (JsonError "Blog not found"))
     | Some data =>
         caller ← req_user req;
         if not_admin_nor_owner caller data then
           mret (res 403 (JsonError "Unauthorized to delete this blog"))
         else
           ref' ← blogs_doc blogId;
           put_blogs (Firestore.ref_delete ref' col);;
           mret (res 200 (JsonMessage "Blog deleted successfully"))
     end)
    (λ _, res 500 (JsonError "Internal server error")).

(** *** Admin routes *)

(** The handler of [GET /api/admin/stats]. *)
Definition get_api_admin_stats (w : World) (req : Request) : Handler :=
  match user req with
  | Some caller =>
      if negb (String.eqb (Claims.role caller) "admin") then
        send (res 403 (JsonError "Admin access required"))
      else
        try_catch
          (snapshot ← users;
           mret (res 200 (JsonStats (size snapshot))))
          (λ _, res 500 (JsonError "Internal server error"))
  | None => send (res 500 (JsonError "Internal server error"))
  end.

(** *** The routes, each with its middleware *)

Inductive Route :=
| POST_api_auth_register
| POST_api_auth_login
| GET_auth_google_callback
| GET_api_blogs
| GET_api_blogs_id
| POST_api_blogs
| PUT_api_blogs_id
| DELETE_api_blogs_id
| GET_api_admin_stats.

Definition app (route : Route) (w : World) (req : Request) : Handler :=
  match route with
  | POST_api_auth_register => post_api_auth_register w req
  | POST_api_auth_login => post_api_auth_login w req
  | GET_auth_google_callback => get_auth_google_callback w req
  | GET_api_blogs => tryAuthenticate w req (get_api_blogs w)
  | GET_api_blogs_id => get_api_blogs_id w req
  | POST_api_blogs => tryAuthenticate w req (post_api_blogs w)
  | PUT_api_blogs_id => authenticateToken w req (put_api_blogs_id w)
  | DELETE_api_blogs_id => authenticateToken w req (delete_api_blogs_id w)
  | GET_api_admin_stats => authenticateToken w req (get_api_admin_stats w)
  end.

(** *** What a handler leaves alone *)

(** A computation that leaves the blogs as they are; such computations
    compose. *)
Definition blogs_untouched {A} (m : Async A) : Prop :=
  ∀ db o db', m db = (o, db') → blogsCol db' = blogsCol db.

(** A handler keeps the owners: a blog stored before and after it has the
    same [user_id]. *)
Definition keeps_owners (h : Handler) : Prop :=
  ∀ db r db', h db = (r, db') →
  ∀ id post post', blogsCol db !! id = Some post → blogsCol db' !! id = Some post' →
  Blog.user_id post' = Blog.user_id post.

(** The stored users of a given username, as the two handlers query them. *)
Definition byUsername (uname : string) (db : Db) : list (string * User.t) :=
  Firestore.limit 1
    (Firestore.where_ (λ u, String.eqb (User.username u) uname)
       (Firestore.docs (usersCol db))).

(** ** Properties *)

Set Default Proof Using "Type".

(** What the collaborating packages are relied on for: a token decodes,
    under the secret that signed it, to the payload that was signed; a
    password compares equal to its own hash; a hash is a non-empty string. *)
Hypothesis hs256_decode_encode : ∀ payload secret,
  hs256_decode (hs256_encode payload secret) secret = Some payload.
Hypothesis bcrypt_compare_hash : ∀ pw cost s,
  bcrypt_compare pw (bcrypt_hash pw cost s) = true.
Hypothesis bcrypt_hash_truthy : ∀ pw cost s,
  Js.truthy (Some (bcrypt_hash pw cost s)) = true.

(** Running a handler's body: the monad's operations unfolded. *)
Tactic Notation "run" :=
  unfold try_catch, users_where, users, blogs, put_users, put_blogs, defined,
    req_user, throw, send, mbind, Async_bind, mret, Async_ret;
  simpl.
Tactic Notation "run" "in" hyp(H) :=
  unfold try_catch, users_where, users, blogs, put_users, put_blogs, defined,
    req_user, throw, send, mbind, Async_bind, mret, Async_ret in H;
  simpl in H.

(** *** JavaScript values *)

Example split_bearer : Js.split " " "Bearer abc" = ["Bearer"; "abc"].
Proof. reflexivity. Qed.
Example split_one : Js.split " " "Bearer" = ["Bearer"].
Proof. reflexivity. Qed.
Example lower_admin : Js.toLowerCase "AdMiN" = "admin".
Proof. reflexivity. Qed.

(** Document paths: a plain id and an id with a trailing slash name the
    same document, three segments name a nested document, and an empty
    path, a doubled slash or an even number of segments is refused. *)
Example doc_paths :
  Firestore.doc "b1" = Some ["b1"] ∧ Firestore.doc "b1/" = Some ["b1"]
  ∧ Firestore.doc "a/b/c" = Some ["a"; "b"; "c"]
  ∧ Firestore.doc "a/b" = None ∧ Firestore.doc "a//b" = None
  ∧ Firestore.doc "/" = None ∧ Firestore.doc "" = None.
Proof. by vm_compute. Qed.

(** *** The middleware *)

Lemma truthy_Some s : Js.truthy (Some s) = true ↔ s ≠ "".
Proof.
  unfold Js.truthy. destruct (String.eqb_spec s ""); simpl; split; congruence.
Qed.

Lemma authenticateToken_no_token w req next :
  no_token req → authenticateToken w req next = send (res 401 (JsonError "Unauthorized")).
Proof.
  unfold authenticateToken. intros [-> | ->]; reflexivity.
Qed.

Lemma authenticateToken_has_token w req next token :
  has_token req token →
  authenticateToken w req next =
    match jwt_verify token JWT_SECRET (now w) with
    | inl _ => send (res 403 (JsonError "Forbidden"))
    | inr payload => next (set_user (Some payload) req)
    end.
Proof.
  unfold authenticateToken. intros [-> Hne].
  apply truthy_Some in Hne. rewrite Hne. reflexivity.
Qed.

Lemma tryAuthenticate_no_token w req next :
  no_token req → tryAuthenticate w req next = next (set_user None req).
Proof.
  unfold tryAuthenticate. intros [-> | ->]; reflexivity.
Qed.

Lemma tryAuthenticate_has_token w req next token :
  has_token req token →
  tryAuthenticate w req next =
    match jwt_verify token JWT_SECRET (now w) with
    | inl _ => next (set_user None req)
    | inr payload => next (set_user (Some payload) req)
    end.
Proof.
  unfold tryAuthenticate. intros [-> Hne].
  apply truthy_Some in Hne. rewrite Hne. reflexivity.
Qed.

Lemma tryAuthenticate_anonymous w req next :
  anonymous w req → tryAuthenticate w req next = next (set_user None req).
Proof.
  intros [Hno | (token & err & Htok & Hver)].
  - by apply tryAuthenticate_no_token.
  - rewrite (tryAuthenticate_has_token _ _ _ token) by done. by rewrite Hver.
Qed.

(** C10. Strict mode tells its two rejections apart: without a bearer
    token the reply is 401 [Unauthorized], with a token that fails
    verification it is 403 [Forbidden]; either way the reply does not
    depend on the handler behind the middleware and the database is left as
    it was. This holds for the update, delete and admin-stats routes. *)
Theorem strict_mode_rejections w req db :
  (no_token req →
     (∀ next, authenticateToken w req next db = (res 401 (JsonError "Unauthorized"), db))
     ∧ app PUT_api_blogs_id w req db = (res 401 (JsonError "Unauthorized"), db)
     ∧ app DELETE_api_blogs_id w req db = (res 401 (JsonError "Unauthorized"), db)
     ∧ app GET_api_admin_stats w req db = (res 401 (JsonError "Unauthorized"), db))
  ∧ (∀ token err,
       has_token req token → jwt_verify token JWT_SECRET (now w) = inl err →
       (∀ next, authenticateToken w req next db = (res 403 (JsonError "Forbidden"), db))
       ∧ app PUT_api_blogs_id w req db = (res 403 (JsonError "Forbidden"), db)
       ∧ app DELETE_api_blogs_id w req db = (res 403 (JsonError "Forbidden"), db)
       ∧ app GET_api_admin_stats w req db = (res 403 (JsonError "Forbidden"), db)).
Proof.
  split.
  - intros Hno.
    assert (∀ next, authenticateToken w req next db
                    = (res 401 (JsonError "Unauthorized"), db)) as H.
    { intros next. by rewrite authenticateToken_no_token. }
    repeat split; first done; apply H.
  - intros token err Htok Hver.
    assert (∀ next, authenticateToken w req next db
                    = (res 403 (JsonError "Forbidden"), db)) as H.
    { intros next. rewrite (authenticateToken_has_token _ _ _ token) by done.
      by rewrite Hver. }
    repeat split; first done; apply H.
Qed.

(** C8. Best-effort mode never rejects: without a bearer token, and also
    with a token that fails verification (malformed, wrongly signed or
    expired), the handler runs with [req.user = null]. On the list route the
    reply is the anonymous listing, on the create route a well-formed post
    is stored with a null owner. *)
Theorem best_effort_mode_anonymous w req db :
  anonymous w req →
  (∀ next, tryAuthenticate w req next = next (set_user None req))
  ∧ app GET_api_blogs w req db = get_api_blogs w (set_user None req) db
  ∧ status (app GET_api_blogs w req db).1 = 200
  ∧ app POST_api_blogs w req db = post_api_blogs w (set_user None req) db
  ∧ (∀ title content excerpt tone language,
       b_title (body req) = Some title → b_content (body req) = Some content →
       b_excerpt (body req) = Some excerpt → b_tone (body req) = Some tone →
       b_language (body req) = Some language →
       let blog := Blog.mk None title content excerpt tone language (Some (now w)) None in
       let id := fresh (dom (blogsCol db)) in
       app POST_api_blogs w req db
       = (res 201 (JsonBlog id blog), mkDb (usersCol db) (<[id := blog]> (blogsCol db)))).
Proof.
  intros Hanon.
  assert (∀ next, tryAuthenticate w req next = next (set_user None req)) as H
    by (intros next; by apply tryAuthenticate_anonymous).
  split; first done. simpl. rewrite !H.
  split; first done. split; first done. split; first done.
  intros title content excerpt tone language Ht Hc He Htn Hl.
  unfold post_api_blogs. run. by rewrite Ht, Hc, He, Htn, Hl.
Qed.

Lemma authenticateToken_authenticated w req next caller :
  authenticated w req caller →
  authenticateToken w req next = next (set_user (Some caller) req).
Proof.
  intros (token & Htok & Hver).
  rewrite (authenticateToken_has_token _ _ _ token) by done. by rewrite Hver.
Qed.



(** A reference with a snapshot that exists names a document of the
    collection, by its id. *)
Lemma get_Some {D} (col : gmap string D) ref data :
  Firestore.get col ref = Some data ↔ ref = [Firestore.id ref] ∧ col !! Firestore.id ref = Some data.
Proof.
  split.
  - destruct ref as [|id [|? ?]]; by simpl.
  - intros [-> Hdata]. done.
Qed.

(** A plain id is a document path of one segment, itself. *)
Lemma split_no_slash s : Firestore.no_slash s = true → Js.split "/" s = [s].
Proof.
  induction s as [|c s IH]; [done|]. simpl.
  intros [Hc Hs]%andb_true_iff. apply negb_true_iff in Hc. rewrite Hc, IH; done.
Qed.

Lemma includes_no_slash s : Firestore.no_slash s = true → JsString.includes "//" s = false.
Proof.
  induction s as [|c s IH]; [done|].
  change (Firestore.no_slash (String c s))
    with (negb (Ascii.eqb c "/") && Firestore.no_slash s).
  intros [Hc Hs]%andb_true_iff. apply negb_true_iff in Hc.
  change (JsString.includes "//" (String c s))
    with (Ascii.eqb "/" c && JsString.startsWith "/" s || JsString.includes "//" s).
  by rewrite Ascii.eqb_sym, Hc, IH.
Qed.

Lemma doc_plain s : Firestore.plain s = true → Firestore.doc s = Some [s].
Proof.
  unfold Firestore.plain, Firestore.doc, Firestore.segments.
  intros [Hne Hs]%andb_true_iff. apply negb_true_iff in Hne.
  rewrite Hne, includes_no_slash, split_no_slash by done. simpl.
  apply String.eqb_neq in Hne. by rewrite filter_cons_True, filter_nil.
Qed.

(** The ids the store generates are plain: [fresh] picks the first decimal
    numeral the collection does not use. *)
Lemma pretty_N_go_plain x s :
  Firestore.plain s = true → Firestore.plain (pretty_N_go x s) = true.
Proof.
  revert s. induction (N.lt_wf_0 x) as [x _ IH]; intros s Hs.
  assert (x = 0 ∨ 0 < x)%N as [-> | Hpos] by lia; [done|].
  rewrite pretty_N_go_step by done. apply IH; [by apply N.div_lt|].
  unfold Firestore.plain in *. apply andb_true_iff in Hs as [_ Hs].
  simpl. rewrite Hs, andb_true_r.
  unfold pretty_N_char. by repeat case_match.
Qed.

Lemma pretty_nat_plain (n : nat) : Firestore.plain (pretty n) = true.
Proof.
  unfold pretty, pretty_nat, pretty, pretty_N.
  case_decide; [done|].
  rewrite pretty_N_go_step by lia. apply pretty_N_go_plain.
  unfold Firestore.plain. simpl. unfold pretty_N_char. by repeat case_match.
Qed.

Lemma fresh_string_pretty (xs : list string) : ∃ n : nat, fresh xs = pretty n.
Proof.
  unfold fresh, infinite_fresh, string_infinite, search_infinite.
  assert (∀ n (acc : Acc _ n),
            ∃ m : nat, Fix_F (λ _, string) (search_infinite_go pretty xs) acc = pretty m)
    as Hsearch.
  { fix FIX 2. intros n [?]. simpl. unfold search_infinite_go at 1.
    destruct (decide _); eauto. }
  apply Hsearch.
Qed.

Lemma fresh_plain (X : gset string) : Firestore.plain (fresh X) = true.
Proof.
  unfold fresh, set_fresh. simpl.
  destruct (fresh_string_pretty (elements X)) as [n ->]. apply pretty_nat_plain.
Qed.

(** The update handler, case by case. *)
Lemma put_api_blogs_id_cases w req caller db :
  user req = Some caller →
  put_api_blogs_id w req db =
    match Firestore.doc (params_id req) with
    | None => (res 500 (JsonError "Internal server error"), db)
    | Some ref =>
        match Firestore.get (blogsCol db) ref with
        | None => (res 404 (JsonError "Blog not found"), db)
        | Some data =>
            if not_admin_nor_owner caller data then
              (res 403 (JsonError "Unauthorized to edit this blog"), db)
            else
              match b_title (body req), b_content (body req), b_excerpt (body req) with
              | Some title, Some content, Some excerpt =>
                  (res 200 (JsonMessage "Blog updated successfully"),
                   mkDb (usersCol db)
                     (<[Firestore.id ref := Blog.set_contents title content excerpt (now w) data]>
                        (blogsCol db)))
              | _, _, _ => (res 500 (JsonError "Internal server error"), db)
              end
        end
    end.
Proof.
  intros Hu. unfold put_api_blogs_id, blogs_doc. run.
  destruct (Firestore.doc (params_id req)) as [ref|]; [|done]. simpl. rewrite Hu.
  destruct (Firestore.get (blogsCol db) ref) as [data|] eqn:Hdoc; [|done]. simpl.
  destruct (not_admin_nor_owner caller data); [done|].
  apply get_Some in Hdoc as [Href Hdoc].
  destruct (b_title (body req)), (b_content (body req)), (b_excerpt (body req));
    simpl; try done.
  rewrite Href. simpl. unfold Firestore.update. by rewrite Hdoc.
Qed.

(** The delete handler, case by case. *)
Lemma delete_api_blogs_id_cases w req caller db :
  user req = Some caller →
  delete_api_blogs_id w req db =
    match Firestore.doc (params_id req) with
    | None => (res 500 (JsonError "Internal server error"), db)
    | Some ref =>
        match Firestore.get (blogsCol db) ref with
        | None => (res 404 (JsonError "Blog not found"), db)
        | Some data =>
            if not_admin_nor_owner caller data then
              (res 403 (JsonError "Unauthorized to delete this blog"), db)
            else
              (res 200 (JsonMessage "Blog deleted successfully"),
               mkDb (usersCol db) (delete (Firestore.id ref) (blogsCol db)))
        end
    end.
Proof.
  intros Hu. unfold delete_api_blogs_id, blogs_doc. run.
  destruct (Firestore.doc (params_id req)) as [ref|]; [|done]. simpl. rewrite Hu.
  destruct (Firestore.get (blogsCol db) ref) as [data|] eqn:Hdoc; [|done]. simpl.
  destruct (not_admin_nor_owner caller data); [done|].
  apply get_Some in Hdoc as [Href Hdoc]. by rewrite Href.
Qed.


(** The two outcomes of the update route: a reply other than 200 and the
    database as it was, or 200 and one blog rewritten. *)
Lemma put_route_outcome w req db r db' :
  app PUT_api_blogs_id w req db = (r, db') →
  (status r ≠ 200 ∧ db' = db)
  ∨ (status r = 200
     ∧ ∃ id old title content excerpt,
         Firestore.doc (params_id req) = Some [id]
         ∧ (Firestore.plain (params_id req) = true → id = params_id req)
         ∧ blogsCol db !! id = Some old
         ∧ b_title (body req) = Some title
         ∧ b_content (body req) = Some content
         ∧ b_excerpt (body req) = Some excerpt
         ∧ db' = mkDb (usersCol db)
                   (<[id := Blog.set_contents title content excerpt (now w) old]>
                      (blogsCol db))).
Proof.
  simpl. unfold authenticateToken.
  destruct (bearer req) as [token|]; [|by intros [= <- <-]; left].
  destruct (negb (Js.truthy (Some token))); [by intros [= <- <-]; left|].
  destruct (jwt_verify token JWT_SECRET (now w)) as [err|caller];
    [by intros [= <- <-]; left|].
  rewrite (put_api_blogs_id_cases _ _ caller) by done. simpl.
  destruct (Firestore.doc (params_id req)) as [ref|] eqn:Hpath;
    [|by intros [= <- <-]; left].
  destruct (Firestore.get (blogsCol db) ref) as [old|] eqn:Hdoc;
    [|by intros [= <- <-]; left].
  destruct ref as [|id [|? ?]]; simpl in Hdoc; try done. simpl.
  destruct (not_admin_nor_owner caller old); [by intros [= <- <-]; left|].
  destruct (b_title (body req)) as [title|]; [|by intros [= <- <-]; left].
  destruct (b_content (body req)) as [content|]; [|by intros [= <- <-]; left].
  destruct (b_excerpt (body req)) as [excerpt|]; [|by intros [= <- <-]; left].
  intros [= <- <-]. right. split; [done|].
  exists id, old, title, content, excerpt. split_and!; try done.
  intros Hplain. rewrite doc_plain in Hpath by done. by injection Hpath.
Qed.

(** C9. Whatever the update route replies, the users are untouched, the
    blogs keep their ids, and every blog keeps its owner, tone, language
    and creation timestamp; a blog other than the addressed one is
    unchanged altogether. A successful (200) update replaces the title, the
    content and the excerpt of the addressed blog by the body's and sets its
    update timestamp to the store's time, and nothing else. The addressed
    blog is the one whose id the path of the request names: for a plain id,
    the id of the request itself. *)
Theorem update_changes_contents_only w req db r db' :
  app PUT_api_blogs_id w req db = (r, db') →
  usersCol db' = usersCol db
  ∧ dom (blogsCol db') = dom (blogsCol db)
  ∧ (status r = 200 →
       ∃ id old title content excerpt,
         Firestore.doc (params_id req) = Some [id]
         ∧ (Firestore.plain (params_id req) = true → id = params_id req)
         ∧ blogsCol db !! id = Some old
         ∧ b_title (body req) = Some title
         ∧ b_content (body req) = Some content
         ∧ b_excerpt (body req) = Some excerpt
         ∧ blogsCol db'
           = <[id :=
                 Blog.mk (Blog.user_id old) title content excerpt (Blog.tone old)
                   (Blog.language old) (Blog.created_at old) (Some (now w))]>
               (blogsCol db))
  ∧ (∀ id post', blogsCol db' !! id = Some post' →
       ∃ post, blogsCol db !! id = Some post
               ∧ Blog.user_id post' = Blog.user_id post
               ∧ Blog.tone post' = Blog.tone post
               ∧ Blog.language post' = Blog.language post
               ∧ Blog.created_at post' = Blog.created_at post
               ∧ (Firestore.doc (params_id req) ≠ Some [id] → post' = post)).
Proof.
  intros Hput.
  apply put_route_outcome in Hput
    as [[Hstatus ->] | (Hstatus & key & old & title & content & excerpt
                        & Hpath & Hplain & Hold & Ht & Hc & He & ->)].
  - split_and!; [done..|].
    intros id post' Hpost. by exists post'.
  - simpl. split_and!; [done| | |].
    + by apply dom_insert_lookup_L.
    + intros _. by exists key, old, title, content, excerpt.
    + intros id post'. destruct (decide (key = id)) as [<- | Hne].
      * rewrite lookup_insert_eq. intros [= <-]. by exists old.
      * rewrite lookup_insert_ne by done. intros Hpost. by exists post'.
Qed.

(** *** Registration *)

Lemma fromCharCode_charCode c : Js.fromCharCode (Js.charCode c) = c.
Proof.
  unfold Js.fromCharCode, Js.charCode. by rewrite Nat2Z.id, ascii_nat_embedding.
Qed.

Lemma lower_char_small c d :
  Js.is_upper c = true → (Js.charCode c + 32 = Js.charCode d)%Z →
  Js.lower_char c = d ∧ Js.lower_char d = d.
Proof.
  unfold Js.lower_char, Js.is_upper. intros Hc Hd. rewrite Hc, Hd.
  split; [apply fromCharCode_charCode|].
  apply andb_true_iff in Hc as [Hlo Hhi].
  apply Z.leb_le in Hlo, Hhi.
  replace (Js.charCode d <=? 90)%Z with false by (symmetry; apply Z.leb_gt; lia).
  by rewrite andb_false_r.
Qed.

Lemma same_letter_lower_char c d :
  Js.same_letter c d = true → Js.lower_char c = Js.lower_char d.
Proof.
  unfold Js.same_letter. rewrite !orb_true_iff, !andb_true_iff.
  intros [[Heq | [Hup Hd]] | [Hup Hc]].
  - apply Ascii.eqb_eq in Heq. by subst.
  - apply Z.eqb_eq in Hd. destruct (lower_char_small c d) as [-> ->]; done.
  - apply Z.eqb_eq in Hc. destruct (lower_char_small d c) as [-> ->]; done.
Qed.

Lemma eq_ignore_case_toLowerCase a b :
  Js.eq_ignore_case a b = true → Js.toLowerCase a = Js.toLowerCase b.
Proof.
  revert b. induction a as [|c a IH]; intros [|d b]; simpl; try done.
  rewrite andb_true_iff. intros [Hcd Hab].
  by rewrite (same_letter_lower_char c d), (IH b).
Qed.

(** C5. A registration whose username equals [admin] up to the case of
    its letters is refused with 400 and the reserved-username message, and
    the database (so the users collection) is left as it was. *)
Theorem register_admin_reserved w req db uname :
  b_username (body req) = Some uname →
  Js.eq_ignore_case uname "admin" = true →
  app POST_api_auth_register w req db
  = (res 400 (JsonError "Cannot register with this username"), db).
Proof.
  intros Hname Hadmin. simpl. unfold post_api_auth_register. rewrite Hname.
  apply eq_ignore_case_toLowerCase in Hadmin. simpl in Hadmin.
  assert (Js.truthy (Some uname) = true) as ->.
  { apply truthy_Some. by intros ->. }
  simpl. rewrite Hadmin. by rewrite bool_decide_eq_true_2.
Qed.

(** *** Tokens *)

(** The payload that [jwt_sign] signs. *)
Lemma jwt_sign_payload id username role secret expiresIn clock :
  hs256_decode (jwt_sign id username role secret expiresIn clock) secret
  = Some (Claims.mk id username role (clock / 1000)%Z (Some (clock / 1000 + expiresIn)%Z)).
Proof using hs256_decode_encode. unfold jwt_sign. apply hs256_decode_encode. Qed.

(** A token that decodes under the secret is refused as expired from its
    [exp] second on, and yields its payload before. *)
Lemma jwt_verify_exp token secret payload e clock :
  hs256_decode token secret = Some payload →
  Claims.exp payload = Some e →
  jwt_verify token secret clock
  = if (e <=? clock / 1000)%Z then inl TokenExpiredError else inr payload.
Proof. unfold jwt_verify. by intros -> ->. Qed.

(** The token of a successful login is signed by [jwt_sign] over the
    returned id, username and role, for 24 hours from the request's time. *)
Lemma login_token_issued w req db db' token id username role :
  app POST_api_auth_login w req db = (res 200 (JsonLogin token id username role), db') →
  token = jwt_sign id username role JWT_SECRET expiresIn_24h (now w).
Proof.
  simpl. unfold post_api_auth_login. run.
  repeat (case_match; simpl in *; simplify_eq); try done.
  all: by intros [= <- <- <- <-].
Qed.

(** C7. A token issued for [id], [username] and [role] at the instant
    [clock] carries exactly these claims, [iat] the second of issuance and
    [exp] 24 hours (86400 seconds) later; it verifies to these claims up to
    the last second before [exp], and from [exp] on verification fails with
    [TokenExpiredError] and returns no claims. The same failure is reported
    for every token signed under the secret whose [exp] has passed. The
    login route issues its tokens this way. *)
Theorem token_expires_after_24h id username role clock :
  let token := jwt_sign id username role JWT_SECRET expiresIn_24h clock in
  let claims := Claims.mk id username role (clock / 1000)%Z
                  (Some (clock / 1000 + 24 * 60 * 60)%Z) in
  hs256_decode token JWT_SECRET = Some claims
  ∧ (∀ clock', (clock' / 1000 < clock / 1000 + 24 * 60 * 60)%Z →
       jwt_verify token JWT_SECRET clock' = inr claims)
  ∧ (∀ clock', (clock / 1000 + 24 * 60 * 60 ≤ clock' / 1000)%Z →
       jwt_verify token JWT_SECRET clock' = inl TokenExpiredError)
  ∧ (∀ token' payload e clock',
       hs256_decode token' JWT_SECRET = Some payload → Claims.exp payload = Some e →
       (e ≤ clock' / 1000)%Z →
       jwt_verify token' JWT_SECRET clock' = inl TokenExpiredError)
  ∧ (∀ w req db db' token' id' username' role',
       app POST_api_auth_login w req db
         = (res 200 (JsonLogin token' id' username' role'), db') →
       token' = jwt_sign id' username' role' JWT_SECRET expiresIn_24h (now w)).
Proof using hs256_decode_encode.
  intros token claims.
  assert (hs256_decode token JWT_SECRET = Some claims) as Hdec
    by apply jwt_sign_payload.
  split_and!; [done| | | |].
  - intros clock' Hlt.
    rewrite (jwt_verify_exp _ _ claims (clock / 1000 + 24 * 60 * 60)%Z) by done.
    by rewrite (proj2 (Z.leb_gt _ _)) by lia.
  - intros clock' Hle.
    rewrite (jwt_verify_exp _ _ claims (clock / 1000 + 24 * 60 * 60)%Z) by done.
    by rewrite (proj2 (Z.leb_le _ _)) by lia.
  - intros token' payload e clock' Hdec' Hexp Hle.
    rewrite (jwt_verify_exp _ _ payload e) by done.
    by rewrite (proj2 (Z.leb_le _ _)) by lia.
  - intros w req db db' token' id' username' role'. apply login_token_issued.
Qed.

(** *** Registration, then login *)

Section collection_facts.
Context {D : Type}.
Implicit Types (col : gmap string D) (q : list (string * D)).

Lemma add_fresh data col : col !! (Firestore.add data col).1 = None.
Proof. simpl. apply not_elem_of_dom. apply is_fresh. Qed.

Lemma limit_1_nil q : Firestore.limit 1 q = [] → q = [].
Proof. by destruct q. Qed.

Lemma elem_of_where test q d :
  d ∈ Firestore.where_ test q ↔ test d.2 = true ∧ d ∈ q.
Proof. unfold Firestore.where_. by rewrite list_elem_of_filter. Qed.

Lemma elem_of_docs col id data :
  (id, data) ∈ Firestore.docs col ↔ col !! id = Some data.
Proof. unfold Firestore.docs. apply elem_of_map_to_list. Qed.

(** A query that matched nothing matches exactly the added document when
    that one passes the test. *)
Lemma where_after_add test data col :
  Firestore.where_ test (Firestore.docs col) = [] → test data = true →
  Firestore.where_ test (Firestore.docs (Firestore.add data col).2)
  = [((Firestore.add data col).1, data)].
Proof.
  intros Hnone Htest. apply Permutation_singleton_r.
  unfold Firestore.where_, Firestore.docs in *. simpl.
  rewrite map_to_list_insert by apply (add_fresh data).
  rewrite filter_cons_True by done. by rewrite Hnone.
Qed.
End collection_facts.

(** C6. When a registration of [(uname, pw)] succeeds (201, returning
    [id], [uname] and the role [user]), a login with the same pair on the
    resulting database, at any later time, succeeds (200) and returns the
    same id, username and role together with a token that decodes, and
    verifies at that time, to claims with this id, username and role. *)
Theorem register_then_login w req db r db' uname pw w' req' :
  b_username (body req) = Some uname → b_password (body req) = Some pw →
  app POST_api_auth_register w req db = (r, db') → status r = 201 →
  b_username (body req') = Some uname → b_password (body req') = Some pw →
  ∃ id token claims,
    r = res 201 (JsonUser id uname "user")
    ∧ app POST_api_auth_login w' req' db' = (res 200 (JsonLogin token id uname "user"), db')
    ∧ hs256_decode token JWT_SECRET = Some claims
    ∧ jwt_verify token JWT_SECRET (now w') = inr claims
    ∧ Claims.id claims = id
    ∧ Claims.username claims = uname
    ∧ Claims.role claims = "user".
Proof using hs256_decode_encode bcrypt_compare_hash bcrypt_hash_truthy.
  intros Hname Hpw Hreg Hstatus Hname' Hpw'. simpl in Hreg |- *.
  unfold post_api_auth_register in Hreg. rewrite Hname, Hpw in Hreg.
  destruct (Js.truthy (Some uname) && _) eqn:Hreserved.
  { unfold send in Hreg. by simplify_eq. }
  run in Hreg.
  set (test := λ u : User.t, String.eqb (User.username u) uname) in *.
  destruct (Firestore.limit 1 _) as [|found rest] eqn:Hsnapshot in Hreg;
    [|by simplify_eq].
  apply limit_1_nil in Hsnapshot.
  set (hashed := bcrypt_hash pw 10 (salt w)) in *.
  set (data := User.mk uname (Some hashed) (Some "user") None None None (now w)) in *.
  injection Hreg as <- <-.
  assert (test data = true) as Htest by apply String.eqb_refl.
  pose proof (where_after_add test data (usersCol db) Hsnapshot Htest) as Hwhere.
  unfold Firestore.add in Hwhere. simpl in Hwhere.
  set (id := fresh (dom (usersCol db))) in *.
  set (token := jwt_sign id uname "user" JWT_SECRET expiresIn_24h (now w')).
  exists id, token,
    (Claims.mk id uname "user" (now w' / 1000)%Z (Some (now w' / 1000 + expiresIn_24h)%Z)).
  split_and!; try done.
  - unfold post_api_auth_login. rewrite Hname', Hpw'. run.
    fold test. rewrite Hwhere. simpl.
    unfold hashed. rewrite bcrypt_hash_truthy, bcrypt_compare_hash. done.
  - apply jwt_sign_payload.
  - erewrite jwt_verify_exp; [|apply jwt_sign_payload|done].
    rewrite (proj2 (Z.leb_gt _ _)); [done|]. unfold expiresIn_24h. lia.
Qed.

(** *** Listing *)

(** [Array.prototype.sort] with the comparator [key b - key a]. *)
Section sort_facts.
Context {A : Type} (key : A → Z).
Implicit Types (x : A) (l : list A).

Let cmp (a b : A) : Z := (key b - key a)%Z.
Let desc (a b : A) : Prop := (key b ≤ key a)%Z.

Lemma sort_insert_Permutation x l : Js.sort_insert cmp x l ≡ₚ x :: l.
Proof.
  induction l as [|y l IH]; simpl; [done|].
  case_match; [done|]. rewrite IH. apply Permutation_swap.
Qed.

Lemma sort_Permutation l : Js.sort cmp l ≡ₚ l.
Proof.
  unfold Js.sort. induction l as [|x l IH]; simpl; [done|].
  by rewrite sort_insert_Permutation, IH.
Qed.

Lemma sort_insert_sorted x l :
  StronglySorted desc l → StronglySorted desc (Js.sort_insert cmp x l).
Proof.
  induction 1 as [|y l Hl IH Hy]; simpl.
  - repeat constructor.
  - unfold cmp at 1. case_match eqn:Hxy.
    + apply Z.leb_le in Hxy. constructor; [by constructor|].
      constructor; [unfold desc; lia|].
      eapply Forall_impl; [exact Hy|]. unfold desc. simpl. intros z ?. lia.
    + apply Z.leb_gt in Hxy. constructor; [done|].
      rewrite sort_insert_Permutation. constructor; [unfold desc; lia|done].
Qed.

Lemma sort_sorted l : StronglySorted desc (Js.sort cmp l).
Proof.
  unfold Js.sort. induction l as [|x l IH]; simpl; [constructor|].
  by apply sort_insert_sorted.
Qed.

(** The sort is stable: the elements of one key keep their order. *)
Lemma sort_insert_stable k x l :
  filter (λ a, key a = k) (Js.sort_insert cmp x l) = filter (λ a, key a = k) (x :: l).
Proof.
  induction l as [|y l IH]; simpl; [done|].
  unfold cmp at 1. case_match eqn:Hxy; [done|]. apply Z.leb_gt in Hxy.
  rewrite (filter_cons _ y), IH, !(filter_cons _ x), (filter_cons _ y).
  repeat case_decide; try done. lia.
Qed.

Lemma sort_stable k l :
  filter (λ a, key a = k) (Js.sort cmp l) = filter (λ a, key a = k) l.
Proof.
  unfold Js.sort. induction l as [|x l IH]; simpl; [done|].
  rewrite sort_insert_stable, !(filter_cons _ x). by rewrite IH.
Qed.
End sort_facts.

Lemma tryAuthenticate_authenticated w req next caller :
  authenticated w req caller →
  tryAuthenticate w req next = next (set_user (Some caller) req).
Proof.
  intros (token & Htok & Hver).
  rewrite (tryAuthenticate_has_token _ _ _ token) by done. by rewrite Hver.
Qed.

Lemma NoDup_docs {D} (col : gmap string D) : NoDup (Firestore.docs col).
Proof. apply NoDup_map_to_list. Qed.

Lemma NoDup_where {D} (test : D → bool) q : NoDup q → NoDup (Firestore.where_ test q).
Proof. apply NoDup_filter. Qed.

(** C3. The list route, called with a token that verifies to [caller]
    (whatever the role), replies 200 with the blogs the store returns for
    [user_id == caller.id], sorted by [Array.prototype.sort]: the listed
    blogs are exactly the stored blogs owned by the caller, each once; they
    are in descending order of creation date, a blog without one counting as
    date 0; and blogs of equal date keep the order of retrieval. *)
Theorem list_own_blogs_sorted w req caller db :
  authenticated w req caller →
  let retrieved :=
    Firestore.where_ (λ b, bool_decide (Blog.user_id b = Some (Claims.id caller)))
      (Firestore.docs (blogsCol db)) in
  let date (a : string * Blog.t) : Z := default 0%Z (Blog.created_at a.2) in
  ∃ listed,
    app GET_api_blogs w req db = (res 200 (JsonBlogs listed), db)
    ∧ (∀ id post, (id, post) ∈ listed
         ↔ blogsCol db !! id = Some post ∧ Blog.user_id post = Some (Claims.id caller))
    ∧ NoDup listed
    ∧ StronglySorted (λ a b, (date b ≤ date a)%Z) listed
    ∧ (∀ d, filter (λ a, date a = d) listed = filter (λ a, date a = d) retrieved).
Proof.
  intros Hauth retrieved date.
  exists (Js.sort (λ a b, dateOf b - dateOf a)%Z retrieved).
  split_and!.
  - simpl. rewrite (tryAuthenticate_authenticated _ _ _ caller) by done.
    unfold get_api_blogs. by run.
  - intros id post. rewrite (sort_Permutation dateOf). unfold retrieved.
    rewrite elem_of_where, elem_of_docs, bool_decide_eq_true. simpl. tauto.
  - rewrite (sort_Permutation dateOf). apply NoDup_where, NoDup_docs.
  - apply (sort_sorted dateOf).
  - intros d. apply (sort_stable dateOf).
Qed.

#[local] Instance key_ge_total {D} (key : D → option Z) : Total (Firestore.key_ge key).
Proof. intros a b. unfold Firestore.key_ge. lia. Qed.

#[local] Instance key_ge_trans {D} (key : D → option Z) : Transitive (Firestore.key_ge key).
Proof. intros a b c. unfold Firestore.key_ge. lia. Qed.

Lemma orderBy_desc_Permutation {D} (key : D → option Z) q :
  Firestore.orderBy_desc key q ≡ₚ filter (λ d, is_Some (key d.2)) q.
Proof. unfold Firestore.orderBy_desc. apply merge_sort_Permutation. Qed.

Lemma orderBy_desc_sorted {D} (key : D → option Z) q :
  StronglySorted
    (λ a b, ∃ ka kb, key a.2 = Some ka ∧ key b.2 = Some kb ∧ (kb ≤ ka)%Z)
    (Firestore.orderBy_desc key q).
Proof.
  assert (Forall (λ d, is_Some (key d.2)) (Firestore.orderBy_desc key q)) as Hkeys.
  { rewrite orderBy_desc_Permutation. apply Forall_forall. intros d.
    rewrite list_elem_of_filter. tauto. }
  assert (StronglySorted (Firestore.key_ge key) (Firestore.orderBy_desc key q)) as Hsorted
    by (apply StronglySorted_merge_sort; apply _).
  induction Hsorted as [|a l Hl IH Ha]; [constructor|].
  apply Forall_cons in Hkeys as [[ka Hka] Hkeys].
  constructor; [by apply IH|].
  apply Forall_forall. intros b Hb.
  rewrite Forall_forall in Ha, Hkeys.
  destruct (Hkeys b Hb) as [kb Hkb]. specialize (Ha b Hb).
  unfold Firestore.key_ge in Ha. rewrite Hka, Hkb in Ha. simpl in Ha.
  by exists ka, kb.
Qed.

Lemma StronglySorted_take {X} (R : relation X) n l :
  StronglySorted R l → StronglySorted R (take n l).
Proof.
  intros Hl. rewrite <- (take_drop n l) in Hl. by apply StronglySorted_app_1_l in Hl.
Qed.

(** C2. The list route, called anonymously (no bearer token, or one that
    fails verification), replies 200 with at most 20 blogs, each a stored
    blog whose owner is null, each once, in descending order of creation
    timestamp. They are the newest: a stored null-owner blog with a creation
    timestamp is left out only when 20 are listed, none of them older. *)
Theorem list_anonymous_blogs w req db :
  anonymous w req →
  ∃ listed,
    app GET_api_blogs w req db = (res 200 (JsonBlogs listed), db)
    ∧ (∀ id post, (id, post) ∈ listed →
         blogsCol db !! id = Some post ∧ Blog.user_id post = None)
    ∧ NoDup listed
    ∧ StronglySorted
        (λ a b, ∃ ta tb, Blog.created_at a.2 = Some ta ∧ Blog.created_at b.2 = Some tb
                         ∧ (tb ≤ ta)%Z)
        listed
    ∧ (length listed ≤ 20)%nat
    ∧ (∀ id post t,
         blogsCol db !! id = Some post → Blog.user_id post = None →
         Blog.created_at post = Some t → (id, post) ∉ listed →
         length listed = 20%nat
         ∧ ∀ a ta, a ∈ listed → Blog.created_at a.2 = Some ta → (t ≤ ta)%Z).
Proof.
  intros Hanon.
  set (nullOwner := Firestore.where_ (λ b, bool_decide (Blog.user_id b = None))
                      (Firestore.docs (blogsCol db))).
  set (sorted := Firestore.orderBy_desc Blog.created_at nullOwner).
  exists (Firestore.limit 20 sorted).
  split_and!.
  - simpl. rewrite tryAuthenticate_anonymous by done.
    unfold get_api_blogs. by run.
  - intros id post Hin. unfold Firestore.limit in Hin.
    apply subseteq_take in Hin. unfold sorted in Hin.
    rewrite orderBy_desc_Permutation in Hin.
    apply list_elem_of_filter in Hin as [_ Hin]. unfold nullOwner in Hin.
    rewrite elem_of_where, elem_of_docs, bool_decide_eq_true in Hin. simpl in Hin. tauto.
  - unfold Firestore.limit. eapply sublist_NoDup; [|apply sublist_take].
    unfold sorted. rewrite orderBy_desc_Permutation.
    apply NoDup_filter, NoDup_where, NoDup_docs.
  - apply StronglySorted_take, orderBy_desc_sorted.
  - unfold Firestore.limit. rewrite length_take. lia.
  - intros id post t Hpost Hnull Hcreated Hout. unfold Firestore.limit in *.
    assert ((id, post) ∈ sorted) as Hin.
    { unfold sorted. rewrite orderBy_desc_Permutation.
      apply list_elem_of_filter. simpl. split; [by rewrite Hcreated|].
      unfold nullOwner. rewrite elem_of_where, elem_of_docs, bool_decide_eq_true. done. }
    rewrite <- (take_drop 20 sorted) in Hin.
    apply elem_of_app in Hin as [Hin | Hin]; [done|].
    split.
    + rewrite length_take. apply list_elem_of_lookup in Hin as [i Hi].
      apply lookup_lt_Some in Hi. rewrite length_drop in Hi. lia.
    + intros a ta Ha Hta.
      pose proof (orderBy_desc_sorted Blog.created_at nullOwner) as Hsorted.
      fold sorted in Hsorted. rewrite <- (take_drop 20 sorted) in Hsorted.
      destruct (StronglySorted_app_1_elem_of _ _ _ _ _ Hsorted Ha Hin)
        as (ka & kb & Hka & Hkb & Hle).
      simpl in Hkb. congruence.
Qed.

(** *** External-identity login *)

Lemma limit_where_lookup {D} (test : D → bool) (col : gmap string D) n found rest :
  Firestore.limit n (Firestore.where_ test (Firestore.docs col)) = found :: rest →
  col !! found.1 = Some found.2 ∧ test found.2 = true.
Proof.
  intros Hq.
  assert (found ∈ Firestore.where_ test (Firestore.docs col)) as Hin.
  { eapply subseteq_take. unfold Firestore.limit in Hq. rewrite Hq. left. }
  apply elem_of_where in Hin as [Htest Hin]. destruct found as [id data].
  by apply elem_of_docs in Hin.
Qed.

(** The callback, case by case, once the provider has answered. *)
Lemma get_auth_google_callback_cases w req db code profile :
  query_code req = Some code → code ≠ "" → google w code = Some profile →
  get_auth_google_callback w req db =
    match byGoogleId profile db with
    | found :: _ => (success_page w found, db)
    | [] =>
        match byEmail profile db with
        | found :: _ =>
            (success_page w found,
             mkDb (<[found.1 := User.set_google_id (sub profile) found.2]> (usersCol db))
               (blogsCol db))
        | [] =>
            if Js.truthy (name profile) || bool_decide (is_Some (email profile)) then
              let uname :=
                if Js.truthy (name profile) then default "" (name profile)
                else default "" (head (Js.split "@" (default "" (email profile)))) in
              let data := User.mk uname None (Some "user") (or_null (email profile))
                            (Some (sub profile)) (or_null (picture profile)) (now w) in
              let id := fresh (dom (usersCol db)) in
              (success_page w (id, data), mkDb (<[id := data]> (usersCol db)) (blogsCol db))
            else (res 500 (Text "Authentication failed"), db)
        end
    end.
Proof.
  intros Hcode Hne Hgoogle. unfold get_auth_google_callback.
  rewrite Hcode. apply truthy_Some in Hne. rewrite Hne. simpl.
  unfold byGoogleId, byEmail, default_username. run. rewrite Hgoogle. simpl.
  destruct (Firestore.limit 1 _) as [|found rest] eqn:HbyId; simpl; [|done].
  destruct (Js.truthy (email profile)) eqn:Hemail; simpl.
  - destruct (Firestore.limit 1 _) as [|found rest] eqn:HbyEmail in |- *; simpl.
    + destruct (Js.truthy (name profile)) eqn:Hname; simpl; [done|].
      destruct (email profile) as [e|]; [done|]. done.
    + apply limit_where_lookup in HbyEmail as [Hfound _].
      unfold Firestore.update. by rewrite Hfound.
  - destruct (Js.truthy (name profile)) eqn:Hname; simpl; [done|].
    destruct (email profile) as [e|]; done.
Qed.

(** The account resolution of the OAuth callback for a profile that has a
    display name or an email: (1) a user found by the external subject id
    is used and nothing is written; (2) otherwise a user found by the
    profile's email gets the external subject id and is used, and no
    document is added; (3) otherwise a user is added under a new id, with
    role [user], the external subject id, the avatar and no password hash.
    The reply carries a token for the resolved user. *)
Theorem oauth_account_resolution w req db code profile :
  query_code req = Some code → code ≠ "" → google w code = Some profile →
  Js.truthy (name profile) = true ∨ is_Some (email profile) →
  ∃ userDoc db',
    app GET_auth_google_callback w req db = (success_page w userDoc, db')
    ∧ blogsCol db' = blogsCol db
    ∧ match byGoogleId profile db, byEmail profile db with
      | found :: _, _ =>
          userDoc = found ∧ db' = db
          ∧ usersCol db !! found.1 = Some found.2
          ∧ User.google_id found.2 = Some (sub profile)
      | [], found :: _ =>
          userDoc = found
          ∧ usersCol db !! found.1 = Some found.2
          ∧ User.email found.2 = email profile
          ∧ usersCol db' = <[found.1 := User.set_google_id (sub profile) found.2]> (usersCol db)
          ∧ dom (usersCol db') = dom (usersCol db)
      | [], [] =>
          usersCol db !! userDoc.1 = None
          ∧ usersCol db' = <[userDoc.1 := userDoc.2]> (usersCol db)
          ∧ User.role userDoc.2 = Some "user"
          ∧ User.google_id userDoc.2 = Some (sub profile)
          ∧ User.avatar userDoc.2 = or_null (picture profile)
          ∧ User.email userDoc.2 = or_null (email profile)
          ∧ User.password userDoc.2 = None
      end.
Proof.
  intros Hcode Hne Hgoogle Hnamed. simpl.
  rewrite (get_auth_google_callback_cases _ _ _ code profile) by done.
  destruct (byGoogleId profile db) as [|found rest] eqn:HbyId.
  - destruct (byEmail profile db) as [|found rest] eqn:HbyEmail.
    + assert (Js.truthy (name profile) || bool_decide (is_Some (email profile)) = true)
        as -> by (destruct Hnamed as [-> | ?]; [done|];
                  rewrite bool_decide_eq_true_2 by done; apply orb_true_r).
      eexists (_, _), _. split; [done|]. simpl. split_and!; try done.
      apply not_elem_of_dom. apply is_fresh.
    + exists found. eexists. split; [done|]. simpl.
      unfold byEmail in HbyEmail. destruct (Js.truthy (email profile)); [|done].
      apply limit_where_lookup in HbyEmail as [Hfound Htest].
      apply bool_decide_eq_true in Htest. split_and!; try done.
      by apply dom_insert_lookup_L.
  - exists found, db. split; [done|]. split; [done|].
    apply limit_where_lookup in HbyId as [Hfound Htest].
    apply bool_decide_eq_true in Htest. done.
Qed.

(** With neither a display name nor an email in the profile, and no user
    known by the external subject id, the callback throws while it computes
    the username: the reply is 500 and no user is created. *)
Lemma oauth_unnamed_profile_fails w req db code profile :
  query_code req = Some code → code ≠ "" → google w code = Some profile →
  Js.truthy (name profile) = false → email profile = None →
  byGoogleId profile db = [] →
  app GET_auth_google_callback w req db = (res 500 (Text "Authentication failed"), db).
Proof.
  intros Hcode Hne Hgoogle Hname Hemail HbyId. simpl.
  rewrite (get_auth_google_callback_cases _ _ _ code profile) by done.
  rewrite HbyId. unfold byEmail. by rewrite Hemail, Hname.
Qed.

(** *** The owner of a blog *)

Lemma keeps_owners_blogs_untouched (h : Handler) :
  (∀ db r db', h db = (r, db') → blogsCol db' = blogsCol db) → keeps_owners h.
Proof.
  intros Hsame db r db' Hrun id post post' Hpost Hpost'.
  rewrite (Hsame _ _ _ Hrun) in Hpost'. congruence.
Qed.

Lemma keeps_owners_send r : keeps_owners (send r).
Proof. apply keeps_owners_blogs_untouched. unfold send. by intros ??? [= _ <-]. Qed.

Lemma keeps_owners_authenticateToken w req next :
  (∀ req', keeps_owners (next req')) → keeps_owners (authenticateToken w req next).
Proof.
  intros Hnext. unfold authenticateToken.
  repeat case_match; auto using keeps_owners_send.
Qed.

Lemma keeps_owners_tryAuthenticate w req next :
  (∀ req', keeps_owners (next req')) → keeps_owners (tryAuthenticate w req next).
Proof. intros Hnext. unfold tryAuthenticate. repeat case_match; auto. Qed.

Lemma blogs_untouched_ret {A} (a : A) : blogs_untouched (mret a).
Proof. by intros db o db' [= _ <-]. Qed.

Lemma blogs_untouched_throw {A} e : blogs_untouched (@throw A e).
Proof. by intros db o db' [= _ <-]. Qed.

Lemma blogs_untouched_bind {A B} (m : Async A) (f : A → Async B) :
  blogs_untouched m → (∀ a, blogs_untouched (f a)) → blogs_untouched (m ≫= f).
Proof.
  intros Hm Hf db o db'. unfold mbind, Async_bind.
  destruct (m db) as [[a|e] db1] eqn:Hrun.
  - intros Hrun'. rewrite (Hf _ _ _ _ Hrun'). by eapply Hm.
  - intros [= _ <-]. by eapply Hm.
Qed.

Lemma blogs_untouched_users : blogs_untouched users.
Proof. by intros db o db' [= _ <-]. Qed.

Lemma blogs_untouched_blogs : blogs_untouched blogs.
Proof. by intros db o db' [= _ <-]. Qed.

Lemma blogs_untouched_put_users col : blogs_untouched (put_users col).
Proof. by intros db o db' [= _ <-]. Qed.

Lemma blogs_untouched_try_catch body handle db r db' :
  blogs_untouched body → try_catch body handle db = (r, db') → blogsCol db' = blogsCol db.
Proof.
  intros Hbody. unfold try_catch. destruct (body db) as [[a|e] db1] eqn:Hrun;
    intros [= _ <-]; by eapply Hbody.
Qed.

Lemma blogs_untouched_blogs_doc path : blogs_untouched (blogs_doc path).
Proof. unfold blogs_doc. intros db o db'. by destruct (Firestore.doc path); intros [= _ <-]. Qed.

(** The pieces of a handler's body that leave the blogs as they are. *)
Ltac frame_blogs :=
  repeat first
    [ apply blogs_untouched_ret
    | apply blogs_untouched_throw
    | apply blogs_untouched_blogs_doc
    | apply blogs_untouched_users
    | apply blogs_untouched_blogs
    | apply blogs_untouched_put_users
    | apply blogs_untouched_bind; [|intros ?]
    | progress unfold users_where, defined, default_username
    | progress cbv zeta
    | case_match ].

Lemma register_blogs_untouched w req db r db' :
  post_api_auth_register w req db = (r, db') → blogsCol db' = blogsCol db.
Proof.
  unfold post_api_auth_register. cbv zeta. case_match.
  - by intros [= _ <-].
  - apply blogs_untouched_try_catch. frame_blogs.
Qed.

Lemma login_blogs_untouched w req db r db' :
  post_api_auth_login w req db = (r, db') → blogsCol db' = blogsCol db.
Proof.
  unfold post_api_auth_login. cbv zeta.
  apply blogs_untouched_try_catch. frame_blogs.
Qed.

Lemma callback_blogs_untouched w req db r db' :
  get_auth_google_callback w req db = (r, db') → blogsCol db' = blogsCol db.
Proof.
  unfold get_auth_google_callback. repeat case_match; try by intros [= _ <-].
  apply blogs_untouched_try_catch. frame_blogs.
Qed.

Lemma keeps_owners_post_api_blogs w req : keeps_owners (post_api_blogs w req).
Proof.
  intros db r db'. unfold post_api_blogs, Firestore.add. run.
  destruct (b_title (body req)), (b_content (body req)), (b_excerpt (body req)),
    (b_tone (body req)), (b_language (body req)); simpl;
    intros [= _ <-] id post post' Hpost; simpl; try congruence.
  rewrite lookup_insert_ne; [congruence|].
  intros <-. pose proof (is_fresh (dom (blogsCol db))) as Hfresh.
  apply not_elem_of_dom in Hfresh. congruence.
Qed.

Lemma keeps_owners_put_api_blogs_id w req : keeps_owners (put_api_blogs_id w req).
Proof.
  intros db r db'. destruct (user req) as [caller|] eqn:Huser.
  - rewrite (put_api_blogs_id_cases _ _ caller) by done.
    destruct (Firestore.doc (params_id req)) as [ref|]; [|intros [= _ <-]; congruence].
    destruct (Firestore.get (blogsCol db) ref) as [data|] eqn:Hdoc;
      [|intros [= _ <-]; congruence].
    apply get_Some in Hdoc as [_ Hdoc].
    destruct (not_admin_nor_owner caller data); [intros [= _ <-]; congruence|].
    destruct (b_title (body req)), (b_content (body req)), (b_excerpt (body req));
      intros [= _ <-] id post post' Hpost; simpl; try congruence.
    destruct (decide (Firestore.id ref = id)) as [<- | Hne].
    + rewrite lookup_insert_eq. intros [= <-]. simpl. congruence.
    + rewrite lookup_insert_ne by done. congruence.
  - unfold put_api_blogs_id, blogs_doc. run.
    destruct (Firestore.doc (params_id req)) as [ref|];
      [|intros [= _ <-]; congruence].
    simpl. rewrite Huser.
    destruct (Firestore.get (blogsCol db) ref); simpl; intros [= _ <-]; congruence.
Qed.

Lemma keeps_owners_delete_api_blogs_id w req : keeps_owners (delete_api_blogs_id w req).
Proof.
  intros db r db'. destruct (user req) as [caller|] eqn:Huser.
  - rewrite (delete_api_blogs_id_cases _ _ caller) by done.
    destruct (Firestore.doc (params_id req)) as [ref|]; [|intros [= _ <-]; congruence].
    destruct (Firestore.get (blogsCol db) ref) as [data|] eqn:Hdoc;
      [|intros [= _ <-]; congruence].
    destruct (not_admin_nor_owner caller data); [intros [= _ <-]; congruence|].
    intros [= _ <-] id post post' Hpost. simpl.
    intros Hpost'. apply lookup_delete_Some in Hpost' as [_ Hpost']. congruence.
  - unfold delete_api_blogs_id, blogs_doc. run.
    destruct (Firestore.doc (params_id req)) as [ref|];
      [|intros [= _ <-]; congruence].
    simpl. rewrite Huser.
    destruct (Firestore.get (blogsCol db) ref); simpl; intros [= _ <-]; congruence.
Qed.

Lemma app_keeps_owners route w req : keeps_owners (app route w req).
Proof.
  destruct route; simpl.
  - apply keeps_owners_blogs_untouched, register_blogs_untouched.
  - apply keeps_owners_blogs_untouched, login_blogs_untouched.
  - apply keeps_owners_blogs_untouched, callback_blogs_untouched.
  - apply keeps_owners_tryAuthenticate. intros req'.
    apply keeps_owners_blogs_untouched. intros db r db'.
    unfold get_api_blogs. apply blogs_untouched_try_catch. frame_blogs.
  - apply keeps_owners_blogs_untouched. intros db r db'.
    unfold get_api_blogs_id. apply blogs_untouched_try_catch. frame_blogs.
  - apply keeps_owners_tryAuthenticate, keeps_owners_post_api_blogs.
  - apply keeps_owners_authenticateToken, keeps_owners_put_api_blogs_id.
  - apply keeps_owners_authenticateToken, keeps_owners_delete_api_blogs_id.
  - apply keeps_owners_authenticateToken. intros req'.
    apply keeps_owners_blogs_untouched. intros db r db'.
    unfold get_api_admin_stats. repeat case_match; by intros [= _ <-].
Qed.

(** Once created, a blog keeps its owner: whatever the route, the world
    and the request, a blog stored before and after the request has the same
    [user_id]. *)
Theorem blog_owner_immutable route w req db r db' id post post' :
  app route w req db = (r, db') →
  blogsCol db !! id = Some post → blogsCol db' !! id = Some post' →
  Blog.user_id post' = Blog.user_id post.
Proof. intros Hrun. by apply (app_keeps_owners route w req db r db'). Qed.


(** *** Registration and login, case by case *)

Lemma post_api_auth_register_cases w req db :
  post_api_auth_register w req db =
    match b_username (body req) with
    | Some uname =>
        if Js.truthy (Some uname) && bool_decide (Js.toLowerCase uname = "admin") then
          (res 400 (JsonError "Cannot register with this username"), db)
        else
          match byUsername uname db, b_password (body req) with
          | _ :: _, _ => (res 400 (JsonError "Username already exists"), db)
          | [], None => (res 500 (JsonError "Internal server error"), db)
          | [], Some pw =>
              let data := User.mk uname (Some (bcrypt_hash pw 10 (salt w))) (Some "user")
                            None None None (now w) in
              let id := fresh (dom (usersCol db)) in
              (res 201 (JsonUser id uname "user"),
               mkDb (<[id := data]> (usersCol db)) (blogsCol db))
          end
    | None => (res 500 (JsonError "Internal server error"), db)
    end.
Proof.
  unfold post_api_auth_register, byUsername.
  destruct (b_username (body req)) as [uname|]; [|done]. simpl.
  replace (bool_decide (Some (Js.toLowerCase uname) = Some "admin"))
    with (bool_decide (Js.toLowerCase uname = "admin"))
    by (apply bool_decide_ext; split; congruence).
  destruct (Js.truthy (Some uname) && _); [done|]. run.
  destruct (Firestore.limit 1 _) as [|found rest]; [|done].
  by destruct (b_password (body req)).
Qed.

Lemma post_api_auth_login_cases w req db :
  post_api_auth_login w req db =
    match b_username (body req) with
    | Some uname =>
        match byUsername uname db with
        | [] => (res 401 (JsonError "Invalid credentials"), db)
        | userDoc :: _ =>
            match User.password userDoc.2 with
            | Some hash =>
                if negb (Js.truthy (Some hash)) then
                  (res 401 (JsonError
                     "This account uses social login. Please sign in with Google."), db)
                else
                  match b_password (body req) with
                  | Some pw =>
                      if bcrypt_compare pw hash then
                        let role := or_default (User.role userDoc.2) "user" in
                        (res 200 (JsonLogin
                                    (jwt_sign userDoc.1 (User.username userDoc.2) role
                                       JWT_SECRET expiresIn_24h (now w))
                                    userDoc.1 (User.username userDoc.2) role), db)
                      else (res 401 (JsonError "Invalid credentials"), db)
                  | None => (res 500 (JsonError "Internal server error"), db)
                  end
            | None =>
                (res 401 (JsonError
                   "This account uses social login. Please sign in with Google."), db)
            end
        end
    | None => (res 500 (JsonError "Internal server error"), db)
    end.
Proof.
  unfold post_api_auth_login, byUsername.
  destruct (b_username (body req)) as [uname|]; [|done]. run.
  destruct (Firestore.limit 1 _) as [|userDoc rest]; [done|].
  destruct (User.password userDoc.2) as [hash|]; [|done]. simpl.
  destruct (negb (Js.truthy (Some hash))); [done|].
  destruct (b_password (body req)) as [pw|]; [|done]. simpl.
  by destruct (bcrypt_compare pw hash).
Qed.

Lemma byUsername_nil uname db :
  byUsername uname db = [] ↔ ∀ id u, usersCol db !! id = Some u → User.username u ≠ uname.
Proof.
  unfold byUsername. split.
  - intros Hnil%limit_1_nil id u Hu Hname.
    assert ((id, u) ∈ @nil (string * User.t)) as Hin; [|by apply not_elem_of_nil in Hin].
    rewrite <- Hnil. apply elem_of_where. split; [by apply String.eqb_eq|].
    by apply elem_of_docs.
  - intros Hnone. destruct (Firestore.limit 1 _) as [|found rest] eqn:Hq; [done|].
    apply limit_where_lookup in Hq as [Hfound Hname%String.eqb_eq].
    by destruct (Hnone _ _ Hfound).
Qed.

Lemma byUsername_cons uname db found rest :
  byUsername uname db = found :: rest →
  usersCol db !! found.1 = Some found.2 ∧ User.username found.2 = uname.
Proof.
  unfold byUsername. intros [Hfound Hname%String.eqb_eq]%limit_where_lookup. done.
Qed.

Lemma not_reserved uname :
  Js.toLowerCase uname ≠ "admin" →
  Js.truthy (Some uname) && bool_decide (Js.toLowerCase uname = "admin") = false.
Proof. intros Hne. by rewrite bool_decide_eq_false_2, andb_false_r. Qed.

Lemma reserved uname :
  Js.toLowerCase uname = "admin" →
  Js.truthy (Some uname) && bool_decide (Js.toLowerCase uname = "admin") = true.
Proof.
  intros Hadmin. rewrite bool_decide_eq_true_2, andb_true_r by done.
  apply truthy_Some. by intros ->.
Qed.

(** A registration under a username some stored user already has, letter
    for letter, is refused with 400 and the duplicate message, and nothing
    is written. *)
Theorem register_existing_username_rejected w req db uname id u :
  b_username (body req) = Some uname → Js.toLowerCase uname ≠ "admin" →
  usersCol db !! id = Some u → User.username u = uname →
  app POST_api_auth_register w req db
  = (res 400 (JsonError "Username already exists"), db).
Proof.
  intros Hname Hfree Hu Huname. simpl.
  rewrite post_api_auth_register_cases, Hname, not_reserved by done.
  destruct (byUsername uname db) as [|found rest] eqn:Hq; [|done].
  rewrite byUsername_nil in Hq. by destruct (Hq id u).
Qed.

Lemma register_outcome w req db r db' :
  app POST_api_auth_register w req db = (r, db') →
  (status r ≠ 201 → db' = db)
  ∧ (status r = 201 →
       ∃ uname pw id,
         b_username (body req) = Some uname ∧ b_password (body req) = Some pw
         ∧ Js.toLowerCase uname ≠ "admin"
         ∧ (∀ id' u, usersCol db !! id' = Some u → User.username u ≠ uname)
         ∧ usersCol db !! id = None
         ∧ r = res 201 (JsonUser id uname "user")
         ∧ usersCol db'
           = <[id := User.mk uname (Some (bcrypt_hash pw 10 (salt w))) (Some "user")
                       None None None (now w)]> (usersCol db)
         ∧ size (usersCol db') = S (size (usersCol db))
         ∧ blogsCol db' = blogsCol db).
Proof.
  simpl. rewrite post_api_auth_register_cases.
  destruct (b_username (body req)) as [uname|]; [|by intros [= <- <-]].
  destruct (Js.truthy (Some uname) && _) eqn:Hreserved; [by intros [= <- <-]|].
  destruct (byUsername uname db) as [|found rest] eqn:Hq; [|by intros [= <- <-]].
  destruct (b_password (body req)) as [pw|]; [|by intros [= <- <-]].
  intros [= <- <-]. split; [done|]. intros _.
  assert (usersCol db !! fresh (dom (usersCol db)) = None) as Hfresh
    by (apply not_elem_of_dom; apply is_fresh).
  exists uname, pw, (fresh (dom (usersCol db))). simpl.
  split_and!; try done.
  - intros Hadmin. rewrite (reserved uname) in Hreserved; done.
  - by apply byUsername_nil.
  - by apply map_size_insert_None.
Qed.

(** What a successful registration does: the username was free and not
    reserved, exactly one user is added, under an id not used before, with
    the role [user], the hash of the password and no external identity; the
    reply names this id, the username and the role, and never the hash. A
    registration that does not reply 201 writes nothing. *)
Theorem register_adds_one_user w req db r db' :
  app POST_api_auth_register w req db = (r, db') →
  (status r ≠ 201 → db' = db)
  ∧ (status r = 201 →
       ∃ uname pw id,
         b_username (body req) = Some uname ∧ b_password (body req) = Some pw
         ∧ Js.toLowerCase uname ≠ "admin"
         ∧ (∀ id' u, usersCol db !! id' = Some u → User.username u ≠ uname)
         ∧ usersCol db !! id = None
         ∧ r = res 201 (JsonUser id uname "user")
         ∧ usersCol db'
           = <[id := User.mk uname (Some (bcrypt_hash pw 10 (salt w))) (Some "user")
                       None None None (now w)]> (usersCol db)
         ∧ size (usersCol db') = S (size (usersCol db))
         ∧ blogsCol db' = blogsCol db).
Proof. apply register_outcome. Qed.

(** Registration is once per username: after a successful registration a
    second one under the same username, at any time and with any password,
    is refused as a duplicate and writes nothing. *)
Theorem register_twice_rejected w req db r db' uname w' req' :
  b_username (body req) = Some uname →
  app POST_api_auth_register w req db = (r, db') → status r = 201 →
  b_username (body req') = Some uname →
  app POST_api_auth_register w' req' db'
  = (res 400 (JsonError "Username already exists"), db').
Proof.
  intros Hname Hreg Hstatus Hname'. simpl in *.
  rewrite post_api_auth_register_cases, Hname in Hreg.
  destruct (Js.truthy (Some uname) && _) eqn:Hreserved; [by simplify_eq|].
  destruct (byUsername uname db) as [|found rest]; [|by simplify_eq].
  destruct (b_password (body req)) as [pw|]; [|by simplify_eq].
  injection Hreg as _ Hdb'.
  rewrite post_api_auth_register_cases, Hname', Hreserved.
  destruct (byUsername uname db') as [|found rest] eqn:Hq'; [|done].
  rewrite byUsername_nil in Hq'. subst db'. simpl in Hq'.
  by destruct (Hq' _ _ (lookup_insert_eq _ _ _)).
Qed.

Lemma tryAuthenticate_cases w req next :
  ∃ u, tryAuthenticate w req next = next (set_user u req).
Proof. unfold tryAuthenticate. repeat case_match; eauto. Qed.

Lemma authenticateToken_cases w req next db :
  authenticateToken w req next db = (res 401 (JsonError "Unauthorized"), db)
  ∨ authenticateToken w req next db = (res 403 (JsonError "Forbidden"), db)
  ∨ ∃ caller, authenticateToken w req next db = next (set_user (Some caller) req) db.
Proof. unfold authenticateToken. repeat case_match; eauto. Qed.

(** A login never writes, and it succeeds only for a stored user of that
    username whose password hash [bcrypt] accepts for the given password; the
    reply then names that user's id, username and role (a missing role
    counting as [user]) and carries a 24-hour token over them. *)
Theorem login_only_with_matching_password w req db r db' :
  app POST_api_auth_login w req db = (r, db') →
  db' = db
  ∧ (status r = 200 →
       ∃ uname pw id u hash,
         b_username (body req) = Some uname ∧ b_password (body req) = Some pw
         ∧ usersCol db !! id = Some u ∧ User.username u = uname
         ∧ User.password u = Some hash ∧ hash ≠ ""
         ∧ bcrypt_compare pw hash = true
         ∧ r = res 200
                 (JsonLogin
                    (jwt_sign id uname (or_default (User.role u) "user") JWT_SECRET
                       expiresIn_24h (now w))
                    id uname (or_default (User.role u) "user"))).
Proof.
  simpl. rewrite post_api_auth_login_cases.
  destruct (b_username (body req)) as [uname|]; [|by intros [= <- <-]].
  destruct (byUsername uname db) as [|[id u] rest] eqn:Hq; [by intros [= <- <-]|].
  apply byUsername_cons in Hq as [Hu Hname]. simpl in *.
  destruct (User.password u) as [hash|] eqn:Hhash; [|by intros [= <- <-]].
  destruct (negb (Js.truthy (Some hash))) eqn:Htruthy; [by intros [= <- <-]|].
  destruct (b_password (body req)) as [pw|]; [|by intros [= <- <-]].
  destruct (bcrypt_compare pw hash) eqn:Hcompare; [|by intros [= <- <-]].
  intros [= <- <-]. split; [done|]. intros _.
  exists uname, pw, id, u, hash. rewrite Hname. split_and!; try done.
  apply truthy_Some. by apply negb_false_iff.
Qed.

(** The ways a login is refused with 401, the database left as it was: no
    stored user has the username ("Invalid credentials"); the users of that
    username have no password hash (the social-login message); their hashes
    do not match the password ("Invalid credentials"). *)
Theorem login_rejections w req db uname :
  b_username (body req) = Some uname →
  ((∀ id u, usersCol db !! id = Some u → User.username u ≠ uname) →
     app POST_api_auth_login w req db = (res 401 (JsonError "Invalid credentials"), db))
  ∧ ((∃ id u, usersCol db !! id = Some u ∧ User.username u = uname) →
     (∀ id u, usersCol db !! id = Some u → User.username u = uname →
        Js.truthy (User.password u) = false) →
     app POST_api_auth_login w req db
     = (res 401 (JsonError "This account uses social login. Please sign in with Google."),
        db))
  ∧ (∀ pw, b_password (body req) = Some pw →
     (∃ id u, usersCol db !! id = Some u ∧ User.username u = uname) →
     (∀ id u, usersCol db !! id = Some u → User.username u = uname →
        ∃ hash, User.password u = Some hash ∧ hash ≠ ""
                ∧ bcrypt_compare pw hash = false) →
     app POST_api_auth_login w req db = (res 401 (JsonError "Invalid credentials"), db)).
Proof.
  intros Hname. simpl. rewrite post_api_auth_login_cases, Hname.
  split_and!.
  - intros Hnone. apply byUsername_nil in Hnone. by rewrite Hnone.
  - intros (id & u & Hu & Hun) Hsocial.
    destruct (byUsername uname db) as [|[id' u'] rest] eqn:Hq.
    { rewrite byUsername_nil in Hq. by destruct (Hq id u). }
    apply byUsername_cons in Hq as [Hu' Hname']. simpl in *.
    specialize (Hsocial id' u' Hu' Hname').
    destruct (User.password u') as [hash|]; [|done]. by rewrite Hsocial.
  - intros pw Hpw (id & u & Hu & Hun) Hwrong.
    destruct (byUsername uname db) as [|[id' u'] rest] eqn:Hq.
    { rewrite byUsername_nil in Hq. by destruct (Hq id u). }
    apply byUsername_cons in Hq as [Hu' Hname']. simpl in *.
    destruct (Hwrong id' u' Hu' Hname') as (hash & -> & Hne & Hcompare).
    apply truthy_Some in Hne. by rewrite Hne, Hpw, Hcompare.
Qed.

Lemma reading_routes_same w req db r db' :
  app POST_api_auth_login w req db = (r, db')
  ∨ app GET_api_blogs w req db = (r, db')
  ∨ app GET_api_blogs_id w req db = (r, db')
  ∨ app GET_api_admin_stats w req db = (r, db') →
  db' = db.
Proof.
  simpl. intros [Hrun | [Hrun | [Hrun | Hrun]]].
  - rewrite post_api_auth_login_cases in Hrun.
    repeat case_match; by injection Hrun as _ <-.
  - destruct (tryAuthenticate_cases w req (get_api_blogs w)) as [u Htry].
    rewrite Htry in Hrun. unfold get_api_blogs in Hrun. run in Hrun.
    destruct u; by injection Hrun as _ <-.
  - unfold get_api_blogs_id, blogs_doc in Hrun. run in Hrun.
    destruct (Firestore.doc (params_id req)) as [ref|]; simpl in Hrun;
      [|by injection Hrun as _ <-].
    destruct (Firestore.get (blogsCol db) ref); by injection Hrun as _ <-.
  - destruct (authenticateToken_cases w req (get_api_admin_stats w) db)
      as [Hmw | [Hmw | [caller Hmw]]]; rewrite Hmw in Hrun;
      [by injection Hrun as _ <-..|].
    unfold get_api_admin_stats in Hrun. simpl in Hrun. run in Hrun.
    destruct (negb _); by injection Hrun as _ <-.
Qed.

(** The login route and the three reading routes never change the
    database, whatever the request and its token. *)
Theorem reading_routes_write_nothing w req db r db' :
  app POST_api_auth_login w req db = (r, db')
  ∨ app GET_api_blogs w req db = (r, db')
  ∨ app GET_api_blogs_id w req db = (r, db')
  ∨ app GET_api_admin_stats w req db = (r, db') →
  db' = db.
Proof. apply reading_routes_same. Qed.

(** The admin statistics, called with a valid token: a caller whose role
    is not [admin] gets 403, an admin gets 200 with the number of stored
    users; the count an admin sees grows by one with every successful
    registration. *)
Theorem admin_stats_counts_users w req caller db :
  authenticated w req caller →
  (Claims.role caller ≠ "admin" →
     app GET_api_admin_stats w req db = (res 403 (JsonError "Admin access required"), db))
  ∧ (Claims.role caller = "admin" →
     app GET_api_admin_stats w req db = (res 200 (JsonStats (size (usersCol db))), db)
     ∧ ∀ w0 req0 db0 r0,
         app POST_api_auth_register w0 req0 db0 = (r0, db) → status r0 = 201 →
         app GET_api_admin_stats w req db
         = (res 200 (JsonStats (S (size (usersCol db0)))), db)).
Proof.
  intros Hauth. simpl.
  rewrite !(authenticateToken_authenticated _ _ _ caller) by done.
  unfold get_api_admin_stats. simpl. split.
  - intros Hrole. apply String.eqb_neq in Hrole. by rewrite Hrole.
  - intros Hrole. rewrite Hrole. simpl. run. split; [done|].
    intros w0 req0 db0 r0 Hreg Hstatus.
    destruct (register_outcome w0 req0 db0 r0 db Hreg) as [_ Hadded].
    destruct (Hadded Hstatus) as (? & ? & ? & _ & _ & _ & _ & _ & _ & _ & Hsize & _).
    by rewrite Hsize.
Qed.

(** *** Writing a blog, then reading it *)

Lemma post_api_blogs_cases w req db :
  post_api_blogs w req db =
    match b_title (body req), b_content (body req), b_excerpt (body req),
          b_tone (body req), b_language (body req) with
    | Some title, Some content, Some excerpt, Some tone, Some language =>
        let blog := Blog.mk (Claims.id <$> user req) title content excerpt tone language
                      (Some (now w)) None in
        let id := fresh (dom (blogsCol db)) in
        (res 201 (JsonBlog id blog), mkDb (usersCol db) (<[id := blog]> (blogsCol db)))
    | _, _, _, _, _ => (res 500 (JsonError "Internal server error"), db)
    end.
Proof.
  unfold post_api_blogs. run.
  by destruct (b_title (body req)), (b_content (body req)), (b_excerpt (body req)),
    (b_tone (body req)), (b_language (body req)).
Qed.

Lemma get_api_blogs_id_cases w req db :
  get_api_blogs_id w req db =
    match Firestore.doc (params_id req) with
    | None => (res 400 (JsonError "Invalid blog ID"), db)
    | Some ref =>
        match Firestore.get (blogsCol db) ref with
        | Some data => (res 200 (JsonBlog (Firestore.id ref) data), db)
        | None => (res 404 (JsonError "Blog not found"), db)
        end
    end.
Proof.
  unfold get_api_blogs_id, blogs_doc. run.
  destruct (Firestore.doc (params_id req)) as [ref|]; [|done]. simpl.
  by destruct (Firestore.get (blogsCol db) ref).
Qed.

Lemma post_route_outcome w req db r db' :
  app POST_api_blogs w req db = (r, db') →
  (status r ≠ 201 ∧ db' = db)
  ∨ (status r = 201
     ∧ ∃ u title content excerpt tone language,
         tryAuthenticate w req (post_api_blogs w) = post_api_blogs w (set_user u req)
         ∧ b_title (body req) = Some title ∧ b_content (body req) = Some content
         ∧ b_excerpt (body req) = Some excerpt ∧ b_tone (body req) = Some tone
         ∧ b_language (body req) = Some language
         ∧ r = res 201 (JsonBlog (fresh (dom (blogsCol db)))
                          (Blog.mk (Claims.id <$> u) title content excerpt tone language
                             (Some (now w)) None))
         ∧ db' = mkDb (usersCol db)
                   (<[fresh (dom (blogsCol db)) :=
                        Blog.mk (Claims.id <$> u) title content excerpt tone language
                          (Some (now w)) None]> (blogsCol db))).
Proof.
  simpl. destruct (tryAuthenticate_cases w req (post_api_blogs w)) as [u Htry].
  rewrite Htry, post_api_blogs_cases. simpl.
  destruct (b_title (body req)) as [title|]; [|intros [= <- <-]; by left].
  destruct (b_content (body req)) as [content|]; [|intros [= <- <-]; by left].
  destruct (b_excerpt (body req)) as [excerpt|]; [|intros [= <- <-]; by left].
  destruct (b_tone (body req)) as [tone|]; [|intros [= <- <-]; by left].
  destruct (b_language (body req)) as [language|]; [|intros [= <- <-]; by left].
  intros [= <- <-]. right. split; [done|].
  by exists u, title, content, excerpt, tone, language.
Qed.

(** Creating a blog and reading it back. A create that does not reply 201
    writes nothing. One that replies 201 stores exactly one new blog, under
    an id not used before, holding the five fields of the body, the store's
    time as creation timestamp and no update timestamp; its owner is null
    for an anonymous request and the caller's id for an authenticated one.
    From then on reading that id, with no token at all, returns this blog. *)
Theorem create_then_read w req db r db' :
  app POST_api_blogs w req db = (r, db') →
  (status r ≠ 201 → db' = db)
  ∧ (status r = 201 →
       ∃ id blog,
         r = res 201 (JsonBlog id blog)
         ∧ blogsCol db !! id = None
         ∧ blogsCol db' = <[id := blog]> (blogsCol db)
         ∧ usersCol db' = usersCol db
         ∧ b_title (body req) = Some (Blog.title blog)
         ∧ b_content (body req) = Some (Blog.content blog)
         ∧ b_excerpt (body req) = Some (Blog.excerpt blog)
         ∧ b_tone (body req) = Some (Blog.tone blog)
         ∧ b_language (body req) = Some (Blog.language blog)
         ∧ Blog.created_at blog = Some (now w)
         ∧ Blog.updated_at blog = None
         ∧ (anonymous w req → Blog.user_id blog = None)
         ∧ (∀ caller, authenticated w req caller →
              Blog.user_id blog = Some (Claims.id caller))
         ∧ (∀ w' req', params_id req' = id →
              app GET_api_blogs_id w' req' db' = (res 200 (JsonBlog id blog), db'))).
Proof.
  intros Hrun.
  destruct (post_route_outcome _ _ _ _ _ Hrun)
    as [[Hstatus ->] | (Hstatus & u & title & content & excerpt & tone & language
                        & Htry & Ht & Hc & He & Htn & Hl & -> & ->)]; [done|].
  split; [done|]. intros _. eexists _, _. split; [done|]. simpl.
  split_and!; try done.
  - apply not_elem_of_dom. apply is_fresh.
  - intros Hanon. rewrite (tryAuthenticate_anonymous _ _ _ Hanon) in Htry.
    apply (f_equal (λ h, h db)) in Htry. rewrite !post_api_blogs_cases in Htry.
    simpl in Htry. rewrite Ht, Hc, He, Htn, Hl in Htry. by simplify_eq.
  - intros caller Hauth.
    rewrite (tryAuthenticate_authenticated _ _ _ _ Hauth) in Htry.
    apply (f_equal (λ h, h db)) in Htry. rewrite !post_api_blogs_cases in Htry.
    simpl in Htry. rewrite Ht, Hc, He, Htn, Hl in Htry. by simplify_eq.
  - intros w' req' Hid. rewrite get_api_blogs_id_cases, Hid.
    rewrite doc_plain by apply fresh_plain. simpl.
    by rewrite lookup_insert_eq.
Qed.

(** After a successful update, reading the blog's id returns the body's
    title, content and excerpt and the time of the update, beside the owner,
    tone, language and creation timestamp the blog had. The blog is the one
    the path of the request names (for a plain id, the id of the request),
    and it is read back under its id. *)
Theorem update_then_read w req db r db' :
  app PUT_api_blogs_id w req db = (r, db') → status r = 200 →
  ∃ id old title content excerpt,
    Firestore.doc (params_id req) = Some [id]
    ∧ (Firestore.plain (params_id req) = true → id = params_id req)
    ∧ blogsCol db !! id = Some old
    ∧ b_title (body req) = Some title
    ∧ b_content (body req) = Some content
    ∧ b_excerpt (body req) = Some excerpt
    ∧ ∀ w' req', params_id req' = params_id req →
        app GET_api_blogs_id w' req' db'
        = (res 200 (JsonBlog id
                      (Blog.mk (Blog.user_id old) title content excerpt (Blog.tone old)
                         (Blog.language old) (Blog.created_at old) (Some (now w)))),
           db').
Proof.
  intros Hput Hstatus.
  apply put_route_outcome in Hput
    as [[Hne _] | (_ & id & old & title & content & excerpt
                   & Hpath & Hplain & Hold & Ht & Hc & He & ->)];
    [done|].
  exists id, old, title, content, excerpt. split_and!; try done.
  intros w' req' Hid. simpl. rewrite get_api_blogs_id_cases, Hid, Hpath. simpl.
  by rewrite lookup_insert_eq.
Qed.

Lemma delete_route_outcome w req db r db' :
  app DELETE_api_blogs_id w req db = (r, db') →
  (status r ≠ 200 ∧ db' = db)
  ∨ (status r = 200
     ∧ ∃ id, Firestore.doc (params_id req) = Some [id]
             ∧ (Firestore.plain (params_id req) = true → id = params_id req)
             ∧ is_Some (blogsCol db !! id)
             ∧ db' = mkDb (usersCol db) (delete id (blogsCol db))).
Proof.
  simpl. destruct (authenticateToken_cases w req (delete_api_blogs_id w) db)
    as [Hmw | [Hmw | [caller Hmw]]]; rewrite Hmw; [by intros [= <- <-]; left..|].
  rewrite (delete_api_blogs_id_cases _ _ caller) by done. simpl.
  destruct (Firestore.doc (params_id req)) as [ref|] eqn:Hpath;
    [|by intros [= <- <-]; left].
  destruct (Firestore.get (blogsCol db) ref) as [data|] eqn:Hdoc;
    [|by intros [= <- <-]; left].
  destruct ref as [|id [|? ?]]; simpl in Hdoc; try done. simpl.
  destruct (not_admin_nor_owner caller data); intros [= <- <-]; [by left|].
  right. split; [done|]. exists id. split_and!; try by eauto.
  intros Hplain. rewrite doc_plain in Hpath by done. by injection Hpath.
Qed.

(** Deleting a blog. A delete that does not reply 200 writes nothing. One
    that replies 200 removes the addressed blog, the one whose id the path
    of the request names (for a plain id, the id of the request), and
    nothing else: the users and every other blog
    stay as they were, reading the id replies 404 from then on, and a second
    delete of it by an authenticated caller replies 404 as well. *)
Theorem delete_then_read w req db r db' :
  app DELETE_api_blogs_id w req db = (r, db') →
  (status r ≠ 200 → db' = db)
  ∧ (status r = 200 →
       ∃ id,
         Firestore.doc (params_id req) = Some [id]
         ∧ (Firestore.plain (params_id req) = true → id = params_id req)
         ∧ is_Some (blogsCol db !! id)
         ∧ usersCol db' = usersCol db
         ∧ blogsCol db' !! id = None
         ∧ (∀ id', id' ≠ id → blogsCol db' !! id' = blogsCol db !! id')
         ∧ (∀ w' req', params_id req' = params_id req →
              app GET_api_blogs_id w' req' db'
              = (res 404 (JsonError "Blog not found"), db'))
         ∧ (∀ w' req' caller, params_id req' = params_id req →
              authenticated w' req' caller →
              app DELETE_api_blogs_id w' req' db'
              = (res 404 (JsonError "Blog not found"), db'))).
Proof.
  intros Hdel.
  apply delete_route_outcome in Hdel
    as [[Hstatus ->] | (Hstatus & id & Hpath & Hplain & Hsome & ->)]; [done|].
  split; [done|]. intros _. exists id. simpl. split_and!.
  - done.
  - done.
  - done.
  - done.
  - apply lookup_delete_eq.
  - intros id' Hid. by apply lookup_delete_ne.
  - intros w' req' Hid. rewrite get_api_blogs_id_cases, Hid, Hpath. simpl.
    by rewrite lookup_delete_eq.
  - intros w' req' caller Hid Hauth.
    rewrite (authenticateToken_authenticated _ _ _ caller) by done.
    rewrite (delete_api_blogs_id_cases _ _ caller) by done. simpl.
    rewrite Hid, Hpath. simpl. by rewrite lookup_delete_eq.
Qed.

Lemma get_api_blogs_own w req caller db :
  user req = Some caller →
  get_api_blogs w req db
  = (res 200 (JsonBlogs
                (Js.sort (λ a b, dateOf b - dateOf a)%Z
                   (Firestore.where_
                      (λ b, bool_decide (Blog.user_id b = Some (Claims.id caller)))
                      (Firestore.docs (blogsCol db))))), db).
Proof. intros Hu. unfold get_api_blogs. run. by rewrite Hu. Qed.

(** A blog created by an authenticated caller is in that caller's listing
    from then on: whenever a request authenticated with the same id lists
    the blogs of the resulting database, the new blog is among them. *)
Theorem created_blog_is_listed w req caller db r db' w' req' caller' :
  authenticated w req caller →
  app POST_api_blogs w req db = (r, db') → status r = 201 →
  authenticated w' req' caller' → Claims.id caller' = Claims.id caller →
  ∃ id blog listed,
    r = res 201 (JsonBlog id blog)
    ∧ app GET_api_blogs w' req' db' = (res 200 (JsonBlogs listed), db')
    ∧ (id, blog) ∈ listed.
Proof.
  intros Hauth Hrun Hstatus Hauth' Hid.
  destruct (post_route_outcome _ _ _ _ _ Hrun)
    as [[Hne _] | (_ & u & title & content & excerpt & tone & language
                   & Htry & Ht & Hc & He & Htn & Hl & -> & ->)]; [done|].
  rewrite (tryAuthenticate_authenticated _ _ _ _ Hauth) in Htry.
  apply (f_equal (λ h, h db)) in Htry. rewrite !post_api_blogs_cases in Htry.
  simpl in Htry. rewrite Ht, Hc, He, Htn, Hl in Htry.
  assert (Claims.id <$> u = Some (Claims.id caller)) as -> by by simplify_eq.
  eexists _, _, _. split; [done|]. simpl.
  rewrite (tryAuthenticate_authenticated _ _ _ _ Hauth').
  rewrite (get_api_blogs_own _ _ caller') by done. split; [done|].
  rewrite (sort_Permutation dateOf). apply elem_of_where. simpl. split.
  - rewrite Hid. by apply bool_decide_eq_true.
  - apply elem_of_docs. apply lookup_insert_eq.
Qed.

(** *** The bootstrap account *)

Lemma seedAdmin_cases w db :
  seedAdmin w db =
    match byUsername "admin" db with
    | [] =>
        mkDb (<[fresh (dom (usersCol db)) :=
                  User.mk "admin" (Some (bcrypt_hash "1900" 10 (salt w))) (Some "admin")
                    None None None (now w)]> (usersCol db))
          (blogsCol db)
    | _ :: _ => db
    end.
Proof.
  unfold seedAdmin, byUsername. run.
  by destruct (Firestore.limit 1 _).
Qed.

(** Seeding guarantees the bootstrap account and is harmless otherwise:
    afterwards some user is named [admin]; the blogs and every user already
    stored are as before; a database that has a user named [admin] is left
    exactly as it was, so seeding twice is seeding once; and on a database
    without one, exactly one user is added, named [admin], with the role
    [admin] and the hash of the fixed bootstrap password. *)
Theorem seedAdmin_ensures_admin w db :
  (∃ id u, usersCol (seedAdmin w db) !! id = Some u ∧ User.username u = "admin")
  ∧ blogsCol (seedAdmin w db) = blogsCol db
  ∧ (∀ id u, usersCol db !! id = Some u → usersCol (seedAdmin w db) !! id = Some u)
  ∧ ((∃ id u, usersCol db !! id = Some u ∧ User.username u = "admin") →
       seedAdmin w db = db)
  ∧ (∀ w', seedAdmin w' (seedAdmin w db) = seedAdmin w db)
  ∧ ((∀ id u, usersCol db !! id = Some u → User.username u ≠ "admin") →
       usersCol db !! fresh (dom (usersCol db)) = None
       ∧ usersCol (seedAdmin w db)
         = <[fresh (dom (usersCol db)) :=
               User.mk "admin" (Some (bcrypt_hash "1900" 10 (salt w))) (Some "admin")
                 None None None (now w)]> (usersCol db)).
Proof.
  assert (usersCol db !! fresh (dom (usersCol db)) = None) as Hfresh
    by (apply not_elem_of_dom; apply is_fresh).
  assert (∃ id u, usersCol (seedAdmin w db) !! id = Some u ∧ User.username u = "admin")
    as Hadmin.
  { rewrite seedAdmin_cases.
    destruct (byUsername "admin" db) as [|[id u] rest] eqn:Hq.
    - eexists _, _. simpl. split; [apply lookup_insert_eq|done].
    - apply byUsername_cons in Hq as [Hu Hname]. by exists id, u. }
  assert (∀ db0, (∃ id u, usersCol db0 !! id = Some u ∧ User.username u = "admin") →
                 ∀ w0, seedAdmin w0 db0 = db0) as Hkept.
  { intros db0 (id & u & Hu & Hname) w0. rewrite seedAdmin_cases.
    destruct (byUsername "admin" db0) as [|found rest] eqn:Hq; [|done].
    rewrite byUsername_nil in Hq. by destruct (Hq id u). }
  split_and!.
  - done.
  - rewrite seedAdmin_cases. by destruct (byUsername "admin" db).
  - intros id u Hu. rewrite seedAdmin_cases.
    destruct (byUsername "admin" db); [|done]. simpl.
    rewrite lookup_insert_ne; [done|]. congruence.
  - intros Hhas. by apply Hkept.
  - intros w'. by apply Hkept.
  - intros Hnone. split; [done|]. rewrite seedAdmin_cases.
    apply byUsername_nil in Hnone. by rewrite Hnone.
Qed.

(** On a database without a user named [admin], the seeded account opens
    with the bootstrap password: a login as [admin] with [1900] replies 200,
    names the role [admin] and carries a token that verifies to that role. *)
Theorem seeded_admin_can_login w db w' req :
  (∀ id u, usersCol db !! id = Some u → User.username u ≠ "admin") →
  b_username (body req) = Some "admin" → b_password (body req) = Some "1900" →
  ∃ id token claims,
    app POST_api_auth_login w' req (seedAdmin w db)
    = (res 200 (JsonLogin token id "admin" "admin"), seedAdmin w db)
    ∧ jwt_verify token JWT_SECRET (now w') = inr claims
    ∧ Claims.id claims = id
    ∧ Claims.username claims = "admin"
    ∧ Claims.role claims = "admin".
Proof using hs256_decode_encode bcrypt_compare_hash bcrypt_hash_truthy.
  intros Hnone Hname Hpw. simpl.
  rewrite post_api_auth_login_cases, Hname, Hpw.
  rewrite seedAdmin_cases. pose proof Hnone as Hq. apply byUsername_nil in Hq.
  rewrite Hq.
  set (data := User.mk "admin" (Some (bcrypt_hash "1900" 10 (salt w))) (Some "admin")
                 None None None (now w)).
  set (id := fresh (dom (usersCol db))).
  assert (byUsername "admin" (mkDb (<[id := data]> (usersCol db)) (blogsCol db))
          = [(id, data)]) as ->.
  { unfold byUsername. simpl.
    pose proof (where_after_add (λ u, String.eqb (User.username u) "admin") data
                  (usersCol db)) as Hwhere.
    unfold Firestore.add in Hwhere. simpl in Hwhere. fold id in Hwhere.
    rewrite Hwhere; [done| |done].
    unfold byUsername in Hq. by apply limit_1_nil in Hq. }
  simpl. rewrite bcrypt_hash_truthy, bcrypt_compare_hash. simpl.
  eexists id, _, _. split; [done|].
  erewrite jwt_verify_exp; [|apply jwt_sign_payload|done].
  rewrite (proj2 (Z.leb_gt _ _)); [done|]. unfold expiresIn_24h. lia.
Qed.

(** *** The OAuth callback, once more *)

Lemma filter_nil_subseteq {X} (P : X → Prop) `{!∀ x, Decision (P x)} (l k : list X) :
  (∀ x, x ∈ l → x ∈ k) → filter P k = [] → filter P l = [].
Proof.
  intros Hsub Hnil. destruct (filter P l) as [|x rest] eqn:Hl; [done|].
  assert (x ∈ filter P l) as Hin by (rewrite Hl; left).
  apply list_elem_of_filter in Hin as [HP Hin].
  assert (x ∈ filter P k) as Hk by (apply list_elem_of_filter; auto).
  rewrite Hnil in Hk. by apply not_elem_of_nil in Hk.
Qed.

(** A query that matched nothing matches exactly the written document,
    whether it was added or replaced an existing one. *)
Lemma where_after_insert {D} (test : D → bool) id data (col : gmap string D) :
  Firestore.where_ test (Firestore.docs col) = [] → test data = true →
  Firestore.where_ test (Firestore.docs (<[id := data]> col)) = [(id, data)].
Proof.
  intros Hnone Htest. apply Permutation_singleton_r.
  unfold Firestore.where_, Firestore.docs in *.
  rewrite <- insert_delete_eq.
  rewrite map_to_list_insert by apply lookup_delete_eq.
  rewrite filter_cons_True by done.
  rewrite (filter_nil_subseteq _ _ (map_to_list col)); [done| |done].
  intros [i x]. rewrite !elem_of_map_to_list. intros [_ Hx]%lookup_delete_Some. done.
Qed.

Lemma callback_outcome w req db r db' :
  app GET_auth_google_callback w req db = (r, db') →
  (status r ≠ 200 ∧ db' = db)
  ∨ (∃ code profile userDoc,
       query_code req = Some code ∧ code ≠ "" ∧ google w code = Some profile
       ∧ r = success_page w userDoc
       ∧ ((db' = db ∧ byGoogleId profile db = userDoc :: [])
          ∨ (byGoogleId profile db = []
             ∧ usersCol db !! userDoc.1 = Some userDoc.2
             ∧ db' = mkDb (<[userDoc.1 := User.set_google_id (sub profile) userDoc.2]>
                             (usersCol db)) (blogsCol db))
          ∨ (byGoogleId profile db = []
             ∧ usersCol db !! userDoc.1 = None
             ∧ User.role userDoc.2 = Some "user"
             ∧ User.password userDoc.2 = None
             ∧ User.google_id userDoc.2 = Some (sub profile)
             ∧ db' = mkDb (<[userDoc.1 := userDoc.2]> (usersCol db)) (blogsCol db)))).
Proof.
  simpl. destruct (query_code req) as [code|] eqn:Hcode;
    [|unfold get_auth_google_callback; rewrite Hcode; intros [= <- <-]; by left].
  destruct (decide (code = "")) as [-> | Hne].
  { unfold get_auth_google_callback. rewrite Hcode. intros [= <- <-]. by left. }
  destruct (google w code) as [profile|] eqn:Hgoogle.
  - rewrite (get_auth_google_callback_cases _ _ _ code profile) by done.
    destruct (byGoogleId profile db) as [|found rest] eqn:HbyId.
    + destruct (byEmail profile db) as [|found rest] eqn:HbyEmail.
      * destruct (Js.truthy (name profile) || _); [|intros [= <- <-]; by left].
        intros [= <- <-]. right. eexists code, profile, (_, _).
        split_and!; try done. right. right. simpl. split_and!; try done.
        apply not_elem_of_dom. apply is_fresh.
      * intros [= <- <-]. right. exists code, profile, found.
        split_and!; try done. right. left. split_and!; try done.
        unfold byEmail in HbyEmail. destruct (Js.truthy (email profile)); [|done].
        by apply limit_where_lookup in HbyEmail as [? _].
    + intros [= <- <-]. right. exists code, profile, found.
      split_and!; try done. left. split; [done|].
      unfold byGoogleId, Firestore.limit in *.
      destruct (Firestore.where_ _ _) as [|x [|y l]]; simpl in *; by simplify_eq.
  - unfold get_auth_google_callback. rewrite Hcode.
    apply truthy_Some in Hne. rewrite Hne. simpl. run. rewrite Hgoogle. simpl.
    intros [= <- <-]. by left.
Qed.

(** The callback's refusals, each leaving the database as it was: without
    a code, or with an empty one, the reply is 400 "No code provided"; when
    the identity provider does not answer the code, it is 500
    "Authentication failed". *)
Theorem oauth_callback_refusals w req db :
  (query_code req = None ∨ query_code req = Some "" →
     app GET_auth_google_callback w req db = (res 400 (Text "No code provided"), db))
  ∧ (∀ code, query_code req = Some code → code ≠ "" → google w code = None →
       app GET_auth_google_callback w req db
       = (res 500 (Text "Authentication failed"), db)).
Proof.
  simpl. unfold get_auth_google_callback. split.
  - by intros [-> | ->].
  - intros code -> Hne Hgoogle. apply truthy_Some in Hne. rewrite Hne. simpl.
    run. by rewrite Hgoogle.
Qed.

(** Signing in twice. After a callback that replied with the success page,
    any later callback whose profile has the same subject id resolves to the
    same user: the reply names the same id, username and role, and nothing is
    written, whatever name and email the later profile carries. *)
Theorem oauth_repeated_login_same_user w req db code profile r db' w' req' code' profile' :
  query_code req = Some code → code ≠ "" → google w code = Some profile →
  app GET_auth_google_callback w req db = (r, db') → status r = 200 →
  query_code req' = Some code' → code' ≠ "" → google w' code' = Some profile' →
  sub profile' = sub profile →
  ∃ id uname role token token',
    r = res 200 (OAuthSuccessPage token id uname role)
    ∧ app GET_auth_google_callback w' req' db'
      = (res 200 (OAuthSuccessPage token' id uname role), db').
Proof.
  intros Hcode Hne Hgoogle Hrun Hstatus Hcode' Hne' Hgoogle' Hsub.
  apply callback_outcome in Hrun
    as [[Hstatus' _] | (code0 & profile0 & [id data] & Hcode0 & _ & Hgoogle0 & -> & Hcases)];
    [done|].
  assert (profile0 = profile) as -> by congruence.
  simpl in Hcases. eexists id, _, _, _, _. split; [done|]. simpl.
  rewrite (get_auth_google_callback_cases _ _ _ code' profile') by done.
  assert (∀ db0, byGoogleId profile' db0 = byGoogleId profile db0) as HbyId
    by (intros db0; unfold byGoogleId; by rewrite Hsub).
  rewrite HbyId.
  assert (∀ data', User.username data' = User.username data →
                   User.role data' = User.role data →
                   User.google_id data' = Some (sub profile) →
                   byGoogleId profile (mkDb (<[id := data']> (usersCol db)) (blogsCol db))
                   = [(id, data')] ∨ byGoogleId profile db ≠ []) as Hwritten.
  { intros data' _ _ Hg. destruct (byGoogleId profile db) eqn:Hq; [left|by right].
    unfold byGoogleId in *. apply limit_1_nil in Hq. simpl.
    rewrite where_after_insert; [done|done|by apply bool_decide_eq_true]. }
  destruct Hcases as [[-> HbyId1] | [(Hnone & Hdata & ->) | (Hnone & _ & _ & _ & Hg & ->)]].
  - by rewrite HbyId1.
  - destruct (Hwritten (User.set_google_id (sub profile) data)) as [-> | ?]; done.
  - destruct (Hwritten data) as [-> | ?]; done.
Qed.

(** The token of the success page is signed over the id, username and
    role the page names, for 24 hours from the request's time, and verifies
    to them at that time. *)
Theorem oauth_token_claims w req db db' token id uname role :
  app GET_auth_google_callback w req db = (res 200 (OAuthSuccessPage token id uname role), db') →
  token = jwt_sign id uname role JWT_SECRET expiresIn_24h (now w)
  ∧ jwt_verify token JWT_SECRET (now w)
    = inr (Claims.mk id uname role (now w / 1000)%Z
             (Some (now w / 1000 + expiresIn_24h)%Z)).
Proof using hs256_decode_encode.
  intros Hrun.
  apply callback_outcome in Hrun
    as [[Hstatus _] | (code & profile & userDoc & _ & _ & _ & Hpage & _)]; [done|].
  unfold success_page in Hpage. injection Hpage as -> -> -> ->.
  split; [done|].
  erewrite jwt_verify_exp; [|apply jwt_sign_payload|done].
  rewrite (proj2 (Z.leb_gt _ _)); [done|]. unfold expiresIn_24h. lia.
Qed.

(** *** The users, over all routes *)

(** What a request can do to the users: nothing, add one user of role
    [user] under an unused id, or (the OAuth callback) set the external
    subject id of one user. *)
Lemma users_outcome route w req db r db' :
  app route w req db = (r, db') →
  usersCol db' = usersCol db
  ∨ (∃ id data, usersCol db !! id = None ∧ User.role data = Some "user"
                ∧ usersCol db' = <[id := data]> (usersCol db))
  ∨ (route = GET_auth_google_callback
     ∧ ∃ id u g, usersCol db !! id = Some u
                 ∧ usersCol db' = <[id := User.set_google_id g u]> (usersCol db)).
Proof.
  intros Hrun. destruct route.
  - apply register_outcome in Hrun as [Hfail Hok].
    destruct (decide (status r = 201)) as [Hstatus | Hstatus].
    + destruct (Hok Hstatus) as (uname & pw & id & _ & _ & _ & _ & Hfresh & _ & Hnew & _).
      right. left. eexists id, _. split; [done|]. split; [|exact Hnew]. done.
    + left. by rewrite Hfail.
  - left. f_equal. eapply reading_routes_same. left. exact Hrun.
  - apply callback_outcome in Hrun
      as [[_ ->] | (code & profile & [id data] & _ & _ & _ & _
                    & [[-> _] | [(_ & Hdata & ->) | (_ & Hfresh & Hrole & _ & _ & ->)]])];
      simpl in *.
    + by left.
    + by left.
    + right. right. split; [done|]. by exists id, data, (sub profile).
    + right. left. by exists id, data.
  - left. f_equal. eapply reading_routes_same. right. left. exact Hrun.
  - left. f_equal. eapply reading_routes_same. right. right. left. exact Hrun.
  - apply post_route_outcome in Hrun
      as [[_ ->] | (_ & ? & ? & ? & ? & ? & ? & _ & _ & _ & _ & _ & _ & _ & ->)];
      by left.
  - apply put_route_outcome in Hrun
      as [[_ ->] | (_ & ? & ? & ? & ? & ? & _ & _ & _ & _ & _ & _ & ->)]; by left.
  - apply delete_route_outcome in Hrun as [[_ ->] | (_ & ? & _ & _ & _ & ->)]; by left.
  - left. f_equal. eapply reading_routes_same. right. right. right. exact Hrun.
Qed.

(** No route loses or rewrites a user: after any request every stored
    user is still stored under its id with the same username, password hash,
    role, email, avatar and creation time; its external subject id can
    change, and only through the OAuth callback. *)
Theorem users_are_kept route w req db r db' id u :
  app route w req db = (r, db') → usersCol db !! id = Some u →
  ∃ u', usersCol db' !! id = Some u'
        ∧ User.username u' = User.username u
        ∧ User.password u' = User.password u
        ∧ User.role u' = User.role u
        ∧ User.email u' = User.email u
        ∧ User.avatar u' = User.avatar u
        ∧ User.created_at u' = User.created_at u
        ∧ (User.google_id u' = User.google_id u ∨ route = GET_auth_google_callback).
Proof.
  intros Hrun Hu.
  apply users_outcome in Hrun
    as [-> | [(id' & data & Hfresh & _ & ->) | (-> & id' & u0 & g & Hu0 & ->)]].
  - exists u. split_and!; auto.
  - exists u. rewrite lookup_insert_ne by congruence. split_and!; auto.
  - destruct (decide (id' = id)) as [-> | Hne].
    + rewrite lookup_insert_eq. assert (u0 = u) as -> by congruence.
      eexists. split; [done|]. simpl. split_and!; auto.
    + exists u. rewrite lookup_insert_ne by done. split_and!; auto.
Qed.

(** No route grants the role [admin]: a user who has it after a request
    was stored with it, under the same id, before the request. *)
Theorem admin_role_is_never_granted route w req db r db' id u' :
  app route w req db = (r, db') →
  usersCol db' !! id = Some u' → User.role u' = Some "admin" →
  ∃ u, usersCol db !! id = Some u ∧ User.role u = Some "admin".
Proof.
  intros Hrun Hu' Hrole.
  apply users_outcome in Hrun
    as [Hsame | [(id' & data & Hfresh & Hdata & Hnew) | (_ & id' & u0 & g & Hu0 & Hnew)]].
  - rewrite Hsame in Hu'. by exists u'.
  - rewrite Hnew in Hu'. destruct (decide (id' = id)) as [-> | Hne].
    + rewrite lookup_insert_eq in Hu'. congruence.
    + rewrite lookup_insert_ne in Hu' by done. by exists u'.
  - rewrite Hnew in Hu'. destruct (decide (id' = id)) as [-> | Hne].
    + rewrite lookup_insert_eq in Hu'. injection Hu' as <-. by exists u0.
    + rewrite lookup_insert_ne in Hu' by done. by exists u'.
Qed.

(** *** From the login to the next request *)

Lemma split_Bearer token : Js.split " " ("Bearer " +:+ token) = "Bearer" :: Js.split " " token.
Proof. reflexivity. Qed.

Lemma split_head_cons sep s : ∃ w ws, Js.split sep s = w :: ws.
Proof.
  induction s as [|c s (w & ws & IH)]; simpl; [by eauto|].
  destruct (Ascii.eqb c sep); [by eauto|]. rewrite IH. by eauto.
Qed.

Lemma client_header_parsed req token :
  authorization req = Client.headers (Some token) → token ≠ "" →
  Js.split " " token = [token] → has_token req token.
Proof.
  intros Hheader Hne Hsplit. unfold has_token, bearer. rewrite Hheader.
  unfold Client.headers. pose proof Hne as Htruthy. apply truthy_Some in Htruthy.
  rewrite Htruthy.
  assert (Js.truthy (Some ("Bearer " +:+ token)) = true) as -> by done.
  rewrite split_Bearer, Hsplit. done.
Qed.

(** The client's header and the server's reading of it. Without a stored
    token the client sends no header and the server sees no token. With one,
    the server reads the token up to its first space: a token without a space
    arrives whole. *)
Theorem client_header_round_trip req token :
  authorization req = Client.headers token →
  (Js.truthy token = false → no_token req)
  ∧ (∀ t, token = Some t → t ≠ "" →
       bearer req = head (Js.split " " t)
       ∧ (Js.split " " t = [t] → has_token req t)).
Proof.
  intros Hheader. unfold no_token, has_token, bearer. rewrite Hheader. split.
  - intros Hfalsy. left. unfold Client.headers.
    destruct token as [t|]; [|done]. by rewrite Hfalsy.
  - intros t -> Hne. unfold Client.headers.
    pose proof Hne as Htruthy. apply truthy_Some in Htruthy. rewrite Htruthy.
    assert (Js.truthy (Some ("Bearer " +:+ t)) = true) as -> by done.
    rewrite split_Bearer. simpl.
    destruct (split_head_cons " " t) as (w0 & ws & Hsplit). rewrite Hsplit. simpl.
    split; [done|]. intros [= -> ->]. done.
Qed.

(** The token of a successful login, sent back by the client, opens the
    session it was issued for: for 24 hours from the login the request is
    authenticated as the id, username and role the login returned; from then
    on the token is refused, so strict routes reply 403 and best-effort
    routes treat the request as anonymous. *)
Theorem login_token_opens_session w req db db' token id uname role w' req' :
  app POST_api_auth_login w req db = (res 200 (JsonLogin token id uname role), db') →
  token ≠ "" → Js.split " " token = [token] →
  authorization req' = Client.headers (Some token) →
  ((now w' / 1000 < now w / 1000 + 24 * 60 * 60)%Z →
     authenticated w' req'
       (Claims.mk id uname role (now w / 1000)%Z (Some (now w / 1000 + 24 * 60 * 60)%Z)))
  ∧ ((now w / 1000 + 24 * 60 * 60 ≤ now w' / 1000)%Z →
     anonymous w' req'
     ∧ ∀ next db0, authenticateToken w' req' next db0
                   = (res 403 (JsonError "Forbidden"), db0)).
Proof using hs256_decode_encode.
  intros Hlogin Hne Hsplit Hheader.
  apply login_token_issued in Hlogin.
  pose proof (client_header_parsed req' token Hheader Hne Hsplit) as Htok.
  assert (hs256_decode token JWT_SECRET
          = Some (Claims.mk id uname role (now w / 1000)%Z
                    (Some (now w / 1000 + 24 * 60 * 60)%Z))) as Hdec
    by (rewrite Hlogin; apply jwt_sign_payload).
  split.
  - intros Hlt. exists token. split; [done|].
    erewrite jwt_verify_exp; [|exact Hdec|done].
    by rewrite (proj2 (Z.leb_gt _ _)) by lia.
  - intros Hle.
    assert (jwt_verify token JWT_SECRET (now w') = inl TokenExpiredError) as Hverify.
    { erewrite jwt_verify_exp; [|exact Hdec|done].
      by rewrite (proj2 (Z.leb_le _ _)) by lia. }
    split.
    + right. by exists token, TokenExpiredError.
    + intros next db0. rewrite (authenticateToken_has_token _ _ _ token) by done.
      by rewrite Hverify.
Qed.

End Server.

(** ** Configuration: the base URL and the database handle *)

Section string_facts.
Implicit Types (p r s t : string) (c : ascii).

Lemma startsWith_app p s t :
  JsString.startsWith p s = true → JsString.startsWith p (s +:+ t) = true.
Proof.
  revert s. induction p as [|a p IH]; [done|].
  intros [|c s]; simpl; [done|].
  rewrite !andb_true_iff. intros [-> Hp]. by rewrite IH.
Qed.

Lemma includes_app p s t :
  JsString.includes p (s +:+ t) = false → JsString.includes p s = false.
Proof.
  induction s as [|c s IH]; simpl.
  - destruct p; simpl; [|done]. by destruct t.
  - rewrite !orb_false_iff. intros [Hpre Hrest]. split; [|by apply IH].
    destruct (JsString.startsWith p (String c s)) eqn:Hp; [|done].
    apply (startsWith_app _ _ t) in Hp.
    change (String c s +:+ t) with (String c (s +:+ t)) in Hp. congruence.
Qed.

Lemma replace_absent p r s : JsString.includes p s = false → JsString.replace p r s = s.
Proof.
  induction s as [|c s IH]; simpl.
  - rewrite orb_false_r. by intros ->.
  - rewrite orb_false_iff. intros [-> Hrest]. by rewrite IH.
Qed.

Lemma endsWith_snoc c s d :
  JsString.endsWith (String c EmptyString) (s +:+ String d EmptyString) = Ascii.eqb c d.
Proof.
  induction s as [|a s IH]; simpl.
  - rewrite orb_false_r. by destruct (Ascii.eqb c d).
  - rewrite IH. destruct (Ascii.eqb c a); [|done].
    by destruct s.
Qed.

Lemma slice_0_m1_snoc s d : JsString.slice_0_m1 (s +:+ String d EmptyString) = s.
Proof.
  induction s as [|a s IH]; simpl; [done|].
  rewrite IH. by destruct s.
Qed.

Lemma app_assoc_string s t u : (s +:+ t) +:+ u = s +:+ (t +:+ u).
Proof.
  induction s as [|a s IH]; [done|].
  change (String a ((s +:+ t) +:+ u) = String a (s +:+ (t +:+ u))). by rewrite IH.
Qed.

Lemma snoc_ne_of_endsWith c s t :
  JsString.endsWith (String c EmptyString) t = false → s +:+ String c EmptyString ≠ t.
Proof. intros Hend <-. by rewrite endsWith_snoc, Ascii.eqb_refl in Hend. Qed.
End string_facts.

(** The base URL of a configured address. For an address that is set, is
    not one of the two placeholders and holds no [http://], a single
    trailing slash makes no difference: with or without it the base URL is
    the address without the slash, so the redirect URI is the same. Only one
    slash is taken off: an address ending in two keeps one. *)
Theorem getBaseUrl_trailing_slash u :
  u ≠ "" → u ≠ "MY_APP_URL" → u ≠ "YOUR_APP_URL" →
  JsString.endsWith "/" u = false →
  JsString.includes "http://" (u +:+ "//") = false →
  Oauth.getBaseUrl (Some u) = u
  ∧ Oauth.getBaseUrl (Some (u +:+ "/")) = u
  ∧ Oauth.REDIRECT_URI (Some (u +:+ "/")) = Oauth.REDIRECT_URI (Some u)
  ∧ Oauth.getBaseUrl (Some (u +:+ "//")) = u +:+ "/".
Proof.
  intros Hne Hmy Hyour Hend Hhttp2.
  assert (JsString.includes "http://" (u +:+ "/") = false) as Hhttp1.
  { apply (includes_app _ _ "/"). by rewrite app_assoc_string. }
  assert (JsString.includes "http://" u = false) as Hhttp0
    by by apply (includes_app _ _ "/").
  assert (∀ v, v ≠ "" → v ≠ "MY_APP_URL" → v ≠ "YOUR_APP_URL" →
               JsString.includes "http://" v = false →
               Oauth.getBaseUrl (Some v)
               = if JsString.endsWith "/" v then JsString.slice_0_m1 v else v) as Hbase.
  { intros v Hv Hvmy Hvyour Hvhttp. unfold Oauth.getBaseUrl.
    apply truthy_Some in Hv. rewrite Hv. simpl.
    apply String.eqb_neq in Hvmy, Hvyour. rewrite Hvmy, Hvyour. simpl.
    rewrite (replace_absent _ _ _ Hvhttp). by destruct (JsString.includes ".run.app" v). }
  assert (Oauth.getBaseUrl (Some u) = u) as H0 by (rewrite Hbase, ?Hend; done).
  assert (Oauth.getBaseUrl (Some (u +:+ "/")) = u) as H1.
  { rewrite Hbase, ?endsWith_snoc, ?slice_0_m1_snoc; try done.
    - by destruct u.
    - by apply snoc_ne_of_endsWith.
    - by apply snoc_ne_of_endsWith. }
  split_and!; try done.
  - unfold Oauth.REDIRECT_URI. by rewrite H0, H1.
  - replace (u +:+ "//") with ((u +:+ "/") +:+ "/") in * by apply app_assoc_string.
    rewrite Hbase, ?endsWith_snoc, ?slice_0_m1_snoc; try done.
    + by destruct u.
    + by apply snoc_ne_of_endsWith.
    + by apply snoc_ne_of_endsWith.
Qed.

(** The base URL of an address on [.run.app] that is given with [http://]
    comes out with [https://], a single trailing slash taken off; and without
    a usable [APP_URL] (unset, empty or one of the two placeholders) the base
    URL is the default address. *)
Theorem getBaseUrl_https_and_fallback :
  (∀ rest, JsString.includes ".run.app" rest = true →
     Oauth.getBaseUrl (Some ("http://" +:+ rest))
     = "https://" +:+ (if JsString.endsWith "/" rest then JsString.slice_0_m1 rest else rest))
  ∧ (∀ APP_URL,
       APP_URL = None ∨ APP_URL = Some "" ∨ APP_URL = Some "MY_APP_URL"
       ∨ APP_URL = Some "YOUR_APP_URL" →
       Oauth.getBaseUrl APP_URL = Oauth.default_url
       ∧ Oauth.REDIRECT_URI APP_URL = Oauth.default_url +:+ "/auth/google/callback").
Proof.
  split.
  - intros rest Hrun. unfold Oauth.getBaseUrl.
    assert (Js.truthy (Some ("http://" +:+ rest)) = true) as -> by done.
    assert (String.eqb ("http://" +:+ rest) "MY_APP_URL" = false) as -> by done.
    assert (String.eqb ("http://" +:+ rest) "YOUR_APP_URL" = false) as -> by done.
    cbn [negb orb].
    change (JsString.includes ".run.app" ("http://" +:+ rest))
      with (JsString.includes ".run.app" rest).
    rewrite Hrun.
    change (JsString.replace "http://" "https://" ("http://" +:+ rest))
      with ("https://" +:+ rest).
    destruct rest as [|c rest]; [done|].
    change (JsString.endsWith "/" ("https://" +:+ String c rest))
      with (JsString.endsWith "/" (String c rest)).
    destruct (JsString.endsWith "/" (String c rest)); [|done].
    reflexivity.
  - intros APP_URL Hcases.
    assert (Oauth.getBaseUrl APP_URL = Oauth.default_url) as Hbase
      by (destruct Hcases as [-> | [-> | [-> | ->]]]; vm_compute; reflexivity).
    split; [done|]. unfold Oauth.REDIRECT_URI. by rewrite Hbase.
Qed.

(** *** The database handle *)

Section unescape_facts.
Implicit Types (s : string) (c d : ascii).

(** The first character of an unescaped text is a line feed or the first
    character of the text. *)
Lemma unescape_newlines_head d s :
  ∃ x rest, JsString.unescape_newlines (String d s) = String x rest
            ∧ (x = JsString.LF ∨ x = d).
Proof.
  destruct s as [|e s]; simpl; [by eauto|].
  destruct (Ascii.eqb d "\" && Ascii.eqb e "n"); by eauto.
Qed.

Lemma unescape_newlines_none_left_upto n s :
  (String.length s ≤ n)%nat →
  JsString.includes "\n" (JsString.unescape_newlines s) = false.
Proof.
  revert s. induction n as [|n IH]; intros [|c [|d s]] Hlen; try done;
    try (simpl in Hlen; lia).
  { cbn [JsString.includes JsString.startsWith JsString.unescape_newlines].
    by rewrite andb_false_r. }
  change (JsString.unescape_newlines (String c (String d s)))
    with (if Ascii.eqb c "\" && Ascii.eqb d "n"
          then String JsString.LF (JsString.unescape_newlines s)
          else String c (JsString.unescape_newlines (String d s))).
  simpl in Hlen.
  destruct (Ascii.eqb c "\" && Ascii.eqb d "n") eqn:Hpair.
  - change (JsString.includes "\n" (String JsString.LF (JsString.unescape_newlines s)))
      with (JsString.includes "\n" (JsString.unescape_newlines s)).
    apply IH. lia.
  - assert (JsString.includes "\n" (JsString.unescape_newlines (String d s)) = false)
      as Hrest by (apply IH; simpl; lia).
    destruct (unescape_newlines_head d s) as (x & rest & Hhead & Hx).
    rewrite Hhead in *.
    change (JsString.includes "\n" (String c (String x rest)))
      with (Ascii.eqb "\" c && (Ascii.eqb "n" x && true)
            || JsString.includes "\n" (String x rest)).
    rewrite Hrest, orb_false_r, andb_true_r.
    destruct (Ascii.eqb "\" c) eqn:Hc; [|done].
    apply Ascii.eqb_eq in Hc as <-.
    rewrite Ascii.eqb_refl, andb_true_l in Hpair.
    destruct Hx as [-> | ->]; [done|].
    by rewrite andb_true_l, Ascii.eqb_sym.
Qed.

Lemma unescape_newlines_none_left s :
  JsString.includes "\n" (JsString.unescape_newlines s) = false.
Proof. by apply (unescape_newlines_none_left_upto (String.length s)). Qed.

Lemma unescape_newlines_absent s :
  JsString.includes "\n" s = false → JsString.unescape_newlines s = s.
Proof.
  induction s as [|c s IH]; [done|]. destruct s as [|d s]; [done|].
  change (JsString.includes "\n" (String c (String d s)))
    with (Ascii.eqb "\" c && (Ascii.eqb "n" d && true)
          || JsString.includes "\n" (String d s)).
  rewrite orb_false_iff, andb_true_r. intros [Hpair Hrest].
  change (JsString.unescape_newlines (String c (String d s)))
    with (if Ascii.eqb c "\" && Ascii.eqb d "n"
          then String JsString.LF (JsString.unescape_newlines s)
          else String c (JsString.unescape_newlines (String d s))).
  rewrite (Ascii.eqb_sym c), (Ascii.eqb_sym d), Hpair. by rewrite IH.
Qed.
End unescape_facts.

(** The handle is a singleton. A call that fails leaves the module's state
    as it was. After a call that returns a handle, every later call returns
    that handle and changes nothing, whatever the environment and the
    library then say; and a call initialises an app only when there is none,
    so there is never more than one app that [getDb] created. *)
Theorem getDb_is_a_singleton initializeApp env st outcome st' :
  Firebase.getDb initializeApp env st = (outcome, st') →
  (∀ error, outcome = inl error → st' = st)
  ∧ (∀ handle, outcome = inr handle →
       Firebase.db st' = Some handle
       ∧ (Firebase.db st = Some handle ∧ st' = st
          ∨ Firebase.db st = None ∧ Firebase.apps st = []
            ∧ Firebase.apps st' = [handle]
          ∨ Firebase.db st = None ∧ head (Firebase.apps st) = Some handle
            ∧ Firebase.apps st' = Firebase.apps st)
       ∧ ∀ initializeApp' env',
           Firebase.getDb initializeApp' env' st' = (inr handle, st')).
Proof.
  unfold Firebase.getDb. destruct (Firebase.db st) as [handle0|] eqn:Hdb.
  { intros [= <- <-]. split; [done|]. intros handle [= <-]. rewrite Hdb.
    split_and!; by auto. }
  destruct (Firebase.apps st) as [|app rest] eqn:Happs.
  - destruct (negb _ || negb _ || negb _).
    { intros [= <- <-]. split; [done|]. done. }
    destruct (initializeApp _) as [error|].
    { intros [= <- <-]. split; [done|]. done. }
    intros [= <- <-]. split; [done|]. intros handle [= <-]. simpl.
    split_and!; by auto.
  - intros [= <- <-]. split; [done|]. intros handle [= <-]. simpl.
    split_and!; by auto.
Qed.

(** The three variables are needed for the first app only. With no handle
    and no app, a call fails with the message about the environment and
    changes nothing as soon as one of the three is unset or empty, before the
    library is asked anything; with an app already there, the call returns
    that app's handle whatever the environment holds. *)
Theorem getDb_missing_configuration initializeApp env st :
  Firebase.db st = None →
  (Firebase.apps st = [] →
   Js.truthy (Firebase.FIREBASE_PROJECT_ID env) = false
   ∨ Js.truthy (Firebase.FIREBASE_CLIENT_EMAIL env) = false
   ∨ Js.truthy (Firebase.FIREBASE_PRIVATE_KEY env) = false →
   Firebase.getDb initializeApp env st = (inl Firebase.missing, st))
  ∧ (∀ app, head (Firebase.apps st) = Some app →
       Firebase.getDb initializeApp env st
       = (inr app, Firebase.mkState (Firebase.apps st) (Some app))).
Proof.
  intros Hdb. unfold Firebase.getDb. rewrite Hdb. split.
  - intros -> [-> | [-> | ->]]; simpl; by rewrite ?orb_true_r.
  - intros app Happ. by destruct (Firebase.apps st) as [|app0 rest]; simplify_eq/=.
Qed.

(** The credential of the first app. When a call with no handle and no app
    returns a handle, the three variables were set and not empty, the
    library took the credential, and the credential holds the project id and
    the client email as given and the private key with every backslash
    followed by [n] turned into a line feed: no such pair is left in it, and
    a key that had none is passed as it is. *)
Theorem getDb_credential initializeApp env st handle st' :
  Firebase.db st = None → Firebase.apps st = [] →
  Firebase.getDb initializeApp env st = (inr handle, st') →
  ∃ project email key,
    Firebase.FIREBASE_PROJECT_ID env = Some project ∧ project ≠ ""
    ∧ Firebase.FIREBASE_CLIENT_EMAIL env = Some email ∧ email ≠ ""
    ∧ Firebase.FIREBASE_PRIVATE_KEY env = Some key ∧ key ≠ ""
    ∧ initializeApp handle = None
    ∧ handle = Firebase.mkCert (Some project) (Some email)
                 (Some (JsString.unescape_newlines key))
    ∧ JsString.includes "\n" (JsString.unescape_newlines key) = false
    ∧ (JsString.includes "\n" key = false → Firebase.privateKey handle = Some key).
Proof.
  intros Hdb Happs. unfold Firebase.getDb. rewrite Hdb, Happs.
  destruct (Js.truthy (Firebase.FIREBASE_PROJECT_ID env)) eqn:Hproject; [|done].
  destruct (Js.truthy (Firebase.FIREBASE_CLIENT_EMAIL env)) eqn:Hemail; [|done].
  destruct (Js.truthy (Firebase.FIREBASE_PRIVATE_KEY env)) eqn:Hkey; [|done].
  simpl.
  destruct (Firebase.FIREBASE_PROJECT_ID env) as [project|]; [|done].
  destruct (Firebase.FIREBASE_CLIENT_EMAIL env) as [email|]; [|done].
  destruct (Firebase.FIREBASE_PRIVATE_KEY env) as [key|]; [|done].
  apply truthy_Some in Hproject, Hemail, Hkey. simpl.
  destruct (initializeApp _) as [error|] eqn:Hinit; [done|].
  intros [= <- <-]. exists project, email, key. split_and!; try done.
  - apply unescape_newlines_none_left.
  - intros Hnone. simpl. by rewrite unescape_newlines_absent.
Qed.

(** ** The plain instance meets what the server relies on *)

Lemma plain_unframe_frame field rest :
  Plain.unframe (Plain.frame field rest) = Some (field, rest).
Proof.
  induction field as [|c field IH]; simpl; [done|]. by rewrite IH.
Qed.

Lemma plain_of_bits_bits p : Plain.of_bits (Plain.bits p) = p.
Proof. induction p; simpl; by f_equal. Qed.

Lemma plain_of_number_number z : Plain.of_number (Plain.number z) = z.
Proof. destruct z; simpl; by rewrite ?plain_of_bits_bits. Qed.

Lemma plain_of_optional_optional z : Plain.of_optional (Plain.optional z) = z.
Proof.
  destruct z as [z|]; [|done]. unfold Plain.optional.
  rewrite <- (plain_of_number_number z) at 2. by destruct z.
Qed.

Lemma plain_decode_encode payload secret :
  Plain.hs256_decode (Plain.hs256_encode payload secret) secret = Some payload.
Proof.
  unfold Plain.hs256_decode, Plain.hs256_encode.
  repeat (rewrite plain_unframe_frame; simpl).
  rewrite String.eqb_refl, plain_of_number_number, plain_of_optional_optional.
  by destruct payload.
Qed.

Lemma plain_compare_hash pw cost s :
  Plain.bcrypt_compare pw (Plain.bcrypt_hash pw cost s) = true.
Proof. apply String.eqb_refl. Qed.

Lemma plain_hash_truthy pw cost s :
  Js.truthy (Some (Plain.bcrypt_hash pw cost s)) = true.
Proof. reflexivity. Qed.

(** ** The properties on the sample data *)

Abbreviation plain_app :=
  (app Plain.hs256_encode Plain.hs256_decode Plain.bcrypt_hash Plain.bcrypt_compare None).
Abbreviation plain_authenticated := (authenticated Plain.hs256_decode None).
Abbreviation plain_anonymous := (anonymous Plain.hs256_decode None).

(** A sample request is authenticated as the claims its token was made
    from: the token is split off the header and verified by evaluation. *)
Ltac sample_auth claims :=
  exists (Plain.hs256_encode claims "super-secret-key");
  split; [split; [vm_compute; reflexivity | discriminate] | vm_compute; reflexivity].

(** Without a token the update is refused with 401, with an expired token
    the delete is refused with 403. *)
Lemma strict_mode_rejections_witness :
  let bare := Sample.request None "b1" Sample.contents in
  let expired := Sample.request (Sample.bearer_of Sample.stale) "b1" Sample.contents in
  no_token bare
  ∧ plain_app PUT_api_blogs_id Sample.world bare Sample.db
    = (res 401 (JsonError "Unauthorized"), Sample.db)
  ∧ has_token expired (Plain.hs256_encode Sample.stale "super-secret-key")
  ∧ plain_app DELETE_api_blogs_id Sample.world expired Sample.db
    = (res 403 (JsonError "Forbidden"), Sample.db).
Proof.
  intros bare expired.
  assert (no_token bare) as Hbare by (by left).
  assert (has_token expired (Plain.hs256_encode Sample.stale "super-secret-key")) as Hexpired
    by (split; [vm_compute; reflexivity | discriminate]).
  split; [exact Hbare|].
  split.
  - destruct (strict_mode_rejections Plain.hs256_encode Plain.hs256_decode
                Plain.bcrypt_hash Plain.bcrypt_compare None
                Sample.world bare Sample.db) as [H401 _].
    exact (proj1 (proj2 (H401 Hbare))).
  - split; [exact Hexpired|].
    destruct (strict_mode_rejections Plain.hs256_encode Plain.hs256_decode
                Plain.bcrypt_hash Plain.bcrypt_compare None
                Sample.world expired Sample.db) as [_ H403].
    assert (jwt_verify Plain.hs256_decode (Plain.hs256_encode Sample.stale "super-secret-key")
              (JWT_SECRET None) (now Sample.world) = inl TokenExpiredError) as Hverify
      by (vm_compute; reflexivity).
    exact (proj1 (proj2 (proj2 (H403 _ _ Hexpired Hverify)))).
Defined.



(** The anonymous listing of the sample database. *)
Lemma list_anonymous_blogs_witness :
  let req := Sample.request None "" Sample.no_body in
  plain_anonymous Sample.world req
  ∧ ∃ listed,
      plain_app GET_api_blogs Sample.world req Sample.db
      = (res 200 (JsonBlogs listed), Sample.db)
      ∧ (∀ id post, (id, post) ∈ listed → Blog.user_id post = None)
      ∧ (length listed ≤ 20)%nat.
Proof.
  intros req.
  assert (plain_anonymous Sample.world req) as Hanon by (left; by left).
  split; [exact Hanon|].
  destruct (list_anonymous_blogs Plain.hs256_encode Plain.hs256_decode
              Plain.bcrypt_hash Plain.bcrypt_compare None
              Sample.world req Sample.db Hanon)
    as (listed & Hreply & Hnull & _ & _ & Hlen & _).
  exists listed. split; [exact Hreply|]. split; [|exact Hlen].
  intros id post Hin. exact (proj2 (Hnull id post Hin)).
Defined.

(** Alice lists her own two posts. *)
Lemma list_own_blogs_sorted_witness :
  let req := Sample.request (Sample.bearer_of Sample.alice) "" Sample.no_body in
  plain_authenticated Sample.world req Sample.alice
  ∧ ∃ listed,
      plain_app GET_api_blogs Sample.world req Sample.db
      = (res 200 (JsonBlogs listed), Sample.db)
      ∧ (∀ id post, (id, post) ∈ listed
           ↔ blogsCol Sample.db !! id = Some post ∧ Blog.user_id post = Some "u-alice")
      ∧ StronglySorted
          (λ a b, (default 0 (Blog.created_at b.2) ≤ default 0 (Blog.created_at a.2))%Z)
          listed.
Proof.
  intros req.
  assert (plain_authenticated Sample.world req Sample.alice) as Hauth
    by sample_auth Sample.alice.
  split; [exact Hauth|].
  destruct (list_own_blogs_sorted Plain.hs256_encode Plain.hs256_decode
              Plain.bcrypt_hash Plain.bcrypt_compare None
              Sample.world req Sample.alice Sample.db Hauth)
    as (listed & Hreply & Hown & _ & Hsorted & _).
  exists listed. split; [exact Hreply|]. split; [exact Hown|exact Hsorted].
Defined.

(** The spelling [AdMiN] is refused. *)
Lemma register_admin_reserved_witness :
  let req := Sample.request None "" (Sample.credentials "AdMiN" "secret") in
  b_username (body req) = Some "AdMiN"
  ∧ Js.eq_ignore_case "AdMiN" "admin" = true
  ∧ plain_app POST_api_auth_register Sample.world req Sample.db
    = (res 400 (JsonError "Cannot register with this username"), Sample.db).
Proof.
  intros req. split; [reflexivity|]. split; [reflexivity|].
  apply (register_admin_reserved Plain.hs256_encode Plain.hs256_decode
           Plain.bcrypt_hash Plain.bcrypt_compare None
           Sample.world req Sample.db "AdMiN"); reflexivity.
Defined.

(** Dave registers and logs in. *)
Lemma register_then_login_witness :
  let req := Sample.request None "" (Sample.credentials "dave" "pw2") in
  let registered := plain_app POST_api_auth_register Sample.world req Sample.db in
  status registered.1 = 201
  ∧ ∃ id token claims,
      registered.1 = res 201 (JsonUser id "dave" "user")
      ∧ plain_app POST_api_auth_login Sample.world req registered.2
        = (res 200 (JsonLogin token id "dave" "user"), registered.2)
      ∧ jwt_verify Plain.hs256_decode token (JWT_SECRET None) (now Sample.world)
        = inr claims
      ∧ Claims.id claims = id
      ∧ Claims.username claims = "dave"
      ∧ Claims.role claims = "user".
Proof.
  intros req registered.
  assert (status registered.1 = 201) as Hstatus by (vm_compute; reflexivity).
  assert (plain_app POST_api_auth_register Sample.world req Sample.db
          = (registered.1, registered.2)) as Hregistered by apply surjective_pairing.
  clearbody registered.
  split; [exact Hstatus|].
  destruct (register_then_login Plain.hs256_encode Plain.hs256_decode
              Plain.bcrypt_hash Plain.bcrypt_compare None
              plain_decode_encode plain_compare_hash plain_hash_truthy
              Sample.world req Sample.db registered.1 registered.2 "dave" "pw2"
              Sample.world req eq_refl eq_refl Hregistered Hstatus eq_refl eq_refl)
    as (id & token & claims & Hreply & Hlogin & _ & Hverify & Hid & Hname & Hrole).
  exists id, token, claims.
  split; [exact Hreply|]. split; [exact Hlogin|]. split; [exact Hverify|].
  split; [exact Hid|]. split; [exact Hname|exact Hrole].
Defined.

(** A token issued five seconds after the epoch is refused one day and
    five seconds after the epoch. *)
Lemma token_expires_after_24h_witness :
  jwt_verify Plain.hs256_decode
    (jwt_sign Plain.hs256_encode "u-alice" "alice" "user" (JWT_SECRET None) expiresIn_24h 5000)
    (JWT_SECRET None) 86405000
  = inl TokenExpiredError.
Proof.
  destruct (token_expires_after_24h Plain.hs256_encode Plain.hs256_decode
              Plain.bcrypt_hash Plain.bcrypt_compare None
              plain_decode_encode "u-alice" "alice" "user" 5000)
    as (_ & _ & Hexpired & _).
  apply Hexpired. vm_compute. discriminate.
Defined.

(** A request with an expired token creates an anonymous post. *)
Lemma best_effort_mode_anonymous_witness :
  let req := Sample.request (Sample.bearer_of Sample.stale) "" Sample.contents in
  plain_anonymous Sample.world req
  ∧ ∃ id blog db',
      plain_app POST_api_blogs Sample.world req Sample.db = (res 201 (JsonBlog id blog), db')
      ∧ Blog.user_id blog = None.
Proof.
  intros req.
  assert (plain_anonymous Sample.world req) as Hanon.
  { right. exists (Plain.hs256_encode Sample.stale "super-secret-key"), TokenExpiredError.
    split; [split; [vm_compute; reflexivity | discriminate] | vm_compute; reflexivity]. }
  split; [exact Hanon|].
  destruct (best_effort_mode_anonymous Plain.hs256_encode Plain.hs256_decode
              Plain.bcrypt_hash Plain.bcrypt_compare None
              Sample.world req Sample.db Hanon) as (_ & _ & _ & _ & Hcreate).
  eexists _, _, _. split; [|shelve].
  apply (Hcreate "title" "content" "excerpt" "tone" "vi"); reflexivity.
  Unshelve. reflexivity.
Defined.

(** Alice rewrites her first post. *)
Lemma update_changes_contents_only_witness :
  let req := Sample.request (Sample.bearer_of Sample.alice) "b1" Sample.contents in
  let updated := plain_app PUT_api_blogs_id Sample.world req Sample.db in
  status updated.1 = 200
  ∧ usersCol updated.2 = usersCol Sample.db
  ∧ dom (blogsCol updated.2) = dom (blogsCol Sample.db)
  ∧ blogsCol updated.2
    = <["b1" := Blog.mk (Some "u-alice") "title" "content" "excerpt" "formal" "en"
                  (Some 1000%Z) (Some 5000%Z)]> (blogsCol Sample.db).
Proof.
  intros req updated.
  assert (status updated.1 = 200) as Hstatus by (vm_compute; reflexivity).
  assert (plain_app PUT_api_blogs_id Sample.world req Sample.db
          = (updated.1, updated.2)) as Hupdated by apply surjective_pairing.
  clearbody updated.
  split; [exact Hstatus|].
  destruct (update_changes_contents_only Plain.hs256_encode Plain.hs256_decode
              Plain.bcrypt_hash Plain.bcrypt_compare None
              Sample.world req Sample.db updated.1 updated.2 Hupdated)
    as (Husers & Hdom & Hnew & _).
  split; [exact Husers|]. split; [exact Hdom|].
  destruct (Hnew Hstatus)
    as (id & old & title & content & excerpt & Hpath & _ & Hold & Ht & Hc & He & ->).
  vm_compute in Hpath. injection Hpath as <-.
  vm_compute in Hold. injection Hold as <-.
  injection Ht as <-. injection Hc as <-. injection He as <-.
  reflexivity.
Defined.

(** Carol, unknown so far, signs in with Google and gets an account. *)
Lemma oauth_account_resolution_witness :
  let req := Sample.callback "code-carol" in
  query_code req = Some "code-carol"
  ∧ google Sample.world "code-carol" = Some Sample.carol
  ∧ ∃ userDoc db',
      plain_app GET_auth_google_callback Sample.world req Sample.db
      = (success_page Plain.hs256_encode None Sample.world userDoc, db')
      ∧ usersCol Sample.db !! userDoc.1 = None
      ∧ usersCol db' = <[userDoc.1 := userDoc.2]> (usersCol Sample.db)
      ∧ User.google_id userDoc.2 = Some "g-carol"
      ∧ User.password userDoc.2 = None.
Proof.
  intros req. split; [reflexivity|]. split; [reflexivity|].
  assert (Js.truthy (name Sample.carol) = true ∨ is_Some (email Sample.carol)) as Hnamed
    by (left; reflexivity).
  assert ("code-carol" ≠ "") as Hcode by discriminate.
  destruct (oauth_account_resolution Plain.hs256_encode Plain.hs256_decode
              Plain.bcrypt_hash Plain.bcrypt_compare None
              Sample.world req Sample.db "code-carol" Sample.carol
              eq_refl Hcode eq_refl Hnamed)
    as (userDoc & db' & Hreply & _ & Hcases).
  assert (byGoogleId Sample.carol Sample.db = []) as HbyId by (vm_compute; reflexivity).
  assert (byEmail Sample.carol Sample.db = []) as HbyEmail by (vm_compute; reflexivity).
  rewrite HbyId, HbyEmail in Hcases.
  destruct Hcases as (Hfresh & Hadded & _ & Hgoogle & _ & _ & Hpassword).
  exists userDoc, db'.
  split; [exact Hreply|]. split; [exact Hfresh|]. split; [exact Hadded|].
  split; [exact Hgoogle|exact Hpassword].
Defined.

(** C4, the failing input. The provider answers the code with a profile
    that has a subject id but neither a display name nor an email, for a
    subject no user is linked to: the callback replies 500 and creates no
    user, where the account resolution's third step would create one. *)
Theorem oauth_bare_profile_fails :
  google Sample.world "code-bare" = Some (mkProfile "g-bare" None None None)
  ∧ plain_app GET_auth_google_callback Sample.world (Sample.callback "code-bare") Sample.db
    = (res 500 (Text "Authentication failed"), Sample.db).
Proof.
  split; [reflexivity|].
  apply (oauth_unnamed_profile_fails Plain.hs256_encode Plain.hs256_decode
           Plain.bcrypt_hash Plain.bcrypt_compare None
           Sample.world (Sample.callback "code-bare") Sample.db "code-bare" Sample.bare).
  - reflexivity.
  - discriminate.
  - reflexivity.
  - reflexivity.
  - reflexivity.
  - vm_compute. reflexivity.
Qed.

(** Alice's first post is still hers after she has rewritten it. *)
Lemma blog_owner_immutable_witness :
  let req := Sample.request (Sample.bearer_of Sample.alice) "b1" Sample.contents in
  let updated := plain_app PUT_api_blogs_id Sample.world req Sample.db in
  ∃ post', blogsCol updated.2 !! "b1" = Some post' ∧ Blog.user_id post' = Some "u-alice".
Proof.
  intros req updated.
  assert (plain_app PUT_api_blogs_id Sample.world req Sample.db
          = (updated.1, updated.2)) as Hupdated by apply surjective_pairing.
  assert (is_Some (blogsCol updated.2 !! "b1")) as [post' Hpost']
    by (vm_compute; eauto).
  clearbody updated.
  exists post'. split; [exact Hpost'|].
  apply (blog_owner_immutable Plain.hs256_encode Plain.hs256_decode
           Plain.bcrypt_hash Plain.bcrypt_compare None
           PUT_api_blogs_id Sample.world req Sample.db updated.1 updated.2 "b1"
           (Sample.post (Some "u-alice") "first" 1000) post' Hupdated).
  - vm_compute. reflexivity.
  - exact Hpost'.
Defined.

(** ** The further properties on the sample data *)

(** Registering as [alice] once more is refused. *)
Lemma register_existing_username_rejected_witness :
  let req := Sample.request None "" (Sample.credentials "alice" "other") in
  plain_app POST_api_auth_register Sample.world req Sample.db
  = (res 400 (JsonError "Username already exists"), Sample.db).
Proof.
  intros req.
  apply (register_existing_username_rejected Plain.hs256_encode Plain.hs256_decode
           Plain.bcrypt_hash Plain.bcrypt_compare None
           Sample.world req Sample.db "alice" "u-alice"
           (User.mk "alice" (Some "$pw1") (Some "user") None None None 10)).
  - reflexivity.
  - vm_compute. discriminate.
  - vm_compute. reflexivity.
  - reflexivity.
Defined.

(** Dave's registration adds one user to the one stored. *)
Lemma register_adds_one_user_witness :
  let req := Sample.request None "" (Sample.credentials "dave" "pw2") in
  let registered := plain_app POST_api_auth_register Sample.world req Sample.db in
  status registered.1 = 201
  ∧ size (usersCol registered.2) = 2%nat
  ∧ blogsCol registered.2 = blogsCol Sample.db.
Proof.
  intros req registered.
  assert (status registered.1 = 201) as Hstatus by (vm_compute; reflexivity).
  assert (plain_app POST_api_auth_register Sample.world req Sample.db
          = (registered.1, registered.2)) as Hregistered by apply surjective_pairing.
  clearbody registered.
  split; [exact Hstatus|].
  destruct (register_adds_one_user Plain.hs256_encode Plain.hs256_decode
              Plain.bcrypt_hash Plain.bcrypt_compare None
              Sample.world req Sample.db registered.1 registered.2 Hregistered)
    as [_ Hadded].
  destruct (Hadded Hstatus) as (uname & pw & id & _ & _ & _ & _ & _ & _ & _ & Hsize & Hblogs).
  split; [exact Hsize|exact Hblogs].
Defined.

(** Dave cannot register a second time, even with another password. *)
Lemma register_twice_rejected_witness :
  let req := Sample.request None "" (Sample.credentials "dave" "pw2") in
  let again := Sample.request None "" (Sample.credentials "dave" "pw3") in
  let registered := plain_app POST_api_auth_register Sample.world req Sample.db in
  status registered.1 = 201
  ∧ plain_app POST_api_auth_register Sample.world again registered.2
    = (res 400 (JsonError "Username already exists"), registered.2).
Proof.
  intros req again registered.
  assert (status registered.1 = 201) as Hstatus by (vm_compute; reflexivity).
  assert (plain_app POST_api_auth_register Sample.world req Sample.db
          = (registered.1, registered.2)) as Hregistered by apply surjective_pairing.
  clearbody registered.
  split; [exact Hstatus|].
  exact (register_twice_rejected Plain.hs256_encode Plain.hs256_decode
           Plain.bcrypt_hash Plain.bcrypt_compare None
           Sample.world req Sample.db registered.1 registered.2 "dave"
           Sample.world again eq_refl Hregistered Hstatus eq_refl).
Defined.

(** Alice logs in with her password: nothing is written, and the reply
    names her id. *)
Lemma login_only_with_matching_password_witness :
  let req := Sample.request None "" (Sample.credentials "alice" "pw1") in
  let answered := plain_app POST_api_auth_login Sample.world req Sample.db in
  status answered.1 = 200
  ∧ answered.2 = Sample.db
  ∧ ∃ id u hash,
      usersCol Sample.db !! id = Some u ∧ User.username u = "alice"
      ∧ User.password u = Some hash ∧ Plain.bcrypt_compare "pw1" hash = true.
Proof.
  intros req answered.
  assert (status answered.1 = 200) as Hstatus by (vm_compute; reflexivity).
  assert (plain_app POST_api_auth_login Sample.world req Sample.db
          = (answered.1, answered.2)) as Hanswered by apply surjective_pairing.
  clearbody answered.
  split; [exact Hstatus|].
  destruct (login_only_with_matching_password Plain.hs256_encode Plain.hs256_decode
              Plain.bcrypt_hash Plain.bcrypt_compare None
              Sample.world req Sample.db answered.1 answered.2 Hanswered)
    as [Hsame Hok].
  split; [exact Hsame|].
  destruct (Hok Hstatus)
    as (uname & pw & id & u & hash & Hname & Hpw & Hu & Hun & Hhash & _ & Hcompare & _).
  injection Hname as <-. injection Hpw as <-.
  exists id, u, hash.
  split; [exact Hu|]. split; [exact Hun|]. split; [exact Hhash|exact Hcompare].
Defined.

(** Nobody is stored under the name [nobody]. *)
Lemma login_rejections_witness :
  let req := Sample.request None "" (Sample.credentials "nobody" "pw1") in
  plain_app POST_api_auth_login Sample.world req Sample.db
  = (res 401 (JsonError "Invalid credentials"), Sample.db).
Proof.
  intros req.
  destruct (login_rejections Plain.hs256_encode Plain.hs256_decode
              Plain.bcrypt_hash Plain.bcrypt_compare None
              Sample.world req Sample.db "nobody" eq_refl) as [Hnone _].
  apply Hnone. intros id u Hu. unfold Sample.db, usersCol in Hu.
  apply lookup_singleton_Some in Hu as [_ <-]. discriminate.
Defined.

(** Alice's listing leaves the sample database as it is. *)
Lemma reading_routes_write_nothing_witness :
  let req := Sample.request (Sample.bearer_of Sample.alice) "" Sample.no_body in
  (plain_app GET_api_blogs Sample.world req Sample.db).2 = Sample.db.
Proof.
  intros req.
  apply (reading_routes_write_nothing Plain.hs256_encode Plain.hs256_decode
           Plain.bcrypt_hash Plain.bcrypt_compare None
           Sample.world req Sample.db
           (plain_app GET_api_blogs Sample.world req Sample.db).1).
  right. left. apply surjective_pairing.
Defined.

(** An administrator counts one user in the sample database; Alice is
    refused. *)
Lemma admin_stats_counts_users_witness :
  let root := Sample.request (Sample.bearer_of Sample.root) "" Sample.no_body in
  let alice := Sample.request (Sample.bearer_of Sample.alice) "" Sample.no_body in
  plain_authenticated Sample.world root Sample.root
  ∧ plain_app GET_api_admin_stats Sample.world root Sample.db
    = (res 200 (JsonStats 1), Sample.db)
  ∧ plain_authenticated Sample.world alice Sample.alice
  ∧ plain_app GET_api_admin_stats Sample.world alice Sample.db
    = (res 403 (JsonError "Admin access required"), Sample.db).
Proof.
  intros root alice.
  assert (plain_authenticated Sample.world root Sample.root) as Hroot
    by sample_auth Sample.root.
  assert (plain_authenticated Sample.world alice Sample.alice) as Halice
    by sample_auth Sample.alice.
  split; [exact Hroot|]. split.
  - destruct (admin_stats_counts_users Plain.hs256_encode Plain.hs256_decode
                Plain.bcrypt_hash Plain.bcrypt_compare None
                Sample.world root Sample.root Sample.db Hroot) as [_ Hadmin].
    exact (proj1 (Hadmin eq_refl)).
  - split; [exact Halice|].
    destruct (admin_stats_counts_users Plain.hs256_encode Plain.hs256_decode
                Plain.bcrypt_hash Plain.bcrypt_compare None
                Sample.world alice Sample.alice Sample.db Halice) as [Huser _].
    apply Huser. discriminate.
Defined.

(** Alice creates a post; anybody can read it back under its new id. *)
Lemma create_then_read_witness :
  let req := Sample.request (Sample.bearer_of Sample.alice) "" Sample.contents in
  let created := plain_app POST_api_blogs Sample.world req Sample.db in
  status created.1 = 201
  ∧ plain_authenticated Sample.world req Sample.alice
  ∧ ∃ id blog,
      created.1 = res 201 (JsonBlog id blog)
      ∧ Blog.user_id blog = Some "u-alice"
      ∧ Blog.title blog = "title"
      ∧ plain_app GET_api_blogs_id Sample.world (Sample.request None id Sample.no_body)
          created.2
        = (res 200 (JsonBlog id blog), created.2).
Proof.
  intros req created.
  assert (status created.1 = 201) as Hstatus by (vm_compute; reflexivity).
  assert (plain_app POST_api_blogs Sample.world req Sample.db
          = (created.1, created.2)) as Hcreated by apply surjective_pairing.
  assert (plain_authenticated Sample.world req Sample.alice) as Hauth
    by sample_auth Sample.alice.
  clearbody created.
  split; [exact Hstatus|]. split; [exact Hauth|].
  destruct (create_then_read Plain.hs256_encode Plain.hs256_decode
              Plain.bcrypt_hash Plain.bcrypt_compare None
              Sample.world req Sample.db created.1 created.2 Hcreated) as [_ Hok].
  destruct (Hok Hstatus)
    as (id & blog & Hreply & _ & _ & _ & Htitle & _ & _ & _ & _ & _ & _ & _ & Hown & Hread).
  exists id, blog.
  split; [exact Hreply|]. split; [exact (Hown Sample.alice Hauth)|].
  split; [by injection Htitle|].
  apply Hread. reflexivity.
Defined.

(** An id with a trailing slash names the same blog: Alice's update under
    [b1/] rewrites [b1]. *)
Example update_trailing_slash :
  let req := Sample.request (Sample.bearer_of Sample.alice) "b1/" Sample.contents in
  let updated := plain_app PUT_api_blogs_id Sample.world req Sample.db in
  status updated.1 = 200 ∧ Blog.title <$> blogsCol updated.2 !! "b1" = Some "title".
Proof. by vm_compute. Qed.

(** Alice rewrites her first post; reading it shows the new contents. *)
Lemma update_then_read_witness :
  let req := Sample.request (Sample.bearer_of Sample.alice) "b1" Sample.contents in
  let updated := plain_app PUT_api_blogs_id Sample.world req Sample.db in
  status updated.1 = 200
  ∧ plain_app GET_api_blogs_id Sample.world (Sample.request None "b1" Sample.no_body)
      updated.2
    = (res 200 (JsonBlog "b1"
                  (Blog.mk (Some "u-alice") "title" "content" "excerpt" "formal" "en"
                     (Some 1000%Z) (Some 5000%Z))), updated.2).
Proof.
  intros req updated.
  assert (status updated.1 = 200) as Hstatus by (vm_compute; reflexivity).
  assert (plain_app PUT_api_blogs_id Sample.world req Sample.db
          = (updated.1, updated.2)) as Hupdated by apply surjective_pairing.
  clearbody updated.
  split; [exact Hstatus|].
  destruct (update_then_read Plain.hs256_encode Plain.hs256_decode
              Plain.bcrypt_hash Plain.bcrypt_compare None
              Sample.world req Sample.db updated.1 updated.2 Hupdated Hstatus)
    as (id & old & title & content & excerpt & Hpath & _ & Hold & Ht & Hc & He & Hread).
  vm_compute in Hpath. injection Hpath as <-.
  vm_compute in Hold. injection Hold as <-.
  injection Ht as <-. injection Hc as <-. injection He as <-.
  apply (Hread Sample.world (Sample.request None "b1" Sample.no_body)). reflexivity.
Defined.

(** Alice deletes her first post; it is gone, for readers and for a second
    delete. *)
Lemma delete_then_read_witness :
  let req := Sample.request (Sample.bearer_of Sample.alice) "b1" Sample.no_body in
  let deleted := plain_app DELETE_api_blogs_id Sample.world req Sample.db in
  status deleted.1 = 200
  ∧ plain_authenticated Sample.world req Sample.alice
  ∧ blogsCol deleted.2 !! "b2" = blogsCol Sample.db !! "b2"
  ∧ plain_app GET_api_blogs_id Sample.world (Sample.request None "b1" Sample.no_body)
      deleted.2
    = (res 404 (JsonError "Blog not found"), deleted.2)
  ∧ plain_app DELETE_api_blogs_id Sample.world req deleted.2
    = (res 404 (JsonError "Blog not found"), deleted.2).
Proof.
  intros req deleted.
  assert (status deleted.1 = 200) as Hstatus by (vm_compute; reflexivity).
  assert (plain_app DELETE_api_blogs_id Sample.world req Sample.db
          = (deleted.1, deleted.2)) as Hdeleted by apply surjective_pairing.
  assert (plain_authenticated Sample.world req Sample.alice) as Hauth
    by sample_auth Sample.alice.
  clearbody deleted.
  split; [exact Hstatus|]. split; [exact Hauth|].
  destruct (delete_then_read Plain.hs256_encode Plain.hs256_decode
              Plain.bcrypt_hash Plain.bcrypt_compare None
              Sample.world req Sample.db deleted.1 deleted.2 Hdeleted) as [_ Hok].
  destruct (Hok Hstatus) as (id & Hpath & _ & _ & _ & _ & Hothers & Hread & Hagain).
  vm_compute in Hpath. injection Hpath as <-.
  split; [apply Hothers; discriminate|].
  split.
  - apply (Hread Sample.world (Sample.request None "b1" Sample.no_body)). reflexivity.
  - apply (Hagain Sample.world req Sample.alice); [reflexivity|exact Hauth].
Defined.

(** The post Alice creates shows up in her listing. *)
Lemma created_blog_is_listed_witness :
  let req := Sample.request (Sample.bearer_of Sample.alice) "" Sample.contents in
  let list := Sample.request (Sample.bearer_of Sample.alice) "" Sample.no_body in
  let created := plain_app POST_api_blogs Sample.world req Sample.db in
  status created.1 = 201
  ∧ ∃ id blog listed,
      created.1 = res 201 (JsonBlog id blog)
      ∧ plain_app GET_api_blogs Sample.world list created.2
        = (res 200 (JsonBlogs listed), created.2)
      ∧ (id, blog) ∈ listed.
Proof.
  intros req list created.
  assert (status created.1 = 201) as Hstatus by (vm_compute; reflexivity).
  assert (plain_app POST_api_blogs Sample.world req Sample.db
          = (created.1, created.2)) as Hcreated by apply surjective_pairing.
  assert (plain_authenticated Sample.world req Sample.alice) as Hauth
    by sample_auth Sample.alice.
  assert (plain_authenticated Sample.world list Sample.alice) as Hauth'
    by sample_auth Sample.alice.
  clearbody created.
  split; [exact Hstatus|].
  exact (created_blog_is_listed Plain.hs256_encode Plain.hs256_decode
           Plain.bcrypt_hash Plain.bcrypt_compare None
           Sample.world req Sample.alice Sample.db created.1 created.2
           Sample.world list Sample.alice Hauth Hcreated Hstatus Hauth' eq_refl).
Defined.

(** The sample database has no [admin]; once seeded, the bootstrap
    password opens the account. *)
Lemma seeded_admin_can_login_witness :
  let req := Sample.request None "" (Sample.credentials "admin" "1900") in
  let seeded := seedAdmin Plain.bcrypt_hash Sample.world Sample.db in
  ∃ id token,
    plain_app POST_api_auth_login Sample.world req seeded
    = (res 200 (JsonLogin token id "admin" "admin"), seeded).
Proof.
  intros req seeded.
  destruct (seeded_admin_can_login Plain.hs256_encode Plain.hs256_decode
              Plain.bcrypt_hash Plain.bcrypt_compare None
              plain_decode_encode plain_compare_hash plain_hash_truthy
              Sample.world Sample.db Sample.world req)
    as (id & token & claims & Hlogin & _).
  - intros id u Hu. unfold Sample.db, usersCol in Hu.
    apply lookup_singleton_Some in Hu as [_ <-]. discriminate.
  - reflexivity.
  - reflexivity.
  - exists id, token. exact Hlogin.
Defined.

(** Carol signs in with Google twice: the second callback finds the
    account the first one made. *)
Lemma oauth_repeated_login_same_user_witness :
  let req := Sample.callback "code-carol" in
  let first := plain_app GET_auth_google_callback Sample.world req Sample.db in
  status first.1 = 200
  ∧ ∃ id uname role token token',
      first.1 = res 200 (OAuthSuccessPage token id uname role)
      ∧ plain_app GET_auth_google_callback Sample.world req first.2
        = (res 200 (OAuthSuccessPage token' id uname role), first.2).
Proof.
  intros req first.
  assert (status first.1 = 200) as Hstatus by (vm_compute; reflexivity).
  assert (plain_app GET_auth_google_callback Sample.world req Sample.db
          = (first.1, first.2)) as Hfirst by apply surjective_pairing.
  clearbody first.
  split; [exact Hstatus|].
  assert ("code-carol" ≠ "") as Hcode by discriminate.
  exact (oauth_repeated_login_same_user Plain.hs256_encode Plain.hs256_decode
           Plain.bcrypt_hash Plain.bcrypt_compare None
           Sample.world req Sample.db "code-carol" Sample.carol first.1 first.2
           Sample.world req "code-carol" Sample.carol
           eq_refl Hcode eq_refl Hfirst Hstatus eq_refl Hcode eq_refl eq_refl).
Defined.

(** The token of Carol's success page verifies to the account it names. *)
Lemma oauth_token_claims_witness :
  let req := Sample.callback "code-carol" in
  ∃ token id db',
    plain_app GET_auth_google_callback Sample.world req Sample.db
    = (res 200 (OAuthSuccessPage token id "Carol" "user"), db')
    ∧ jwt_verify Plain.hs256_decode token (JWT_SECRET None) (now Sample.world)
      = inr (Claims.mk id "Carol" "user" 5 (Some 86405%Z)).
Proof.
  intros req.
  assert (∃ token id db',
            plain_app GET_auth_google_callback Sample.world req Sample.db
            = (res 200 (OAuthSuccessPage token id "Carol" "user"), db'))
    as (token & id & db' & Hrun) by (eexists _, _, _; vm_compute; reflexivity).
  exists token, id, db'. split; [exact Hrun|].
  exact (proj2 (oauth_token_claims Plain.hs256_encode Plain.hs256_decode
                  Plain.bcrypt_hash Plain.bcrypt_compare None plain_decode_encode
                  Sample.world req Sample.db db' token id "Carol" "user" Hrun)).
Defined.

(** Alice is still stored, unchanged, after Dave has registered. *)
Lemma users_are_kept_witness :
  let req := Sample.request None "" (Sample.credentials "dave" "pw2") in
  let registered := plain_app POST_api_auth_register Sample.world req Sample.db in
  ∃ u', usersCol registered.2 !! "u-alice" = Some u'
        ∧ User.username u' = "alice" ∧ User.password u' = Some "$pw1"
        ∧ User.role u' = Some "user".
Proof.
  intros req registered.
  assert (plain_app POST_api_auth_register Sample.world req Sample.db
          = (registered.1, registered.2)) as Hregistered by apply surjective_pairing.
  clearbody registered.
  destruct (users_are_kept Plain.hs256_encode Plain.hs256_decode
              Plain.bcrypt_hash Plain.bcrypt_compare None
              POST_api_auth_register Sample.world req Sample.db
              registered.1 registered.2 "u-alice"
              (User.mk "alice" (Some "$pw1") (Some "user") None None None 10)
              Hregistered)
    as (u' & Hu' & Hname & Hpw & Hrole & _).
  - vm_compute. reflexivity.
  - exists u'. split; [exact Hu'|]. split; [exact Hname|]. split; [exact Hpw|exact Hrole].
Defined.

(** After Dave has registered with a seeded database, the one
    administrator is the seeded one. *)
Lemma admin_role_is_never_granted_witness :
  let req := Sample.request None "" (Sample.credentials "dave" "pw2") in
  let seeded := seedAdmin Plain.bcrypt_hash Sample.world Sample.db in
  let registered := plain_app POST_api_auth_register Sample.world req seeded in
  ∃ id u' u,
    usersCol registered.2 !! id = Some u' ∧ User.role u' = Some "admin"
    ∧ usersCol seeded !! id = Some u ∧ User.role u = Some "admin".
Proof.
  intros req seeded registered.
  assert (plain_app POST_api_auth_register Sample.world req seeded
          = (registered.1, registered.2)) as Hregistered by apply surjective_pairing.
  assert (∃ id u', usersCol registered.2 !! id = Some u' ∧ User.role u' = Some "admin")
    as (id & u' & Hu' & Hrole).
  { exists (fresh (dom (usersCol Sample.db))),
      (User.mk "admin" (Some "$1900") (Some "admin") None None None 5000).
    split; vm_compute; reflexivity. }
  clearbody registered. clearbody seeded.
  destruct (admin_role_is_never_granted Plain.hs256_encode Plain.hs256_decode
              Plain.bcrypt_hash Plain.bcrypt_compare None
              POST_api_auth_register Sample.world req seeded
              registered.1 registered.2 id u' Hregistered Hu' Hrole)
    as (u & Hu & Hrole0).
  exists id, u', u.
  split; [exact Hu'|]. split; [exact Hrole|]. split; [exact Hu|exact Hrole0].
Defined.

(** The header the client makes of the token [abc] is read back as
    [abc]; without a token, the server sees none. *)
Lemma client_header_round_trip_witness :
  let sent := Sample.request (Client.headers (Some "abc")) "" Sample.no_body in
  let bare := Sample.request (Client.headers None) "" Sample.no_body in
  has_token sent "abc" ∧ no_token bare.
Proof.
  intros sent bare. split.
  - destruct (client_header_round_trip sent (Some "abc") eq_refl) as [_ Hsent].
    apply (Hsent "abc"); [reflexivity|discriminate|reflexivity].
  - destruct (client_header_round_trip bare None eq_refl) as [Hbare _].
    apply Hbare. reflexivity.
Defined.

(** Alice logs in, and the client sends the token back at once: she is
    authenticated. A day later the same request is anonymous. *)
Lemma login_token_opens_session_witness :
  let req := Sample.request None "" (Sample.credentials "alice" "pw1") in
  let token := jwt_sign Plain.hs256_encode "u-alice" "alice" "user" (JWT_SECRET None)
                 expiresIn_24h 5000 in
  let next := Sample.request (Client.headers (Some token)) "" Sample.no_body in
  let later := mkWorld 86405000 "salt" (google Sample.world) in
  plain_app POST_api_auth_login Sample.world req Sample.db
  = (res 200 (JsonLogin token "u-alice" "alice" "user"), Sample.db)
  ∧ plain_authenticated Sample.world next
      (Claims.mk "u-alice" "alice" "user" 5 (Some 86405%Z))
  ∧ plain_anonymous later next.
Proof.
  intros req token next later.
  assert (plain_app POST_api_auth_login Sample.world req Sample.db
          = (res 200 (JsonLogin token "u-alice" "alice" "user"), Sample.db)) as Hlogin
    by (vm_compute; reflexivity).
  assert (token ≠ "") as Hne by (vm_compute; discriminate).
  assert (Js.split " " token = [token]) as Hsplit by (vm_compute; reflexivity).
  split; [exact Hlogin|]. split.
  - destruct (login_token_opens_session Plain.hs256_encode Plain.hs256_decode
                Plain.bcrypt_hash Plain.bcrypt_compare None plain_decode_encode
                Sample.world req Sample.db Sample.db token "u-alice" "alice" "user"
                Sample.world next Hlogin Hne Hsplit eq_refl) as [Hfresh _].
    apply Hfresh. vm_compute. reflexivity.
  - destruct (login_token_opens_session Plain.hs256_encode Plain.hs256_decode
                Plain.bcrypt_hash Plain.bcrypt_compare None plain_decode_encode
                Sample.world req Sample.db Sample.db token "u-alice" "alice" "user"
                later next Hlogin Hne Hsplit eq_refl) as [_ Hstale].
    apply Hstale. vm_compute. discriminate.
Defined.

(** An address with and without its trailing slash gives one redirect
    URI. *)
Lemma getBaseUrl_trailing_slash_witness :
  Oauth.getBaseUrl (Some "https://blog.example.com/") = "https://blog.example.com"
  ∧ Oauth.REDIRECT_URI (Some "https://blog.example.com/")
    = Oauth.REDIRECT_URI (Some "https://blog.example.com").
Proof.
  destruct (getBaseUrl_trailing_slash "https://blog.example.com")
    as (_ & Hslash & Hredirect & _).
  - discriminate.
  - discriminate.
  - discriminate.
  - vm_compute. reflexivity.
  - vm_compute. reflexivity.
  - split; [exact Hslash|exact Hredirect].
Defined.

(** The first call with the sample environment makes the app; a later
    call, with an empty environment and a library that refuses everything,
    still returns the same handle. *)
Lemma getDb_is_a_singleton_witness :
  let first := Firebase.getDb (λ _, None) Sample.env (Firebase.mkState [] None) in
  let empty := Firebase.mkEnv None None None in
  ∃ handle,
    first.1 = inr handle
    ∧ Firebase.apps first.2 = [handle]
    ∧ Firebase.getDb (λ _, Some "refused") empty first.2 = (inr handle, first.2).
Proof.
  intros first empty.
  destruct (getDb_is_a_singleton (λ _, None) Sample.env (Firebase.mkState [] None)
              first.1 first.2 (surjective_pairing _)) as [_ Hhandle].
  destruct (Hhandle _ eq_refl) as (_ & [[Hset _] | [(_ & _ & Happs) | (_ & Hhead & _)]]
                                   & Hlater); [discriminate| |discriminate].
  eexists. split; [reflexivity|]. split; [exact Happs|apply Hlater].
Defined.

(** Without a client email the first call fails and changes nothing. *)
Lemma getDb_missing_configuration_witness :
  let env := Firebase.mkEnv (Some "za-blog") (Some "") (Some "key") in
  Firebase.getDb (λ _, None) env (Firebase.mkState [] None)
  = (inl Firebase.missing, Firebase.mkState [] None).
Proof.
  intros env.
  destruct (getDb_missing_configuration (λ _, None) env (Firebase.mkState [] None) eq_refl)
    as [Hmissing _].
  apply Hmissing; [reflexivity|]. right. left. reflexivity.
Defined.

(** The sample key reaches the credential with its two line breaks. *)
Lemma getDb_credential_witness :
  let first := Firebase.getDb (λ _, None) Sample.env (Firebase.mkState [] None) in
  ∃ handle key,
    first.1 = inr handle
    ∧ Firebase.privateKey handle = Some key
    ∧ JsString.includes "\n" key = false
    ∧ String.length key = 13%nat.
Proof.
  intros first.
  destruct (getDb_credential (λ _, None) Sample.env (Firebase.mkState [] None)
              (Firebase.mkCert (Some "za-blog") (Some "admin@za-blog.example")
                 (Some (JsString.unescape_newlines "BEGIN\nkey\nEND")))
              first.2 eq_refl eq_refl (surjective_pairing _))
    as (project & email & key & _ & _ & _ & _ & Hkey & _ & _ & Hcert & Hnone & _).
  injection Hkey as <-.
  eexists _, _. split; [reflexivity|]. split; [reflexivity|].
  split; [exact Hnone|reflexivity].
Defined.
